(** * Product-page acquisition pipeline: a shallow embedding

    The development follows the Python sources file by file:
    [services/scraping_manager.py], [services/bs4_service.py],
    [services/firecrawl_service.py], [services/crawl4ai_service.py],
    [services/playwright_service.py], [services/content_filter.py],
    [services/deepseek_service.py] and the reconciliation buttons and the
    scraping loop of [app.py].

    Python strings are modelled as [string] (one [ascii] per character, so the
    model covers Latin-1 text); dictionaries whose iteration order is
    irrelevant are [gmap]s, the others association lists.  Everything the
    program obtains from outside (network, browser, clock, file system, the
    language model, third party parsers) is a field of the class [Runtime]:
    the theorems hold for every runtime. *)

From Stdlib Require Import ZArith Ascii String.
From stdpp Require Import base option list gmap strings pretty.

Set Default Proof Using "Type".

(* ================================================================== *)
(** * Python string primitives *)

Module Py.

(** [str.isspace] on one character: TAB, LF, VT, FF, CR, the separators
    FS, GS, RS, US, the blank, NEL (133) and the no-break space (160).
    The same class is what [\s] matches in a [str] pattern. *)
Definition isspace (c : ascii) : bool :=
  let n := nat_of_ascii c in
  ((9 <=? n)%nat && (n <=? 13)%nat) || ((28 <=? n)%nat && (n <=? 32)%nat)
  || (n =? 133)%nat || (n =? 160)%nat.

Fixpoint lstrip (s : string) : string :=
  match s with
  | String c s' => if isspace c then lstrip s' else s
  | EmptyString => EmptyString
  end.

Definition rstrip (s : string) : string := String.rev (lstrip (String.rev s)).

(** [s.strip()] *)
Definition strip (s : string) : string := rstrip (lstrip s).

(** Truthiness of a string: [if s:]. *)
Definition truthy (s : string) : bool :=
  match s with EmptyString => false | _ => true end.

(** A string made of white space only (the empty string included). *)
Fixpoint blank (s : string) : bool :=
  match s with
  | String c s' => isspace c && blank s'
  | EmptyString => true
  end.

Definition lower_char (c : ascii) : ascii :=
  let n := nat_of_ascii c in
  if ((65 <=? n)%nat && (n <=? 90)%nat) then ascii_of_nat (n + 32) else c.

(** [s.lower()] *)
Fixpoint lower (s : string) : string :=
  match s with
  | String c s' => String (lower_char c) (lower s')
  | EmptyString => EmptyString
  end.

Definition upper_char (c : ascii) : ascii :=
  let n := nat_of_ascii c in
  if ((97 <=? n)%nat && (n <=? 122)%nat) then ascii_of_nat (n - 32) else c.

(** [s.upper()] *)
Fixpoint upper (s : string) : string :=
  match s with
  | String c s' => String (upper_char c) (upper s')
  | EmptyString => EmptyString
  end.

(** [s.startswith(p)] *)
Fixpoint startswith (p s : string) : bool :=
  match p, s with
  | EmptyString, _ => true
  | String a p', String b s' => bool_decide (a = b) && startswith p' s'
  | String _ _, EmptyString => false
  end.

(** [p in s] *)
Fixpoint contains (p s : string) : bool :=
  startswith p s ||
  match s with
  | String _ s' => contains p s'
  | EmptyString => false
  end.

(** [s.split(sep)] for a one-character separator: never the empty list. *)
Fixpoint split_go (sep : ascii) (cur : string) (s : string) : list string :=
  match s with
  | EmptyString => [String.rev cur]
  | String c s' =>
      if bool_decide (c = sep) then String.rev cur :: split_go sep EmptyString s'
      else split_go sep (String c cur) s'
  end.
Definition split (sep : ascii) (s : string) : list string :=
  split_go sep EmptyString s.

(** [sep.join(parts)] *)
Fixpoint join (sep : string) (parts : list string) : string :=
  match parts with
  | [] => EmptyString
  | [p] => p
  | p :: rest => p +:+ sep +:+ join sep rest
  end.

(** [s.count(p)]: occurrences of [p] that do not overlap, scanning from
    the left; [skip] is the number of characters of the last match that
    are still to be passed over. *)
Fixpoint count_go (p : string) (skip : nat) (s : string) : nat :=
  match s with
  | EmptyString => 0
  | String _ s' =>
      match skip with
      | S k => count_go p k s'
      | O => if startswith p s
             then S (count_go p (String.length p - 1) s')
             else count_go p 0 s'
      end
  end.
Definition count (p s : string) : nat := count_go p 0 s.

(** [s[:n]] *)
Fixpoint take (n : nat) (s : string) : string :=
  match n, s with
  | S k, String c s' => String c (take k s')
  | _, _ => EmptyString
  end.

(** [str(x)] for an optional string: [None] prints as ["None"]. *)
Definition str_opt (o : option string) : string :=
  match o with Some s => s | None => "None" end.

(** [range(n)] *)
Definition range (n : nat) : list nat := seq 0 n.

End Py.

Global Arguments Py.take : simpl never.
Global Arguments Py.strip : simpl never.

(* ================================================================== *)
(** * Parsed pages *)

(** The value of an attribute in a [BeautifulSoup] tree: a string, or a list
    of strings for the attributes the parser splits ([class]). *)
Inductive AttrValue :=
| AttrStr (value : string)
| AttrList (values : list string).

(** A node of the tree: a string or an element with its attributes and its
    contents.  A parsed page is the list of the nodes at its top. *)
Local Unset Elimination Schemes.
Inductive Node :=
| Text (s : string)
| Tag (name : string) (attrs : gmap string AttrValue) (children : list Node).
Local Set Elimination Schemes.

(* ================================================================== *)
(** * Scrape results, events and the runtime *)

(** The four scraping strategies. *)
Inductive Variant := BS4 | Crawl4AI | Playwright | Firecrawl.

Global Instance Variant_eq_dec : EqDecision Variant.
Proof. solve_decision. Defined.

(** The dictionary every [scrape_url] returns.  [error] is [None] for
    Python's [None]; [filename] is [None] when the dictionary has no
    ["filename"] key at all (the failure results of the Firecrawl service
    and of the scraping loop of the application). *)
Record ScrapeResult := mkResult {
  success : bool;
  markdown : string;
  error : option string;
  filename : option string
}.

Global Instance ScrapeResult_eq_dec : EqDecision ScrapeResult.
Proof. solve_decision. Defined.

(** Outcome of [requests.Session.get]. *)
Record Response := mkResponse {
  status_code : Z;
  reason : string;
  resp_url : string;
  content : string
}.

Inductive GetOutcome :=
| GetTimeout                         (* requests.exceptions.Timeout *)
| GetConnectionError (msg : string)  (* requests.exceptions.ConnectionError *)
| GetRaised (msg : string)           (* any other exception, e.g. MissingSchema *)
| GetResponse (r : Response).

(** Outcome of [requests.post] on the hosted scrape endpoint, together with
    what [response.json()] makes of the body of an answer with status 200.
    [PostResponse]: an answer with this status and this text; when the
    status is 200 the body is JSON in the format of the API, an object
    whose ["data"], if present, is an object and whose ["markdown"], if
    present, is a string, and [resp_markdown] is
    [data.get("data", {}).get("markdown", "")].
    [PostNotJson]: an answer with status 200 whose body is not JSON, so that
    [response.json()] raises the [JSONDecodeError] of [requests], a
    [RequestException], with this message.
    A 200 answer whose JSON has another shape (["data"] null, ["markdown"]
    not a string) makes [scrape_url] raise [AttributeError], which nothing
    in the program catches: the run stops there.  Such answers are not
    outcomes of this type; the development covers the runs in which the
    hosted API keeps to its format or sends no JSON at all. *)
Inductive PostOutcome :=
| PostTimeout
| PostRequestException (msg : string)
| PostResponse (status : Z) (text : string) (resp_markdown : string)
| PostNotJson (text : string) (msg : string).

(** What [AsyncWebCrawler.arun] gives back, or the exception it raised.
    [crawl_markdown] is the raw markdown the service reads off the result
    (the empty string when the result has none). *)
Record CrawlResult := mkCrawl {
  crawl_success : bool;
  crawl_error_message : string;
  crawl_markdown : string;
  crawl_html : string
}.

Inductive CrawlOutcome :=
| CrawlRaised (msg : string)
| CrawlReturned (r : CrawlResult).

(** What is sent to the language model: which of the two system prompts,
    and the parts of the user prompt. *)
Record ChatRequest := mkRequest {
  req_has_mapping : bool;
  req_category : string;
  req_mm43 : string;          (* [mm43_context[:3000]], empty when absent *)
  req_headers_list : string;
  req_content : string        (* [markdown_content[:15000]] *)
}.

(** Outcome of [client.chat.completions.create] followed by
    [response.choices[0].message.content]: any exception, or the text. *)
Inductive ChatOutcome :=
| ChatRaised (msg : string)
| ChatContent (text : string).

(** Outcome of [json.loads]: a [JSONDecodeError], an object, or a value of
    another type ([len] is its length when it has one).  The values of an
    object are taken to be strings, as the prompt asks for. *)
Inductive JsonOutcome :=
| JsonDecodeError (msg : string)
| JsonObject (fields : gmap string string)
| JsonOther (type_name : string) (len : option nat).

(** The invariant of the specification: a success carries markdown and no
    error, a failure carries no markdown. *)
Definition spec_invariant (r : ScrapeResult) : Prop :=
  (success r = true → markdown r ≠ "" ∧ error r = None) ∧
  (success r = false → markdown r = "").

(** What the code guarantees: a success carries no error, a failure carries
    no markdown. *)
Definition well_formed (r : ScrapeResult) : Prop :=
  (success r = true → error r = None) ∧
  (success r = false → markdown r = "").

(** What a strategy does that can be observed from outside. *)
Inductive SvcEvent :=
| LogLine (line : string)
| Sleep (seconds : nat)
| Fetched (url : string) (o : GetOutcome)
| Posted (url : string) (o : PostOutcome)
| Completion (request : ChatRequest) (o : ChatOutcome).

(** The trace of the orchestrator: which strategy it entered and left, and
    what was emitted meanwhile (its own log lines included). *)
Inductive Event :=
| Call (v : Variant) (url : string)
| Return (v : Variant) (r : ScrapeResult)
| Emit (e : SvcEvent).

(** Everything outside the program. *)
Class Runtime := {
  World : Type;
  (** [self.session.get(url, headers=..., timeout=..., allow_redirects=True)] *)
  session_get : string → World → GetOutcome * World;
  (** [requests.post(f"{base_url}/scrape", ...)] for the page [url] *)
  requests_post : string → World → PostOutcome * World;
  (** [html2text.HTML2Text().handle] with the options of the services *)
  html2text : string → string;
  (** [BeautifulSoup(html, 'html.parser')] *)
  parse_html : string → list Node;
  (** [str(...)] of a tree *)
  render_html : list Node → string;
  (** Writing [{domain}_{timestamp}{tag}.md]: the file name, or the message
      of the exception *)
  write_artifact : string → string → string → World → (string + string) * World;
  (** [_run_async_crawl(url, log_callback)]: the lines it logs and what the
      crawling engine gives back *)
  crawl4ai_run : string → World → (list string * CrawlOutcome) * World;
  (** The browser session of the Playwright service up to [page.content()]:
      the lines logged meanwhile and the page, or the message of the
      exception that ended the session *)
  playwright_session : string → World → (list string * (string + string)) * World;
  (** [self.client.chat.completions.create(...)] and the text of its first
      choice *)
  chat_completion : ChatRequest → World → ChatOutcome * World;
  (** [json.loads] *)
  json_loads : string → JsonOutcome;
  (** [get_category_mapping_prompts] of [config/categories.py] *)
  get_category_mapping_prompts : string → gmap string string;
}.

(* ================================================================== *)
(** * A state monad with the events written so far *)

Definition State (Σ A : Type) : Type := Σ → A * Σ.

Global Instance State_ret {Σ} : MRet (State Σ) := λ A a s, (a, s).
Global Instance State_bind {Σ} : MBind (State Σ) :=
  λ A B k m s, let '(a, s') := m s in k a s'.

(** A loop with early exit: [inl r] is [return r] inside the body, [inr acc]
    goes on with the next element; the loop ends with [inr acc] when the
    elements are used up ([for x in xs: ...]). *)
Fixpoint for_each {Σ X Acc R} (xs : list X)
    (body : X → Acc → State Σ (R + Acc)) (acc : Acc) : State Σ (R + Acc) :=
  match xs with
  | [] => mret (inr acc)
  | x :: rest =>
      r ← body x acc;
      match r with
      | inl v => mret (inl v)
      | inr acc' => for_each rest body acc'
      end
  end.

Section Strategy.
Context `{Runtime}.

(** State of a running strategy: the world and the events so far. *)
Definition SvcState : Type := World * list SvcEvent.
Definition Svc (A : Type) : Type := State SvcState A.

Definition emit (e : SvcEvent) : Svc unit :=
  λ '(w, evs), (tt, (w, evs ++ [e])).

(** [if log_callback: log_callback(line)] *)
Definition log (log_callback : bool) (line : string) : Svc unit :=
  if log_callback then emit (LogLine line) else mret tt.

Definition in_world {A} (f : World → A * World) : Svc A :=
  λ '(w, evs), let '(a, w') := f w in (a, (w', evs)).

(** A strategy seen from the orchestrator: [scrape_url(url, log_callback)]. *)
Definition Service : Type := string → bool → Svc ScrapeResult.

(** [_save_markdown(url, content, log_callback)] of the services. *)
Definition _save_markdown (tag url content : string) (cb : bool) : Svc string :=
  r ← in_world (write_artifact tag url content);
  match r with
  | inl name => log cb ("   📁 Saved to: mdfiles/" +:+ name);; mret name
  | inr e => log cb ("   ⚠️ Could not save markdown: " +:+ e);; mret ""
  end.
End Strategy.

(** ** Reading the events of a strategy *)

(** The events that are not log lines. *)
Definition effects (evs : list SvcEvent) : list SvcEvent :=
  omap (λ e, match e with LogLine _ => None | _ => Some e end) evs.

(** The pauses of a run, in seconds. *)
Definition sleeps (evs : list SvcEvent) : list nat :=
  omap (λ e, match e with Sleep n => Some n | _ => None end) evs.

(** The outcomes of the POST requests, in order. *)
Definition posts (evs : list SvcEvent) : list PostOutcome :=
  omap (λ e, match e with Posted _ o => Some o | _ => None end) evs.

(** The requests made to the language model, in order. *)
Definition completions (evs : list SvcEvent) : list ChatRequest :=
  omap (λ e, match e with Completion request _ => Some request | _ => None end) evs.

(** ** Computations that differ in what they log only *)

(** Two computations agree up to [R]: from related states they return the
    same value and reach related states. *)
Definition agree {Σ A} (R : Σ → Σ → Prop) (m1 m2 : State Σ A) : Prop :=
  ∀ s1 s2, R s1 s2 → (m1 s1).1 = (m2 s2).1 ∧ R (m1 s1).2 (m2 s2).2.

(** The same world and the same events, log lines apart. *)
Definition same_effects `{Runtime} (s1 s2 : SvcState) : Prop :=
  s1.1 = s2.1 ∧ effects s1.2 = effects s2.2.

(* ================================================================== *)
(** * services/content_filter.py *)

Module ContentFilter.

Definition REMOVE_TAGS : list string :=
  [ "script"; "style"; "noscript"; "iframe"; "svg"; "canvas";
    "header"; "footer"; "nav"; "aside"; "menu"; "menuitem";
    "form"; "input"; "button"; "select"; "textarea" ].

Definition NOISE_PATTERNS : list string :=
  [ "header"; "navbar"; "nav-"; "navigation"; "top-bar"; "topbar";
    "menu"; "mega-menu"; "dropdown"; "hamburger";
    "footer"; "foot-"; "bottom-bar"; "bottombar"; "copyright";
    "related"; "recommend"; "similar"; "also-bought"; "also-viewed";
    "you-may-like"; "customers-also"; "frequently-bought";
    "carousel"; "slider"; "swiper"; "slick";
    "review"; "rating"; "comment"; "feedback"; "testimonial";
    "star-rating"; "user-review"; "customer-review";
    "social"; "share"; "facebook"; "twitter"; "instagram"; "pinterest";
    "whatsapp"; "telegram"; "linkedin";
    "banner"; "promo"; "popup"; "modal"; "overlay"; "ad-";
    "advertisement"; "sponsored"; "newsletter"; "subscribe";
    "breadcrumb"; "pagination"; "pager"; "sidebar"; "widget";
    "cookie"; "gdpr"; "consent"; "chat"; "support-chat";
    "recently-viewed"; "wishlist"; "compare" ].

Definition PRODUCT_PATTERNS : list string :=
  [ "product-title"; "product-name"; "product-info";
    "product-description"; "product-detail"; "product-spec";
    "specification"; "spec-table"; "tech-spec"; "features";
    "description"; "overview"; "about-product"; "highlights";
    "key-features"; "bullet"; "attribute"; "property";
    "price"; "offer"; "discount"; "sku"; "model";
    "dimensions"; "weight"; "capacity"; "warranty";
    "pdp-"; "detail-page"; "main-content"; "product-content";
    "title"; "titleblock"; "dp-"; "detail"; "feature";
    "a-section"; "a-row"; "a-box"; "atc-";
    "availability"; "buybox"; "cart";
    "item-"; "sku-"; "prod-"; "specs"; "info" ].

(** [_matches_pattern]: the patterns have no special character, so
    [re.search] looks for them as substrings. *)
Definition _matches_pattern (text : string) (patterns : list string) : bool :=
  if negb (Py.truthy text) then false
  else
    let text_lower := Py.lower text in
    existsb (λ pattern, Py.contains pattern text_lower) patterns.

(** [element.name], empty for a string. *)
Definition name (element : Node) : string :=
  match element with Tag n _ _ => n | Text _ => "" end.

Definition attrs (element : Node) : gmap string AttrValue :=
  match element with Tag _ a _ => a | Text _ => ∅ end.

Definition contents (element : Node) : list Node :=
  match element with Tag _ _ c => c | Text _ => [] end.

(** [class_str]: the classes joined by a blank, or the attribute as it is
    when the parser did not split it. *)
Definition class_str (element : Node) : string :=
  match attrs element !! "class" with
  | Some (AttrList classes) => Py.join " " classes
  | Some (AttrStr classes) => classes
  | None => Py.join " " []
  end.

(** [element.get("id", "")]; the parser never splits an id. *)
Definition elem_id (element : Node) : string :=
  match attrs element !! "id" with
  | Some (AttrStr i) => i
  | _ => ""
  end.

(** The loop over [element.attrs.items()]: some [data-] attribute has a
    string value that matches the noise patterns. *)
Definition data_noise (element : Node) : bool :=
  existsb (λ '(attr, value),
             Py.startswith "data-" attr &&
             match value with
             | AttrStr v => _matches_pattern v NOISE_PATTERNS
             | AttrList _ => false
             end)
          (map_to_list (attrs element)).

Definition _is_noise_element (element : Node) : bool :=
  if bool_decide (name element ∈ ["h1"; "h2"; "h3"; "main"; "article"]) then false
  else if _matches_pattern (class_str element) NOISE_PATTERNS
          && negb (_matches_pattern (class_str element) PRODUCT_PATTERNS) then true
  else if _matches_pattern (elem_id element) NOISE_PATTERNS
          && negb (_matches_pattern (elem_id element) PRODUCT_PATTERNS) then true
  else data_noise element.

Definition _is_product_element (element : Node) : bool :=
  _matches_pattern (class_str element) PRODUCT_PATTERNS
  || _matches_pattern (elem_id element) PRODUCT_PATTERNS.

(** The element and the elements below it, in document order. *)
Fixpoint tags (n : Node) : list Node :=
  match n with
  | Text _ => []
  | Tag _ _ children => n :: flat_map tags children
  end.

(** [element.find_all(True)]: the elements below this one. *)
Definition descendants (element : Node) : list Node :=
  flat_map tags (contents element).

(** [soup.find_all(True)] *)
Definition find_all (soup : list Node) : list Node := flat_map tags soup.

(** The strings below a node, in document order. *)
Fixpoint strings (n : Node) : list string :=
  match n with
  | Text s => [s]
  | Tag _ _ children => flat_map strings children
  end.

Definition concat_strings (l : list string) : string :=
  foldr String.append EmptyString l.

(** [element.get_text(strip=True)]: every string stripped, the empty ones
    left out, joined without separator. *)
Definition get_text_strip (element : Node) : string :=
  concat_strings (filter (λ s, s ≠ EmptyString) (Py.strip <$> strings element)).

(** [element.get_text()] *)
Definition get_text (element : Node) : string :=
  concat_strings (strings element).

(** [element.decompose()] for every element that is [doomed]; the test is
    made on the element as it is before anything below it is removed. *)
Fixpoint prune (doomed : Node → bool) (n : Node) : Node :=
  match n with
  | Text s => Text s
  | Tag nm a children =>
      Tag nm a (omap (λ c, if doomed c then None else Some (prune doomed c)) children)
  end.

Definition prune_soup (doomed : Node → bool) (soup : list Node) : list Node :=
  omap (λ c, if doomed c then None else Some (prune doomed c)) soup.

Definition is_tag (n : Node) : bool :=
  match n with Tag _ _ _ => true | Text _ => false end.

(** Step 1: the elements named in [REMOVE_TAGS]. *)
Definition unwanted (element : Node) : bool :=
  is_tag element && bool_decide (name element ∈ REMOVE_TAGS).

(** Step 2: the test that puts an element on [elements_to_remove]. *)
Definition noise_to_remove (element : Node) : bool :=
  is_tag element && _is_noise_element element &&
  if (100 <? String.length (get_text_strip element))%nat then false
  else if negb (_is_product_element element) then
    let has_product_child := existsb _is_product_element (descendants element) in
    negb has_product_child
  else false.

(** [elements_to_remove], in document order. *)
Definition elements_to_remove (soup : list Node) : list Node :=
  filter (λ e, noise_to_remove e = true) (find_all soup).

(** Step 3: no text, and no image or table below. *)
Definition empty_element (element : Node) : bool :=
  is_tag element &&
  negb (Py.truthy (get_text_strip element)) &&
  negb (existsb (λ d, bool_decide (name d ∈ ["img"; "table"])) (descendants element)).

(** [max(product_containers, key=lambda e: len(e.get_text()))]: the first of
    the largest ones. *)
Fixpoint largest (best : Node) (rest : list Node) : Node :=
  match rest with
  | [] => best
  | e :: rest' =>
      if (String.length (get_text best) <? String.length (get_text e))%nat
      then largest e rest' else largest best rest'
  end.

(** [clean_html_for_product] from the parsed page to the tree that is
    printed. *)
Definition clean_soup (soup : list Node) : list Node :=
  (* Step 1 *)
  let soup := prune_soup unwanted soup in
  (* Step 2 *)
  let soup := prune_soup noise_to_remove soup in
  (* Step 3 *)
  let soup := prune_soup empty_element soup in
  (* Step 4 *)
  let product_containers := filter (λ e, _is_product_element e = true) (find_all soup) in
  match product_containers with
  | first :: others => [largest first others]
  | [] =>
      match filter (λ e, name e = "body") (find_all soup) with
      | body :: _ => [body]
      | [] => soup
      end
  end.

(** The tree after steps 1 to 3, in which step 4 looks for the product
    containers. *)
Definition pruned (soup : list Node) : list Node :=
  prune_soup empty_element (prune_soup noise_to_remove (prune_soup unwanted soup)).

(** The tokens the claim about noise speaks of: the classes, the id and the
    values of the [data-] attributes of an element. *)
Definition tokens (element : Node) : list string :=
  [class_str element; elem_id element] ++
  omap (λ '(attr, value),
          match value with
          | AttrStr v => if Py.startswith "data-" attr then Some v else None
          | AttrList _ => None
          end)
       (map_to_list (attrs element)).

(** The element is protected in step 2: long text, or product content in it
    or below it. *)
Definition protected (element : Node) : Prop :=
  100 < String.length (get_text_strip element)
  ∨ _is_product_element element = true
  ∨ ∃ d, d ∈ descendants element ∧ _is_product_element d = true.

(** A block of specifications marked by a [data-] attribute whose value
    names both reviews and specs, and the same block marked by a class or by
    an id instead. *)
Definition spec_block_data : Node :=
  Tag "div" {[ "data-section" := AttrStr "review-specs" ]} [Text "Display: 6.1 inch"].

Definition spec_block_class : Node :=
  Tag "div" {[ "class" := AttrList ["review-specs"] ]} [Text "Display: 6.1 inch"].

Definition spec_block_id : Node :=
  Tag "div" {[ "id" := AttrStr "review-specs" ]} [Text "Display: 6.1 inch"].

(** A page with a title and one such block. *)
Definition page_with (block : Node) : list Node :=
  [ Tag "html" ∅ [ Tag "body" ∅ [ Tag "h1" ∅ [Text "Phone X"]; block ] ] ].

Section WithRuntime.
Context `{Runtime}.

(** [clean_html_for_product(html_content)] *)
Definition clean_html_for_product (html_content : string) : string :=
  render_html (clean_soup (parse_html html_content)).

(** The fallback of the services: only script, style, noscript and iframe
    are taken out. *)
Definition minimal_clean (raw_html : string) : string :=
  render_html
    (prune_soup (λ e, is_tag e && bool_decide (name e ∈ ["script"; "style"; "noscript"; "iframe"]))
       (parse_html raw_html)).

(** The HTML the BS4 and the Playwright service convert: the cleaned page,
    or the minimally cleaned one when the cleaned page has fewer than 500
    characters. *)
Definition filtered_or_minimal (raw_html : string) : string :=
  let cleaned_html := clean_html_for_product raw_html in
  if (String.length cleaned_html <? 500)%nat then minimal_clean raw_html
  else cleaned_html.
End WithRuntime.
End ContentFilter.

(* ================================================================== *)
(** * services/bs4_service.py *)

Module BS4Service.
Section BS4Service.
Context `{Runtime}.

(** What the body of the [try] raised. *)
Inductive Raised :=
| RaisedTimeout
| RaisedConnectionError (msg : string)
| RaisedException (msg : string).

(** [Response.raise_for_status] of the requests library: the message of
    the [HTTPError] for a 4xx or 5xx status. *)
Definition raise_for_status (r : Response) : option string :=
  let st := status_code r in
  if ((400 <=? st) && (st <? 500))%Z then
    Some (pretty st +:+ " Client Error: " +:+ reason r +:+ " for url: " +:+ resp_url r)
  else if ((500 <=? st) && (st <? 600))%Z then
    Some (pretty st +:+ " Server Error: " +:+ reason r +:+ " for url: " +:+ resp_url r)
  else None.

(** The body of the [try] of one attempt: the exception it raises, or the
    dictionary it returns. *)
Definition try_body (max_retries : nat) (url : string) (cb : bool)
    (attempt : nat) : Svc (Raised + ScrapeResult) :=
  (if (0 <? attempt)%nat then
     let wait_time := 2 ^ attempt in
     log cb ("   ⏳ Retry " +:+ pretty (attempt + 1) +:+ "/" +:+ pretty max_retries
             +:+ " after " +:+ pretty wait_time +:+ "s...");;
     emit (Sleep wait_time)
   else mret tt);;
  o ← in_world (session_get url);
  emit (Fetched url o);;
  match o with
  | GetTimeout => mret (inl RaisedTimeout)
  | GetConnectionError msg => mret (inl (RaisedConnectionError msg))
  | GetRaised msg => mret (inl (RaisedException msg))
  | GetResponse response =>
      if (status_code response =? 403)%Z then
        mret (inl (RaisedException "403 Forbidden - Site may be blocking requests"))
      else if (status_code response =? 429)%Z then
        mret (inl (RaisedException "429 Too Many Requests - Rate limited"))
      else if (status_code response =? 503)%Z then
        mret (inl (RaisedException "503 Service Unavailable - May need retry"))
      else
        match raise_for_status response with
        | Some msg => mret (inl (RaisedException msg))
        | None =>
            let raw_html := content response in
            let cleaned_html := ContentFilter.clean_html_for_product raw_html in
            cleaned_html ←
              (if (String.length cleaned_html <? 500)%nat then
                 log cb "   ⚠️ Filtered content too small, using minimal filtering...";;
                 mret (ContentFilter.minimal_clean raw_html)
               else mret cleaned_html);
            log cb ("   🧹 Filtered HTML: " +:+ pretty (String.length raw_html)
                    +:+ " → " +:+ pretty (String.length cleaned_html) +:+ " chars");;
            let markdown_content := html2text cleaned_html in
            log cb ("✅ BS4: Successfully scraped "
                    +:+ pretty (String.length markdown_content) +:+ " chars");;
            filename ← _save_markdown "_bs4" url markdown_content cb;
            mret (inr {| success := true; markdown := markdown_content;
                         error := None; filename := Some filename |})
        end
  end.

(** The three [except] clauses: the new value of [last_error]. *)
Definition handle (cb : bool) (attempt : nat) (e : Raised) : Svc string :=
  match e with
  | RaisedTimeout =>
      log cb ("   ⏱️ Timeout on attempt " +:+ pretty (attempt + 1));;
      mret "Request timed out"
  | RaisedConnectionError msg =>
      log cb ("   🔌 Connection error on attempt " +:+ pretty (attempt + 1));;
      mret ("Connection error: " +:+ msg)
  | RaisedException msg =>
      log cb ("   ⚠️ Error on attempt " +:+ pretty (attempt + 1) +:+ ": " +:+ msg);;
      mret msg
  end.

(** One turn of [for attempt in range(self.max_retries)]. *)
Definition attempt_once (max_retries : nat) (url : string) (cb : bool)
    (attempt : nat) (last_error : option string)
    : Svc (ScrapeResult + option string) :=
  t ← try_body max_retries url cb attempt;
  match t with
  | inr res => mret (inl res)
  | inl e => msg ← handle cb attempt e; mret (inr (Some msg))
  end.

Definition failed (last_error : option string) : ScrapeResult :=
  {| success := false; markdown := ""; error := last_error; filename := Some "" |}.

Definition scrape_url (max_retries : nat) (url : string) (cb : bool)
    : Svc ScrapeResult :=
  log cb ("🥣 BS4: Starting scrape for " +:+ url);;
  r ← for_each (Py.range max_retries) (attempt_once max_retries url cb) None;
  match r with
  | inl res => mret res
  | inr last_error =>
      log cb ("❌ BS4: Failed after " +:+ pretty max_retries +:+ " attempts - "
              +:+ Py.str_opt last_error);;
      mret (failed last_error)
  end.

(** ** Reading the events of a run *)

(** The events other than log lines: pauses and requests. *)
Definition net (evs : list SvcEvent) : list SvcEvent :=
  omap (λ e, match e with LogLine _ => None | _ => Some e end) evs.

(** The outcomes of the GET requests, in order. *)
Definition fetches (evs : list SvcEvent) : list GetOutcome :=
  omap (λ e, match e with Fetched _ o => Some o | _ => None end) evs.

(** The value an attempt with this outcome leaves in [last_error]; [None]
    when the attempt gets through to the [return] of the [try]. *)
Definition failure_of (o : GetOutcome) : option string :=
  match o with
  | GetTimeout => Some "Request timed out"
  | GetConnectionError msg => Some ("Connection error: " +:+ msg)
  | GetRaised msg => Some msg
  | GetResponse response =>
      if (status_code response =? 403)%Z then
        Some "403 Forbidden - Site may be blocking requests"
      else if (status_code response =? 429)%Z then
        Some "429 Too Many Requests - Rate limited"
      else if (status_code response =? 503)%Z then
        Some "503 Service Unavailable - May need retry"
      else raise_for_status response
  end.

(** The attempt whose request had this outcome raised an exception. *)
Definition fails (o : GetOutcome) : Prop := is_Some (failure_of o).

(** The pause before the attempt of this index. *)
Definition backoff (attempt : nat) : list SvcEvent :=
  if (0 <? attempt)%nat then [Sleep (2 ^ attempt)] else [].

(** The pauses and requests of consecutive attempts, from index [attempt]
    on, given the outcomes of their requests. *)
Fixpoint schedule (url : string) (attempt : nat) (outcomes : list GetOutcome)
    : list SvcEvent :=
  match outcomes with
  | [] => []
  | o :: rest => backoff attempt ++ [Fetched url o] ++ schedule url (S attempt) rest
  end.

(** The errors the specification calls permanent, as this service meets
    them: a 403 or 404 status, or a URL that [requests] rejects. *)
Definition permanent (o : GetOutcome) : Prop :=
  match o with
  | GetRaised _ => True
  | GetResponse response => status_code response = 403%Z ∨ status_code response = 404%Z
  | _ => False
  end.

(** The causes of a retry according to the specification: a timeout, a
    connection error, or a 403, 429 or 503 status. *)
Definition listed_retryable (o : GetOutcome) : Prop :=
  match o with
  | GetTimeout | GetConnectionError _ => True
  | GetResponse response =>
      status_code response = 403%Z ∨ status_code response = 429%Z
      ∨ status_code response = 503%Z
  | GetRaised _ => False
  end.
End BS4Service.
End BS4Service.

(* ================================================================== *)
(** * services/firecrawl_service.py *)

Module FirecrawlService.

(** [MAX_RETRIES] of [config/settings.py]. *)
Definition MAX_RETRIES : nat := 3.

Definition newline : ascii := "010"%char.

Fixpoint skip_while (p : ascii → bool) (s : string) : string :=
  match s with
  | String c s' => if p c then skip_while p s' else s
  | EmptyString => EmptyString
  end.

Definition is_hash (c : ascii) : bool := bool_decide (c = "#"%char).

(** What follows the hashes of [^#+], when the text starts with one. *)
Definition after_hashes (s : string) : option string :=
  match s with
  | String c s' => if is_hash c then Some (skip_while is_hash s') else None
  | EmptyString => None
  end.

(** [re.match(r'^#+\s*(w1|w2|...)', text)]: the words start with a letter,
    so the hashes and the white space are matched to their full extent. *)
Definition match_section (words : list string) (text : string) : bool :=
  match after_hashes text with
  | Some rest => existsb (λ w, Py.startswith w (Py.lstrip rest)) words
  | None => false
  end.

(** The alternatives of the seven [noise_section_patterns]; an optional
    last letter ([reviews?], [ratings?]) is left off. *)
Definition noise_section_patterns : list (list string) :=
  [ ["related"; "recommended"; "you may"; "also like"; "customers also"; "similar"];
    ["review"; "rating"; "customer feedback"; "testimonials"];
    ["footer"; "navigation"; "menu"; "links"];
    ["share"; "social"; "follow us"];
    ["newsletter"; "subscribe"; "sign up"];
    ["recently viewed"; "browsing history"];
    ["compare"; "wishlist"] ].

(** [re.match(r'^#+\s+', line)] *)
Definition match_heading (line : string) : bool :=
  match after_hashes line with
  | Some (String c _) => Py.isspace c
  | _ => false
  end.

(** The raw string [r'what\'s in'] keeps its backslash. *)
Definition good_patterns : list string :=
  [ "description"; "specification"; "feature"; "detail";
    "overview"; "about"; "highlight"; "what\'s in";
    "technical"; "dimension"; "warranty" ].

Definition ends_with_paren (s : string) : option string :=
  match String.rev s with
  | String c r => if bool_decide (c = ")"%char) then Some (String.rev r) else None
  | EmptyString => None
  end.

(** [re.match(r'^\s*[\*\-]\s*\[.*?\]\(.*?\)\s*$', line)]: a bullet whose
    text is one link. *)
Definition match_link_bullet (line : string) : bool :=
  match Py.lstrip line with
  | String b r =>
      (bool_decide (b = "*"%char) || bool_decide (b = "-"%char)) &&
      match Py.lstrip r with
      | String o rest =>
          bool_decide (o = "["%char) &&
          match ends_with_paren (Py.rstrip rest) with
          | Some body => Py.contains "](" body
          | None => false
          end
      | EmptyString => false
      end
  | EmptyString => false
  end.

(** [re.match(r'^\s*\|.*\|.*\|', line)]: a row with three pipes or more. *)
Definition match_table_row (line : string) : bool :=
  match Py.lstrip line with
  | String p rest => bool_decide (p = "|"%char) && (2 <=? Py.count "|" rest)%nat
  | EmptyString => false
  end.

Definition noise_line_patterns : list (string → bool) :=
  [ match_link_bullet; match_table_row ].

(** One turn of [for line in lines], on [(filtered_lines, skip_section)]. *)
Definition filter_line (st : list string * bool) (line : string)
    : list string * bool :=
  let '(filtered_lines, skip_section) := st in
  let line_lower := Py.lower line in
  let skip_section :=
    if existsb (λ pattern, match_section pattern line_lower) noise_section_patterns
    then true else skip_section in
  let skip_section :=
    if skip_section && match_heading line then
      if existsb (λ gp, Py.contains gp line_lower) good_patterns
      then false else skip_section
    else skip_section in
  if skip_section then (filtered_lines, skip_section)
  else
    let is_noise_line := existsb (λ pattern, pattern line) noise_line_patterns in
    if (3 <? Py.count "](" line)%nat then (filtered_lines, skip_section)
    else if negb is_noise_line then (filtered_lines ++ [line], skip_section)
    else (filtered_lines, skip_section).

(** A line the loop may keep: at most three links, not a bullet that is
    one link, not a table row with three pipes. *)
Definition clean_line (line : string) : Prop :=
  Py.count "](" line ≤ 3 ∧ match_link_bullet line = false ∧
  match_table_row line = false.

(** The two tests of the loop on a line: it opens a noise section; it is
    a heading that names a wanted topic. *)
Definition opens_noise_section (line : string) : bool :=
  existsb (λ pattern, match_section pattern (Py.lower line)) noise_section_patterns.
Definition good_heading (line : string) : bool :=
  match_heading line &&
  existsb (λ gp, Py.contains gp (Py.lower line)) good_patterns.

Fixpoint newlines (n : nat) : string :=
  match n with O => EmptyString | S k => String newline (newlines k) end.

(** [re.sub(r'\n{4,}', '\n\n\n', text)]; [run] counts the line feeds just
    read. *)
Fixpoint squeeze_newlines (run : nat) (s : string) : string :=
  match s with
  | String c s' =>
      if bool_decide (c = newline) then squeeze_newlines (S run) s'
      else newlines (if (4 <=? run)%nat then 3 else run)
           +:+ String c (squeeze_newlines 0 s')
  | EmptyString => newlines (if (4 <=? run)%nat then 3 else run)
  end.

Definition _filter_markdown (markdown : string) : string :=
  let lines := Py.split newline markdown in
  let '(filtered_lines, _) := foldl filter_line ([], false) lines in
  let result := Py.join (String newline EmptyString) filtered_lines in
  let result := squeeze_newlines 0 result in
  Py.strip result.

Section FirecrawlService.
Context `{Runtime}.

(** The failure dictionaries of this service have no ["filename"] key. *)
Definition failed (msg : string) : ScrapeResult :=
  {| success := false; markdown := ""; error := Some msg; filename := None |}.

Definition _save_markdown (url content : string) (cb : bool) : Svc string :=
  r ← in_world (write_artifact "" url content);
  match r with
  | inl name => log cb ("   📁 Saved to: mdfiles/" +:+ name);; mret name
  | inr e => log cb ("   ⚠️ Could not save markdown: " +:+ e);; mret ""
  end.

(** One turn of [for attempt in range(MAX_RETRIES)]. *)
Definition attempt_once (url : string) (cb : bool) (attempt : nat) (_ : unit)
    : Svc (ScrapeResult + unit) :=
  log cb ("   Attempt " +:+ pretty (attempt + 1) +:+ "/" +:+ pretty MAX_RETRIES +:+ "...");;
  o ← in_world (requests_post url);
  emit (Posted url o);;
  match o with
  | PostResponse status text raw_markdown =>
      if (status =? 200)%Z then
        let markdown_content := _filter_markdown raw_markdown in
        log cb ("✅ Firecrawl: Successfully scraped " +:+ url);;
        log cb ("   🧹 Filtered: " +:+ pretty (String.length raw_markdown) +:+ " → "
                +:+ pretty (String.length markdown_content) +:+ " chars");;
        filename ← _save_markdown url markdown_content cb;
        mret (inl {| success := true; markdown := markdown_content;
                     error := None; filename := Some filename |})
      else
        let error_msg := "HTTP " +:+ pretty status +:+ ": " +:+ text in
        log cb ("⚠️ Firecrawl: Error - " +:+ error_msg);;
        if bool_decide (attempt = MAX_RETRIES - 1) then mret (inl (failed error_msg))
        else mret (inr tt)
  | PostTimeout =>
      log cb ("⚠️ Firecrawl: Timeout on attempt " +:+ pretty (attempt + 1));;
      if bool_decide (attempt = MAX_RETRIES - 1) then mret (inl (failed "Request timeout"))
      else mret (inr tt)
  | PostRequestException e =>
      log cb ("⚠️ Firecrawl: Request error - " +:+ e);;
      if bool_decide (attempt = MAX_RETRIES - 1) then mret (inl (failed e))
      else mret (inr tt)
  | PostNotJson _ e =>
      (* [response.json()] raises inside the [try]: the same clause *)
      log cb ("⚠️ Firecrawl: Request error - " +:+ e);;
      if bool_decide (attempt = MAX_RETRIES - 1) then mret (inl (failed e))
      else mret (inr tt)
  end.

(** The error an attempt with this outcome reports when it is the last
    one; [None] for a 200 response. *)
Definition post_failure (o : PostOutcome) : option string :=
  match o with
  | PostTimeout => Some "Request timeout"
  | PostRequestException e => Some e
  | PostResponse status text _ =>
      if (status =? 200)%Z then None
      else Some ("HTTP " +:+ pretty status +:+ ": " +:+ text)
  | PostNotJson _ e => Some e
  end.

(** [api_key] is [self.api_key]. *)
Definition scrape_url (api_key : string) (url : string) (cb : bool)
    : Svc ScrapeResult :=
  if negb (Py.truthy api_key) then mret (failed "Firecrawl API key not configured")
  else
    log cb ("🔥 Firecrawl: Starting scrape for " +:+ url);;
    r ← for_each (Py.range MAX_RETRIES) (attempt_once url cb) tt;
    match r with
    | inl res => mret res
    | inr _ => mret (failed "Max retries exceeded")
    end.

(** The entry of [scrape_multiple_urls] for an empty URL: it has no
    ["filename"] key. *)
Definition empty_url : ScrapeResult :=
  {| success := false; markdown := ""; error := Some "Empty URL"; filename := None |}.

(** [for i, url in enumerate(urls)] from index [i] on; [total] is
    [len(urls)] and the result is [results] in insertion order. *)
Fixpoint scrape_from (api_key : string) (total i : nat) (urls : list string)
    (cb : bool) : Svc (list (string * ScrapeResult)) :=
  match urls with
  | [] => mret []
  | url :: rest =>
      result ←
        (if Py.truthy url && Py.truthy (Py.strip url) then
           log cb (String newline ("📄 Processing URL " +:+ pretty (i + 1)
                                   +:+ "/" +:+ pretty total));;
           scrape_url api_key (Py.strip url) cb
         else mret empty_url);
      more ← scrape_from api_key total (S i) rest cb;
      mret (("url" +:+ pretty (i + 1), result) :: more)
  end.

Definition scrape_multiple_urls (api_key : string) (urls : list string)
    (cb : bool) : Svc (list (string * ScrapeResult)) :=
  scrape_from api_key (length urls) 0 urls cb.
End FirecrawlService.
End FirecrawlService.

(* ================================================================== *)
(** * services/crawl4ai_service.py *)

Module Crawl4AIService.
Section Crawl4AIService.
Context `{Runtime}.

Definition failed (msg : string) : ScrapeResult :=
  {| success := false; markdown := ""; error := Some msg; filename := Some "" |}.

(** The body of the [try]: the message of the exception, or the result. *)
Definition try_body (url : string) (cb : bool) : Svc (string + ScrapeResult) :=
  '(lines, o) ← in_world (crawl4ai_run url);
  (if cb then mapM (λ l, emit (LogLine l)) lines;; mret tt else mret tt);;
  match o with
  | CrawlRaised msg => mret (inl msg)
  | CrawlReturned result =>
      if negb (crawl_success result) then
        mret (inl ("Crawl failed: " +:+ crawl_error_message result))
      else
        let raw_markdown := crawl_markdown result in
        if negb (Py.truthy raw_markdown) then
          mret (inl "No markdown content returned")
        else
          markdown ←
            (if Py.truthy (crawl_html result) then
               let cleaned_html := ContentFilter.clean_html_for_product (crawl_html result) in
               if (String.length cleaned_html <? 500)%nat then
                 log cb "   ⚠️ Filtered content too small, using raw markdown";;
                 mret raw_markdown
               else
                 let markdown := html2text cleaned_html in
                 log cb ("   🧹 Filtered: " +:+ pretty (String.length (crawl_html result))
                         +:+ " → " +:+ pretty (String.length cleaned_html) +:+ " chars");;
                 mret markdown
             else mret raw_markdown);
          log cb ("✅ Crawl4AI: Successfully scraped "
                  +:+ pretty (String.length markdown) +:+ " chars");;
          filename ← _save_markdown "_c4ai" url markdown cb;
          mret (inr {| success := true; markdown := markdown;
                       error := None; filename := Some filename |})
  end.

(** [available] is the module flag [CRAWL4AI_AVAILABLE]. *)
Definition scrape_url (available : bool) (url : string) (cb : bool)
    : Svc ScrapeResult :=
  if negb available then
    let error_msg := "Crawl4AI not installed. Run: pip install crawl4ai && crawl4ai-setup" in
    log cb ("❌ " +:+ error_msg);;
    mret (failed error_msg)
  else
    log cb ("🕷️ Crawl4AI: Fetching " +:+ url +:+ "...");;
    t ← try_body url cb;
    match t with
    | inr res => mret res
    | inl error_msg =>
        log cb ("❌ Crawl4AI: Failed - " +:+ error_msg);;
        mret (failed error_msg)
    end.
End Crawl4AIService.
End Crawl4AIService.

(* ================================================================== *)
(** * Regular expressions *)

(** The patterns of [PlaywrightService._clean_markdown] use no group
    reference and no look-around: whether [re.match] finds a match is
    whether the text is in the language of the pattern, which is decided
    here with derivatives. *)
Module Re.
Inductive t :=
| Void                                (* matches nothing *)
| Eps                                 (* the empty text *)
| Class (p : ascii → bool)            (* one character of a class *)
| Cat (r1 r2 : t)
| Alt (r1 r2 : t)
| Star (r : t).

Fixpoint nullable (r : t) : bool :=
  match r with
  | Void => false
  | Eps => true
  | Class _ => false
  | Cat r1 r2 => nullable r1 && nullable r2
  | Alt r1 r2 => nullable r1 || nullable r2
  | Star _ => true
  end.

Fixpoint deriv (c : ascii) (r : t) : t :=
  match r with
  | Void | Eps => Void
  | Class p => if p c then Eps else Void
  | Cat r1 r2 =>
      if nullable r1 then Alt (Cat (deriv c r1) r2) (deriv c r2)
      else Cat (deriv c r1) r2
  | Alt r1 r2 => Alt (deriv c r1) (deriv c r2)
  | Star r1 => Cat (deriv c r1) (Star r1)
  end.

(** The whole text is in the language of [r]. *)
Fixpoint fullmatch (r : t) (text : string) : bool :=
  match text with
  | EmptyString => nullable r
  | String c rest => fullmatch (deriv c r) rest
  end.

Definition char (c : ascii) : t := Class (λ x, bool_decide (x = c)).

(** A literal text. *)
Fixpoint lit (s : string) : t :=
  match s with
  | EmptyString => Eps
  | String c rest => Cat (char c) (lit rest)
  end.

(** [[...]] with the characters of [s]. *)
Definition one_of (s : string) : t :=
  Class (λ x, bool_decide (x ∈ list_ascii_of_string s)).

Definition seq (rs : list t) : t := foldr Cat Eps rs.
Definition alt (rs : list t) : t := foldr Alt Void rs.
Definition opt (r : t) : t := Alt r Eps.

(** [r{n}], [r{n,}] and [r{1,n+1}] *)
Fixpoint times (n : nat) (r : t) : t :=
  match n with O => Eps | S k => Cat r (times k r) end.
Definition at_least (n : nat) (r : t) : t := Cat (times n r) (Star r).
Fixpoint up_to (n : nat) (r : t) : t :=
  match n with O => Eps | S k => opt (Cat r (up_to k r)) end.

(** [\s*] and [.*]; the dot matches everything but a line feed. *)
Definition ws : t := Star (Class Py.isspace).
Definition any : t := Star (Class (λ x, negb (bool_decide (x = "010"%char)))).
End Re.

(* ================================================================== *)
(** * services/playwright_service.py *)

Module PlaywrightService.
Section PlaywrightService.
Context `{Runtime}.

Definition failed (msg : string) : ScrapeResult :=
  {| success := false; markdown := ""; error := Some msg; filename := Some "" |}.

(** ** [_clean_markdown] *)

(** The sixteen [skip_patterns], anchored at both ends; they are matched
    against the line in lower case and stripped.  The copyright sign is the
    character 169. *)
Definition skip_patterns : list Re.t :=
  [ Re.seq [ Re.char "#"; Re.up_to 5 (Re.char "#"); Re.ws;
             Re.alt [ Re.lit "menu"; Re.lit "navigation"; Re.lit "footer";
                      Re.lit "header";
                      Re.seq [Re.lit "sign"; Re.ws; Re.lit "in"];
                      Re.seq [Re.lit "log"; Re.ws; Re.lit "in"];
                      Re.lit "cart"; Re.lit "wishlist"; Re.lit "account" ];
             Re.any ];
    Re.seq [ Re.ws; Re.char "|"; Re.ws; Re.char "|"; Re.ws ];
    Re.at_least 10 (Re.one_of "-=_");
    Re.seq [ Re.ws; Re.char (ascii_of_nat 169); Re.any ];
    Re.seq [ Re.ws; Re.lit "all"; Re.ws; Re.lit "rights"; Re.ws;
             Re.lit "reserved"; Re.any ];
    Re.seq [ Re.ws; Re.lit "privacy"; Re.ws; Re.lit "policy"; Re.any ];
    Re.seq [ Re.ws; Re.lit "terms"; Re.ws;
             Re.alt [ Re.seq [Re.lit "of"; Re.ws; Re.lit "service"];
                      Re.seq [Re.lit "&"; Re.ws; Re.lit "conditions"] ];
             Re.any ];
    Re.seq [ Re.ws; Re.lit "cookie"; Re.ws; Re.lit "policy"; Re.any ];
    Re.seq [ Re.ws; Re.alt [Re.lit "subscribe"; Re.lit "newsletter"]; Re.any ];
    Re.seq [ Re.ws; Re.lit "follow"; Re.ws; Re.lit "us"; Re.any ];
    Re.seq [ Re.ws;
             Re.alt [ Re.lit "facebook"; Re.lit "twitter"; Re.lit "instagram";
                      Re.lit "youtube"; Re.lit "linkedin"; Re.lit "pinterest" ];
             Re.any ];
    Re.seq [ Re.ws; Re.lit "share"; Re.ws;
             Re.alt [Re.lit "this"; Re.lit "on"; Re.lit "via"]; Re.any ];
    Re.seq [ Re.lit "skip"; Re.ws; Re.lit "to"; Re.ws;
             Re.opt (Re.seq [Re.lit "main"; Re.ws]); Re.lit "content"; Re.any ];
    Re.seq [ Re.ws; Re.char "*"; Re.ws ];
    Re.seq [ Re.ws; Re.lit "loading"; Re.at_least 3 (Re.char ".") ];
    Re.seq [ Re.ws; Re.lit "please"; Re.ws; Re.lit "wait"; Re.any ] ].

(** [should_skip] for a line. *)
Definition should_skip (line : string) : bool :=
  let line_lower := Py.strip (Py.lower line) in
  existsb (λ pattern, Re.fullmatch pattern line_lower) skip_patterns.

(** One turn of [for line in lines], on [cleaned_lines]. *)
Definition clean_line (cleaned_lines : list string) (line : string) : list string :=
  if negb (Py.truthy (Py.strip line)) then
    match last cleaned_lines with
    | Some l => if bool_decide (Py.strip l = "") then cleaned_lines
                else cleaned_lines ++ [line]
    | None => cleaned_lines ++ [line]
    end
  else if should_skip line then cleaned_lines
  else cleaned_lines ++ [line].

Definition _clean_markdown (markdown : string) : string :=
  let lines := Py.split FirecrawlService.newline markdown in
  let cleaned_lines := foldl clean_line [] lines in
  Py.join (String FirecrawlService.newline EmptyString) cleaned_lines.

(** No two blank lines follow each other. *)
Fixpoint no_blank_run (lines : list string) : bool :=
  match lines with
  | a :: (b :: _) as rest => negb (Py.blank a && Py.blank b) && no_blank_run rest
  | _ => true
  end.

(** ** [scrape_url] *)

(** The body of the [try]: the message of the exception, or the result. *)
Definition try_body (url : string) (cb : bool) : Svc (string + ScrapeResult) :=
  '(lines, o) ← in_world (playwright_session url);
  (if cb then mapM (λ l, emit (LogLine l)) lines;; mret tt else mret tt);;
  match o with
  | inl msg => mret (inl msg)
  | inr raw_content =>
      let cleaned_html := ContentFilter.clean_html_for_product raw_content in
      cleaned_html ←
        (if (String.length cleaned_html <? 500)%nat then
           log cb "   ⚠️ Filtered content too small, using minimal filtering...";;
           mret (ContentFilter.minimal_clean raw_content)
         else mret cleaned_html);
      log cb ("   🧹 Filtered HTML: " +:+ pretty (String.length raw_content)
              +:+ " → " +:+ pretty (String.length cleaned_html) +:+ " chars");;
      let markdown := html2text cleaned_html in
      let markdown := _clean_markdown markdown in
      log cb ("✅ Playwright: Successfully scraped "
              +:+ pretty (String.length markdown) +:+ " chars");;
      filename ← _save_markdown "_pw" url markdown cb;
      mret (inr {| success := true; markdown := markdown;
                   error := None; filename := Some filename |})
  end.

(** [installed] tells whether [sync_playwright] could be imported. *)
Definition scrape_url (installed : bool) (url : string) (cb : bool)
    : Svc ScrapeResult :=
  if negb installed then mret (failed "Playwright not installed")
  else
    log cb ("🎭 Playwright: Fetching " +:+ url +:+ "...");;
    t ← try_body url cb;
    match t with
    | inr res => mret res
    | inl error_msg =>
        log cb ("❌ Playwright: Failed - " +:+ error_msg);;
        mret (failed error_msg)
    end.

End PlaywrightService.
End PlaywrightService.

Global Arguments PlaywrightService._clean_markdown : simpl never.

(* ================================================================== *)
(** * services/scraping_manager.py *)

Module ScrapingManager.
Section ScrapingManager.
Context `{Runtime}.

(** The object built by [__init__]: the two optional services are [None]
    when their module could not be imported. *)
Record t := mk {
  bs4_service : Service;
  firecrawl_service : Service;
  crawl4ai_service : option Service;
  playwright_service : option Service
}.

Definition MgrState : Type := World * list Event.
Definition Mgr (A : Type) : Type := State MgrState A.

(** [if log_callback: log_callback(line)] *)
Definition log_line (cb : bool) (line : string) : Mgr unit :=
  λ '(w, tr), (tt, (w, if cb then tr ++ [Emit (LogLine line)] else tr)).

(** [service.scrape_url(url, log_callback)]: the call and the return are
    written to the trace around what the strategy emits. *)
Definition invoke (v : Variant) (service : Service) (url : string) (cb : bool)
    : Mgr ScrapeResult :=
  λ '(w, tr),
    let '(res, (w', evs)) := service url cb (w, []) in
    (res, (w', tr ++ [Call v url] ++ (Emit <$> evs) ++ [Return v res])).

Definition not_available (msg : string) : ScrapeResult :=
  {| success := false; markdown := ""; error := Some msg; filename := Some "" |}.

Definition _scrape_auto (self : t) (url : string) (cb : bool) : Mgr ScrapeResult :=
  (* 1. BS4 *)
  log_line cb "🔄 Auto: Trying BS4...";;
  res ← invoke BS4 (bs4_service self) url cb;
  if success res then mret res else
  log_line cb ("   BS4 Failed: " +:+ Py.str_opt (error res));;
  (* 4. Firecrawl *)
  let step4 : Mgr ScrapeResult :=
    log_line cb "🔄 Auto: Trying Firecrawl...";;
    invoke Firecrawl (firecrawl_service self) url cb in
  (* 3. Playwright *)
  let step3 : Mgr ScrapeResult :=
    match playwright_service self with
    | Some service =>
        log_line cb "🔄 Auto: Trying Playwright...";;
        res ← invoke Playwright service url cb;
        if success res then mret res else
        log_line cb ("   Playwright Failed: " +:+ Py.str_opt (error res));;
        step4
    | None => step4
    end in
  (* 2. Crawl4AI *)
  match crawl4ai_service self with
  | Some service =>
      log_line cb "🔄 Auto: Trying Crawl4AI...";;
      res ← invoke Crawl4AI service url cb;
      if success res then mret res else
      log_line cb ("   Crawl4AI Failed: " +:+ Py.str_opt (error res));;
      step3
  | None => step3
  end.

Definition scrape_url (self : t) (url method : string) (cb : bool)
    : Mgr ScrapeResult :=
  let method_key := Py.strip method in
  log_line cb ("🤖 Scraping Manager: Processing with " +:+ method_key);;
  if bool_decide (method_key = "BS4") then
    invoke BS4 (bs4_service self) url cb
  else if bool_decide (method_key = "Crawl4AI") then
    match crawl4ai_service self with
    | Some service => invoke Crawl4AI service url cb
    | None => mret (not_available "Crawl4AI service not available")
    end
  else if bool_decide (method_key = "Playwright") then
    match playwright_service self with
    | Some service => invoke Playwright service url cb
    | None => mret (not_available "Playwright service not available")
    end
  else if bool_decide (method_key = "Firecrawl") then
    invoke Firecrawl (firecrawl_service self) url cb
  else if bool_decide (method_key = "Auto") then
    _scrape_auto self url cb
  else
    mret {| success := false; markdown := "";
            error := Some ("Unknown method: " +:+ method); filename := Some "" |}.

(** [__init__]: [BS4Service()] keeps its default of three attempts and
    [FirecrawlService()] reads [FIRECRAWL_API_KEY]; [crawl4ai_module] and
    [playwright_module] tell whether the module of the service could be
    imported and, if so, the flag that module has set for its package. *)
Definition init (api_key : string) (crawl4ai_module playwright_module : option bool)
    : t :=
  {| bs4_service := BS4Service.scrape_url 3;
     firecrawl_service := FirecrawlService.scrape_url api_key;
     crawl4ai_service := Crawl4AIService.scrape_url <$> crawl4ai_module;
     playwright_service := PlaywrightService.scrape_url <$> playwright_module |}.

(** The strategies entered, in order. *)
Definition calls (tr : list Event) : list Variant :=
  omap (λ e, match e with Call v _ => Some v | _ => None end) tr.

(** The strategies left, in order, with what each returned. *)
Definition returns (tr : list Event) : list (Variant * ScrapeResult) :=
  omap (λ e, match e with Return v r => Some (v, r) | _ => None end) tr.

(** The name under which [scrape_url] knows a strategy. *)
Definition method_name (v : Variant) : string :=
  match v with
  | BS4 => "BS4"
  | Crawl4AI => "Crawl4AI"
  | Playwright => "Playwright"
  | Firecrawl => "Firecrawl"
  end.

(** The service the manager has for a strategy, if any. *)
Definition service_of (self : t) (v : Variant) : option Service :=
  match v with
  | BS4 => Some (bs4_service self)
  | Crawl4AI => crawl4ai_service self
  | Playwright => playwright_service self
  | Firecrawl => Some (firecrawl_service self)
  end.

(** A module that is missing or whose package is missing. *)
Definition without_package (module : option bool) : Prop :=
  module = None ∨ module = Some false.

(** What the strategies and the manager emitted, in order. *)
Definition emitted (tr : list Event) : list SvcEvent :=
  omap (λ e, match e with Emit e => Some e | _ => None end) tr.

(** The trace without what was emitted: the calls and the returns. *)
Definition boundaries (tr : list Event) : list Event :=
  omap (λ e, match e with Emit _ => None | _ => Some e end) tr.

(** The same world and the same trace, log lines apart. *)
Definition same_run (s1 s2 : MgrState) : Prop :=
  s1.1 = s2.1 ∧ effects (emitted s1.2) = effects (emitted s2.2) ∧
  boundaries s1.2 = boundaries s2.2.

(** A computation that only logs: the world stays as it is and the trace
    grows by log lines; [Q] holds of what it returns. *)
Definition quiet {A} (m : Mgr A) (Q : A → Prop) : Prop :=
  ∀ w tr, ∃ a lines,
    m (w, tr) = (a, (w, tr ++ (Emit <$> (LogLine <$> lines)))) ∧ Q a.

(** [Q] holds of what the computation returns, whatever the state. *)
Definition ensures {A} (m : Mgr A) (Q : A → Prop) : Prop :=
  ∀ s, Q (m s).1.

(** The order of the automatic mode, for the services this manager has. *)
Definition chain (self : t) : list Variant :=
  [BS4] ++ (match crawl4ai_service self with Some _ => [Crawl4AI] | None => [] end)
        ++ (match playwright_service self with Some _ => [Playwright] | None => [] end)
        ++ [Firecrawl].
End ScrapingManager.
End ScrapingManager.

(* ================================================================== *)
(** * services/deepseek_service.py *)

Module DeepSeekService.
Section DeepSeekService.
Context `{Runtime}.

(** [{h: "" for h in headers}] *)
Definition all_empty (headers : list string) : gmap string string :=
  list_to_map ((λ h, (h, "")) <$> headers).

Definition fence : string := "```".

(** The loop that collects the lines between the first fence and the next
    one; [in_json] as in the source. *)
Fixpoint code_block_lines (in_json : bool) (lines : list string) : list string :=
  match lines with
  | [] => []
  | line :: rest =>
      if Py.startswith fence line && negb in_json then code_block_lines true rest
      else if Py.startswith fence line && in_json then []
      else if in_json then line :: code_block_lines in_json rest
      else code_block_lines in_json rest
  end.

(** [if result_text.startswith(fence): ...] *)
Definition strip_code_block (result_text : string) : string :=
  if Py.startswith fence result_text then
    let lines := Py.split FirecrawlService.newline result_text in
    Py.join (String FirecrawlService.newline EmptyString) (code_block_lines false lines)
  else result_text.

(** [headers_list]: one line per header, with its rule when the category
    has mapping prompts. *)
Definition headers_list (mapping_prompts : gmap string string)
    (headers : list string) : string :=
  if (0 <? size mapping_prompts)%nat then
    Py.join (String FirecrawlService.newline EmptyString)
      ((λ h, "- " +:+ h +:+ ": " +:+ default "Extract from data" (mapping_prompts !! h))
         <$> headers)
  else
    Py.join (String FirecrawlService.newline EmptyString) ((λ h, "- " +:+ h) <$> headers).

(** [result[h] = extracted_data.get(h, "")] for every header. *)
Definition pick (extracted_data : gmap string string) (headers : list string)
    : gmap string string :=
  list_to_map ((λ h, (h, default "" (extracted_data !! h))) <$> headers).

(** The JSON object the values are read from: the one the answer of the
    language model parses to, once its code fence is taken off; the empty
    one when the call raised or the answer is no JSON object. *)
Definition answer_fields (o : ChatOutcome) : gmap string string :=
  match o with
  | ChatContent text =>
      match json_loads (strip_code_block (Py.strip text)) with
      | JsonObject extracted_data => extracted_data
      | _ => ∅
      end
  | ChatRaised _ => ∅
  end.

(** The request that is sent for this content. *)
Definition request_for (headers : list string) (category mm43_context : string)
    (markdown_content : string) : ChatRequest :=
  let mapping_prompts := get_category_mapping_prompts category in
  {| req_has_mapping := (0 <? size mapping_prompts)%nat;
     req_category := category;
     req_mm43 := if Py.truthy mm43_context then Py.take 3000 mm43_context else "";
     req_headers_list := headers_list mapping_prompts headers;
     req_content := Py.take (N.to_nat 15000) markdown_content |}.

(** [client] tells whether [self.client] was built, that is whether an API
    key is configured. *)
Definition extract_attributes (client : bool) (markdown_content : string)
    (headers : list string) (category : string) (cb : bool)
    (mm43_context : string) : Svc (gmap string string) :=
  if negb client then
    log cb "❌ DeepSeek: API key not configured";;
    mret (all_empty headers)
  else if negb (Py.truthy markdown_content) then
    log cb "⚠️ DeepSeek: No content to process";;
    mret (all_empty headers)
  else
    log cb ("🤖 DeepSeek: Extracting " +:+ pretty (length headers)
            +:+ " attributes for " +:+ category);;
    let mapping_prompts := get_category_mapping_prompts category in
    let has_mapping := (0 <? size mapping_prompts)%nat in
    (if has_mapping then
       log cb ("   📋 Using category-specific mapping rules ("
               +:+ pretty (size mapping_prompts) +:+ " rules)")
     else mret tt);;
    let request := request_for headers category mm43_context markdown_content in
    log cb "   Sending request to DeepSeek API...";;
    o ← in_world (chat_completion request);
    emit (Completion request o);;
    match o with
    | ChatRaised e =>
        log cb ("❌ DeepSeek: API error - " +:+ e);;
        mret (all_empty headers)
    | ChatContent text =>
        let result_text := strip_code_block (Py.strip text) in
        match json_loads result_text with
        | JsonObject extracted_data =>
            log cb ("✅ DeepSeek: Successfully extracted "
                    +:+ pretty (size extracted_data) +:+ " attributes");;
            mret (pick extracted_data headers)
        | JsonDecodeError e =>
            log cb ("⚠️ DeepSeek: JSON parse error - " +:+ e);;
            log cb ("   Raw response: " +:+ Py.take 200 result_text +:+ "...");;
            mret (all_empty headers)
        | JsonOther type_name len =>
            (* [len(extracted_data)] or [extracted_data.get] raises inside
               the inner [try]; the outer [except Exception] takes it *)
            match len, cb with
            | None, true =>
                log cb ("❌ DeepSeek: API error - object of type '" +:+ type_name
                        +:+ "' has no len()");;
                mret (all_empty headers)
            | _, _ =>
                (match len with
                 | Some n =>
                     log cb ("✅ DeepSeek: Successfully extracted " +:+ pretty n
                             +:+ " attributes")
                 | None => mret tt
                 end);;
                log cb ("❌ DeepSeek: API error - '" +:+ type_name
                        +:+ "' object has no attribute 'get'");;
                mret (all_empty headers)
            end
        end
    end.

(** [for h in headers: results[h][url_key] = value(h)]; every header is a
    key of [results], so [results[h]] never raises. *)
Definition fill_column (url_key : string) (value : string → string)
    (headers : list string) (results : gmap string (gmap string string))
    : gmap string (gmap string string) :=
  foldl (λ results h, alter (insert url_key (value h)) h results) results headers.

(** Whether the extractor is called for this source. *)
Definition usable (content_data : ScrapeResult) : bool :=
  success content_data && Py.truthy (markdown content_data).

(** One turn of [for url_key, content_data in markdown_contents.items()]. *)
Definition process_source (client : bool) (headers : list string)
    (category : string) (cb : bool) (mm43_context : string)
    (results : gmap string (gmap string string))
    (source : string * ScrapeResult) : Svc (gmap string (gmap string string)) :=
  let '(url_key, content_data) := source in
  if usable content_data then
    let source_label :=
      if bool_decide (url_key = "pdf") then "PDF" else Py.upper url_key in
    log cb (String FirecrawlService.newline ("📊 Processing " +:+ source_label +:+ "..."));;
    extracted ← extract_attributes client (markdown content_data) headers category cb
                  mm43_context;
    mret (fill_column url_key (λ h, default "" (extracted !! h)) headers results)
  else
    log cb ("⚠️ Skipping " +:+ url_key +:+ " - no content available");;
    mret (fill_column url_key (λ _, "") headers results).

(** The loop over the sources, in the order of the dictionary. *)
Fixpoint process_sources (client : bool) (headers : list string)
    (category : string) (cb : bool) (mm43_context : string)
    (sources : list (string * ScrapeResult))
    (results : gmap string (gmap string string))
    : Svc (gmap string (gmap string string)) :=
  match sources with
  | [] => mret results
  | source :: rest =>
      results ← process_source client headers category cb mm43_context results source;
      process_sources client headers category cb mm43_context rest results
  end.

(** [markdown_contents] is the dictionary in insertion order: its keys are
    pairwise distinct. *)
Definition extract_from_multiple_sources (client : bool)
    (markdown_contents : list (string * ScrapeResult)) (headers : list string)
    (category : string) (cb : bool) (mm43_context : string)
    : Svc (gmap string (gmap string string)) :=
  let results : gmap string (gmap string string) :=
    list_to_map ((λ h, (h, ∅)) <$> headers) in
  process_sources client headers category cb mm43_context markdown_contents results.


(** The call of the extractor for this content, made in this world, raises
    or answers with something that is not a JSON object. *)
Definition extractor_fails (headers : list string) (category mm43_context : string)
    (markdown_content : string) (w : World) : Prop :=
  match (chat_completion (request_for headers category mm43_context markdown_content) w).1 with
  | ChatRaised _ => True
  | ChatContent text =>
      match json_loads (strip_code_block (Py.strip text)) with
      | JsonObject _ => False
      | _ => True
      end
  end.

End DeepSeekService.
End DeepSeekService.

(* ================================================================== *)
(** * app.py: step 1 of [process_extraction] *)

Module App.
Section Scraping.
Context `{Runtime}.
Import ScrapingManager.

Definition empty_url : ScrapeResult :=
  {| success := false; markdown := ""; error := Some "Empty URL"; filename := None |}.

(** The body of [for i, url in enumerate(urls)] for one URL and its method;
    the application always passes its [log] as callback.  The result is what
    is stored in [scraped_results[url_key]]. *)
Definition scrape_slot (manager : ScrapingManager.t) (i : nat)
    (url method : string) : Mgr ScrapeResult :=
  if Py.truthy url && Py.truthy (Py.strip url) then
    log_line true (String FirecrawlService.newline
                     ("Processing URL " +:+ pretty (i + 1) +:+ " (" +:+ method +:+ "): "
                      +:+ Py.take 50 url +:+ "..."));;
    result ← ScrapingManager.scrape_url manager (Py.strip url) method true;
    (if success result then
       log_line true ("‚úÖ URL " +:+ pretty (i + 1) +:+ ": Got "
                      +:+ pretty (String.length (markdown result)) +:+ " characters")
     else
       log_line true ("‚ùå URL " +:+ pretty (i + 1) +:+ ": Failed - "
                      +:+ Py.str_opt (error result)));;
    mret result
  else
    log_line true ("‚è≠Ô∏è URL " +:+ pretty (i + 1) +:+ ": Skipped (empty)");;
    mret empty_url.

(** The whole loop: [scraped_results] in insertion order. *)
Fixpoint scrape_slots (manager : ScrapingManager.t) (i : nat)
    (slots : list (string * string)) : Mgr (list (string * ScrapeResult)) :=
  match slots with
  | [] => mret []
  | (url, method) :: rest =>
      result ← scrape_slot manager i url method;
      more ← scrape_slots manager (S i) rest;
      mret (("url" +:+ pretty (i + 1), result) :: more)
  end.
End Scraping.

(** ** The quick actions of [render_results_table] *)

(** The part of [st.session_state] the buttons write: [final_values] and the
    text widgets [text_final_{idx}]. *)
Record SessionState := mkSession {
  final_values : gmap string string;
  widgets : gmap string string
}.

(** [for idx, x in enumerate(xs): body] on a state. *)
Fixpoint for_enumerate {St X} (body : nat → X → St → St) (idx : nat) (xs : list X)
    (st : St) : St :=
  match xs with
  | [] => st
  | x :: rest => for_enumerate body (S idx) rest (body idx x st)
  end.

(** [val and str(val).strip()] *)
Definition filled (val : string) : bool :=
  Py.truthy val && Py.truthy (Py.strip val).

(** The two assignments every button makes for a header. *)
Definition select (idx : nat) (header val : string) (st : SessionState)
    : SessionState :=
  {| final_values := <[header := val]> (final_values st);
     widgets := <["text_final_" +:+ pretty idx := val]> (widgets st) |}.

(** [results.get(header, {}).get(key, "")] *)
Definition value_of (results : gmap string (gmap string string))
    (header key : string) : string :=
  default "" (default ∅ (results !! header) !! key).

(** The order in which "Auto-fill Best" looks at the sources. *)
Definition priority : list string := ["url1"; "url2"; "url3"; "pdf"].

(** [for key in [...]: ... break]: the value of the first source, in this
    order, that passes the test. *)
Fixpoint first_filled (results : gmap string (gmap string string))
    (header : string) (keys : list string) : option string :=
  match keys with
  | [] => None
  | key :: rest =>
      let val := value_of results header key in
      if filled val then Some val else first_filled results header rest
  end.

(** The button "Auto-fill Best". *)
Definition autofill_best (results : gmap string (gmap string string))
    (headers : list string) (st : SessionState) : SessionState :=
  for_enumerate
    (λ idx header st,
       match first_filled results header priority with
       | Some val => select idx header val st
       | None => st
       end)
    0 headers st.

(** The buttons "Use URL 1", "Use URL 2" and "Use URL 3": the same loop for
    the keys ["url1"], ["url2"] and ["url3"]. *)
Definition use_source (key : string) (results : gmap string (gmap string string))
    (headers : list string) (st : SessionState) : SessionState :=
  for_enumerate
    (λ idx header st,
       let val := value_of results header key in
       if filled val then select idx header val st else st)
    0 headers st.

Definition use_url1 := use_source "url1".
Definition use_url2 := use_source "url2".
Definition use_url3 := use_source "url3".

(** The button "Clear All". *)
Definition clear_all (headers : list string) (st : SessionState) : SessionState :=
  {| final_values := ∅;
     widgets :=
       foldl (λ ws idx,
                let name := "text_final_" +:+ pretty idx in
                match ws !! name with Some _ => <[name := ""]> ws | None => ws end)
             (widgets st) (Py.range (length headers)) |}.

(** The key of the text box of row [idx]. *)
Definition widget_name (idx : nat) : string := "text_final_" +:+ pretty idx.

(** ** [render_export]: the row written to the CSV file *)

(** The columns taken from the input form, each with its form field. *)
Definition form_columns : list (string * string) :=
  [ ("sku", "sku"); ("base_code", "base_code");
    ("attributes__lulu_ean", "ean");
    ("attributes__shipping_weight", "shipping_weight");
    ("attributes__color", "color") ].

(** [if form_data:] for [st.session_state.form_data], which is [None] or
    the dictionary of the form; only its text fields are modelled. *)
Definition form_given (form_data : option (gmap string string)) : bool :=
  match form_data with
  | Some d => bool_decide (d ≠ ∅)
  | None => false
  end.

(** [export_row], as a dictionary in insertion order: the order of the
    columns of the file. *)
Definition export_row (form_data : option (gmap string string))
    (headers : list string) (final_values : gmap string string)
    : list (string * string) :=
  let export_row :=
    if form_given form_data then
      (λ '(column, field), (column, default "" (default ∅ form_data !! field)))
        <$> form_columns
    else [] in
  foldl (λ export_row header,
           if decide (header ∈ export_row.*1) then export_row
           else export_row ++ [(header, default "" (final_values !! header))])
        export_row headers.

(** ** [config/categories.py] *)

(** [get_category_headers]; [CATEGORIES] maps a category to its headers. *)
Definition get_category_headers (CATEGORIES : gmap string (list string))
    (category : string) : list string :=
  default [] (CATEGORIES !! category).

Definition exclude_set : gset string :=
  {[ "sku"; "base_code"; "attributes__lulu_ean"; "attributes__shipping_weight" ]}.

(** [get_extraction_headers] *)
Definition get_extraction_headers (CATEGORIES : gmap string (list string))
    (category : string) : list string :=
  let all_headers := get_category_headers CATEGORIES category in
  filter (λ h, h ∉ exclude_set) all_headers.

(** ** [process_extraction] *)

Section Pipeline.
Context `{Runtime}.
Import ScrapingManager.

(** How the block that reads the uploaded PDF ends: with the text and the
    number of pages, or with an exception. *)
Inductive PdfOutcome :=
| PdfText (pdf_content : string) (pages : nat)
| PdfImportError
| PdfException (msg : string).

(** ["="*50] *)
Definition rule : string := "==================================================".

(** A computation of a service run by the application: what it emits goes
    to the trace of the application. *)
Definition lift {A} (m : Svc A) : Mgr A :=
  λ '(w, tr), let '(a, (w', evs)) := m (w, []) in (a, (w', tr ++ (Emit <$> evs))).

(** [clear_logs]: the console is emptied; the log lines are the only
    events of the trace that are kept on the console. *)
Definition clear_logs : Mgr unit :=
  λ '(w, tr),
    (tt, (w, omap (λ e, match e with Emit (LogLine _) => None | _ => Some e end) tr)).

(** [pdf_content] and what is logged on the way. *)
Definition read_pdf (pdf_file : option PdfOutcome) : Mgr string :=
  match pdf_file with
  | None => mret ""
  | Some o =>
      log_line true "üìÑ PDF file uploaded - extracting text...";;
      match o with
      | PdfText pdf_content pages =>
          log_line true ("‚úÖ PDF: Extracted " +:+ pretty (String.length pdf_content)
                         +:+ " characters from " +:+ pretty pages +:+ " pages");;
          mret pdf_content
      | PdfImportError =>
          log_line true "‚ö†Ô∏è PDF extraction requires PyPDF2. Install with: pip install PyPDF2";;
          mret ""
      | PdfException e =>
          log_line true ("‚ùå PDF extraction error: " +:+ e);;
          mret ""
      end
  end.

(** The text the PDF block leaves in [pdf_content]. *)
Definition pdf_text (pdf_file : option PdfOutcome) : string :=
  match pdf_file with
  | Some (PdfText pdf_content _) => pdf_content
  | _ => ""
  end.

(** The source added for the PDF. *)
Definition pdf_source (pdf_content : string) : string * ScrapeResult :=
  ("pdf", {| success := true; markdown := pdf_content; error := None;
             filename := None |}).

(** [saved_files]: the file names of the successful fetches. *)
Definition saved_files (scraped_results : list (string * ScrapeResult))
    : list string :=
  omap (λ '(_, r),
          if success r then
            match filename r with
            | Some f => if Py.truthy f then Some f else None
            | None => None
            end
          else None)
       scraped_results.

(** [total_extracted]: the values of the matrix that are not empty. *)
Definition total_extracted (extraction_results : gmap string (gmap string string))
    : nat :=
  sum_list ((λ '(_, values),
               length (filter (λ '(_, val), Py.truthy val = true)
                         (map_to_list values)))
              <$> map_to_list extraction_results).

(** [DEEPSEEK_API_KEY] and [CATEGORIES] are the settings, [manager] is
    what [ScrapingManager()] builds, [form_data] holds the text fields of
    the form and [pdf_file] what reading the uploaded file gives, if there
    is one. *)
Definition process_extraction (DEEPSEEK_API_KEY : string)
    (CATEGORIES : gmap string (list string)) (manager : ScrapingManager.t)
    (form_data : gmap string string) (pdf_file : option PdfOutcome)
    (category : string) : Mgr (gmap string (gmap string string)) :=
  clear_logs;;
  log_line true "üöÄ Starting CMS Template Extraction...";;
  log_line true ("üì¶ Category: " +:+ category);;
  log_line true ("üìã SKU: " +:+ default "N/A" (form_data !! "sku"));;
  let mm43_data := default "" (form_data !! "mm43") in
  (if Py.truthy mm43_data then
     log_line true ("üìä MM43 Data provided: " +:+ pretty (String.length mm43_data) +:+ " characters")
   else mret tt);;
  let urls := [ default "" (form_data !! "url1");
                default "" (form_data !! "url2");
                default "" (form_data !! "url3") ] in
  let methods := [ default "Auto" (form_data !! "method1");
                   default "Auto" (form_data !! "method2");
                   default "Auto" (form_data !! "method3") ] in
  let valid_urls := filter (λ u, filled u = true) urls in
  log_line true ("üîó URLs to process: " +:+ pretty (length valid_urls));;
  pdf_content ← read_pdf pdf_file;
  if negb (Py.truthy DEEPSEEK_API_KEY) then
    log_line true "‚ùå ERROR: DeepSeek API key not configured!";;
    log_line true "   Please add DEEPSEEK_API_KEY to .env file";;
    mret ∅
  else
    log_line true "‚úÖ DeepSeek API Key configured";;
    log_line true (String FirecrawlService.newline rule);;
    log_line true "STEP 1: SCRAPING URLs";;
    log_line true rule;;
    url_results ← scrape_slots manager 0 (zip urls methods);
    scraped_results ←
      (if Py.truthy pdf_content then
         log_line true "üìÑ Added PDF content as source";;
         mret (url_results ++ [pdf_source pdf_content])
       else mret url_results);
    (match saved_files url_results with
     | [] => mret tt
     | files =>
         log_line true (String FirecrawlService.newline "üìÅ SAVED MARKDOWN FILES:");;
         mapM (λ filename, log_line true ("   ‚úì " +:+ filename)) files;;
         mret tt
     end);;
    log_line true (String FirecrawlService.newline rule);;
    log_line true "STEP 2: EXTRACTING ATTRIBUTES WITH DEEPSEEK";;
    log_line true rule;;
    let extraction_headers := get_extraction_headers CATEGORIES category in
    log_line true ("üìä Extracting " +:+ pretty (length extraction_headers)
                   +:+ " attributes...");;
    extraction_results ←
      lift (DeepSeekService.extract_from_multiple_sources
              (Py.truthy DEEPSEEK_API_KEY) scraped_results extraction_headers
              category true mm43_data);
    log_line true (String FirecrawlService.newline rule);;
    log_line true "‚úÖ EXTRACTION COMPLETE!";;
    log_line true rule;;
    log_line true ("üìà Total values extracted: " +:+ pretty (total_extracted extraction_results));;
    mret extraction_results.
End Pipeline.


(** The rule of the specification for best-available: the first value, in
    the order of the keys, that is not the empty string. *)
Fixpoint spec_first_non_empty (results : gmap string (gmap string string))
    (header : string) (keys : list string) : option string :=
  match keys with
  | [] => None
  | key :: rest =>
      let val := value_of results header key in
      if Py.truthy val then Some val else spec_first_non_empty results header rest
  end.

(** The matrix of the example of the specification. *)
Definition colour_matrix : gmap string (gmap string string) :=
  {[ "color" := {[ "url1" := ""; "url2" := "Black"; "url3" := "White" ]} ]}.

(** The same with a blank instead of the empty string. *)
Definition blank_matrix : gmap string (gmap string string) :=
  {[ "color" := {[ "url1" := " "; "url2" := "Black"; "url3" := "White" ]} ]}.

Definition no_selection : SessionState :=
  {| final_values := ∅; widgets := ∅ |}.
End App.

(* ================================================================== *)
(** * A scripted runtime, to run the model on concrete inputs *)

Module Scripted.
(** The world counts the requests made so far; [get] and [post] script the
    outcome of the n-th request.  The text filters are the identity, no
    browser can be started and every file is written. *)
Definition runtime (get : string → nat → GetOutcome)
    (post : string → nat → PostOutcome) : Runtime :=
  {| World := nat;
     session_get url n := (get url n, S n);
     requests_post url n := (post url n, S n);
     html2text s := s;
     parse_html s := [Text s];
     render_html soup := ContentFilter.concat_strings (soup ≫= ContentFilter.strings);
     write_artifact tag url content n := (inl ("page" +:+ tag +:+ ".md"), n);
     crawl4ai_run url n := (([], CrawlRaised "browser not found"), n);
     playwright_session url n := (([], inl "browser not found"), n);
     chat_completion request n := (ChatRaised "Connection error.", S n);
     json_loads text := JsonDecodeError "Expecting value";
     get_category_mapping_prompts category := ∅ |}.

Definition status (code : Z) (reason : string) (url : string) : GetOutcome :=
  GetResponse {| status_code := code; reason := reason; resp_url := url;
                 content := "" |}.

(** The hosted API answers 200 with this markdown. *)
Definition hosted (raw_markdown : string) : Runtime :=
  runtime (λ _ _, GetTimeout) (λ _ _, PostResponse 200 "" raw_markdown).


(** Every GET is answered with the same status. *)
Definition always (code : Z) (reason : string) : Runtime :=
  runtime (λ url _, status code reason url)
          (λ _ _, PostResponse code reason "").

(** [requests] refuses the URL before anything is sent. *)
Definition no_scheme : Runtime :=
  runtime (λ url _, GetRaised ("Invalid URL '" +:+ url +:+ "': No scheme supplied."))
          (λ _ _, PostResponse 400 "Bad Request" "").
End Scripted.

(* ================================================================== *)
(** * The orchestrator *)

Ltac case_success :=
  match goal with
  | |- context [ if success ?r then _ else _ ] =>
      let E := fresh "Hs" in destruct (success r) eqn:E; simpl
  end.

Section ManagerFacts.
Context `{Runtime}.
Import ScrapingManager.

Lemma calls_app tr1 tr2 : calls (tr1 ++ tr2) = calls tr1 ++ calls tr2.
Proof. apply omap_app. Qed.

Lemma returns_app tr1 tr2 : returns (tr1 ++ tr2) = returns tr1 ++ returns tr2.
Proof. apply omap_app. Qed.

Lemma boundaries_app tr1 tr2 :
  boundaries (tr1 ++ tr2) = boundaries tr1 ++ boundaries tr2.
Proof. apply omap_app. Qed.

Lemma boundaries_emit evs : boundaries (Emit <$> evs) = [].
Proof. induction evs as [|e evs IH]; [done|]. exact IH. Qed.

Lemma calls_emit evs : calls (Emit <$> evs) = [].
Proof. induction evs as [|e evs IH]; [done|]. exact IH. Qed.

Lemma returns_emit evs : returns (Emit <$> evs) = [].
Proof. induction evs as [|e evs IH]; [done|]. exact IH. Qed.

Lemma calls_log cb line tr w :
  calls (log_line cb line (w, tr)).2.2 = calls tr.
Proof. destruct cb; simpl; [|done]. by rewrite calls_app, app_nil_r. Qed.

Lemma returns_log cb line tr w :
  returns (log_line cb line (w, tr)).2.2 = returns tr.
Proof. destruct cb; simpl; [|done]. by rewrite returns_app, app_nil_r. Qed.

(** What one invocation adds to the trace. *)
Lemma invoke_spec v service url cb w tr :
  ∃ res w' tr',
    invoke v service url cb (w, tr) = (res, (w', tr')) ∧
    calls tr' = calls tr ++ [v] ∧
    returns tr' = returns tr ++ [(v, res)].
Proof.
  unfold invoke. destruct (service url cb (w, [])) as [res [w' evs]].
  eexists _, _, _. split; [reflexivity|].
  rewrite !calls_app, !returns_app, calls_emit, returns_emit. done.
Qed.

Lemma log_line_spec cb line w tr :
  ∃ tr', log_line cb line (w, tr) = (tt, (w, tr')) ∧
         calls tr' = calls tr ∧ returns tr' = returns tr.
Proof.
  eexists. split; [reflexivity|].
  destruct cb; [|done]. by rewrite calls_app, returns_app, !app_nil_r.
Qed.

(** Running a service inside a goal: name its result, world and events. *)
Ltac run_service :=
  match goal with
  | |- context [ ?svc ?url ?cb (?w, @nil SvcEvent) ] =>
      let r := fresh "r" in
      let w' := fresh "w" in
      let evs := fresh "evs" in
      destruct (svc url cb (w, @nil SvcEvent)) as [r [w' evs]]; simpl
  end.

Ltac trace_simpl :=
  repeat (progress (rewrite ?calls_app, ?returns_app, ?boundaries_app,
                      ?calls_emit, ?returns_emit, ?boundaries_emit,
                      ?app_nil_r; simpl)).

(** The order of the chain. *)
Lemma auto_chain_order (self : t) (url : string) (cb : bool) (w : World) :
  let '(res, (_, tr)) := _scrape_auto self url cb (w, []) in
  let rets := returns tr in
  boundaries tr = (rets ≫= λ '(v, r), [Call v url; Return v r]) ∧
  calls tr = rets.*1 ∧
  rets.*1 `prefix_of` chain self ∧
  (∀ i v r, rets !! i = Some (v, r) → success r = true → S i = length rets) ∧
  (∃ v, last rets = Some (v, res)) ∧
  (success res = false → rets.*1 = chain self).
Proof.
  destruct self as [bs4 fc c4 pw]. unfold _scrape_auto, chain. simpl.
  unfold mbind, State_bind, mret, State_ret, invoke, log_line. simpl.
  destruct cb, c4 as [c4|], pw as [pw|]; simpl;
    repeat (run_service; try case_success);
    trace_simpl.
  all: repeat split;
    try (intros [|[|[|[|i]]]] v' r' ??; simplify_eq/=; congruence);
    try (by eexists);
    try (intros; congruence).
Qed.

(** What the chain gets from a strategy whose package is missing. *)
Lemma auto_enters_missing_crawl4ai (self : t) (url : string) (cb : bool)
    (w : World) (i : nat) (r : ScrapeResult) :
  crawl4ai_service self = Some (Crawl4AIService.scrape_url false) →
  returns (_scrape_auto self url cb (w, [])).2.2 !! i = Some (Crawl4AI, r) →
  r = Crawl4AIService.failed
        "Crawl4AI not installed. Run: pip install crawl4ai && crawl4ai-setup".
Proof.
  destruct self as [bs4 fc c4 pw]. simpl. intros ->.
  unfold _scrape_auto. simpl.
  unfold mbind, State_bind, mret, State_ret, invoke, log_line. simpl.
  destruct (bs4 url cb (w, [])) as [r1 [w1 evs1]]; simpl.
  destruct (success r1); simpl;
    destruct cb, pw as [pw|]; simpl;
    repeat (run_service; try case_success);
    trace_simpl.
  all: destruct i as [|[|[|[|i]]]]; intros ?; simplify_eq/=; done.
Qed.

Lemma auto_enters_missing_playwright (self : t) (url : string) (cb : bool)
    (w : World) (i : nat) (r : ScrapeResult) :
  playwright_service self = Some (PlaywrightService.scrape_url false) →
  returns (_scrape_auto self url cb (w, [])).2.2 !! i = Some (Playwright, r) →
  r = PlaywrightService.failed "Playwright not installed".
Proof.
  destruct self as [bs4 fc c4 pw]. simpl. intros ->.
  unfold _scrape_auto. simpl.
  unfold mbind, State_bind, mret, State_ret, invoke, log_line. simpl.
  destruct (bs4 url cb (w, [])) as [r1 [w1 evs1]]; simpl.
  destruct (success r1); simpl;
    destruct cb, c4 as [c4|]; simpl;
    repeat (run_service; try case_success);
    trace_simpl.
  all: destruct i as [|[|[|[|i]]]]; intros ?; simplify_eq/=; done.
Qed.

(** C1, as amended. In automatic mode the strategies are entered one after
    the other, each for the given URL and each returning before the next is
    entered, in the order BS4, Crawl4AI, Playwright, Firecrawl; only those
    the manager has no service for are left out, which is the case when the
    module of the service could not be imported and not when the optional
    package of the service is missing; a strategy that returns success is
    the last one entered; the result is the one of the last strategy
    entered; when that result is a failure every strategy of the chain has
    been entered; and a strategy whose package is missing is entered like
    the others when its turn comes, and what it returns is its "not
    installed" failure. *)
Theorem auto_fallback_chain (self : t) (url : string) (cb : bool) (w : World) :
  let '(res, (_, tr)) := _scrape_auto self url cb (w, []) in
  let rets := returns tr in
  boundaries tr = (rets ≫= λ '(v, r), [Call v url; Return v r]) ∧
  calls tr = rets.*1 ∧
  rets.*1 `prefix_of` chain self ∧
  (∀ i v r, rets !! i = Some (v, r) → success r = true → S i = length rets) ∧
  (∃ v, last rets = Some (v, res)) ∧
  (success res = false → rets.*1 = chain self) ∧
  (crawl4ai_service self = Some (Crawl4AIService.scrape_url false) →
   ∀ i r, rets !! i = Some (Crawl4AI, r) →
          r = Crawl4AIService.failed
                "Crawl4AI not installed. Run: pip install crawl4ai && crawl4ai-setup") ∧
  (playwright_service self = Some (PlaywrightService.scrape_url false) →
   ∀ i r, rets !! i = Some (Playwright, r) →
          r = PlaywrightService.failed "Playwright not installed").
Proof.
  pose proof (auto_chain_order self url cb w) as Horder.
  pose proof (λ i r, auto_enters_missing_crawl4ai self url cb w i r) as Hc4.
  pose proof (λ i r, auto_enters_missing_playwright self url cb w i r) as Hpw.
  destruct (_scrape_auto self url cb (w, [])) as [res [w' tr]].
  cbn [fst snd] in Hc4, Hpw. cbn zeta in *.
  destruct Horder as (? & ? & ? & ? & ? & ?).
  split_and!; [done..| |].
  - intros Heq i r. by apply Hc4.
  - intros Heq i r. by apply Hpw.
Qed.
End ManagerFacts.

(** C1, counterexample. The packages of Crawl4AI and of Playwright are
    missing; the modules of the two services import all the same, so the
    manager has both services.  In automatic mode, on a page that answers
    404, the two strategies are not skipped: each is entered in its turn,
    fails at once with its "not installed" error, and the chain goes on to
    the next one, down to Firecrawl. *)
Lemma missing_package_is_attempted :
  let rt := Scripted.always 404 "Not Found" in
  let url := "https://shop.example/p/1" in
  let '(res, (_, tr)) :=
    ScrapingManager._scrape_auto (ScrapingManager.init "" (Some false) (Some false))
      url true (0, []) in
  ScrapingManager.calls tr = [BS4; Crawl4AI; Playwright; Firecrawl] ∧
  ScrapingManager.returns tr !! 1
  = Some (Crawl4AI,
          Crawl4AIService.failed
            "Crawl4AI not installed. Run: pip install crawl4ai && crawl4ai-setup") ∧
  ScrapingManager.returns tr !! 2
  = Some (Playwright, PlaywrightService.failed "Playwright not installed") ∧
  res = FirecrawlService.failed "Firecrawl API key not configured".
Proof. vm_compute. done. Qed.

(* ================================================================== *)
(** * Blank strings *)

Section StringFacts.
Lemma lstrip_blank s : Py.blank s = true → Py.lstrip s = "".
Proof.
  induction s as [|c s IH]; simpl; [done|].
  intros [Hc Hs]%andb_true_iff. rewrite Hc. auto.
Qed.

Lemma strip_blank s : Py.blank s = true → Py.strip s = "".
Proof. intros Hs. unfold Py.strip. by rewrite (lstrip_blank s Hs). Qed.

Lemma blank_not_scraped s :
  Py.blank s = true → Py.truthy s && Py.truthy (Py.strip s) = false.
Proof. intros Hs. rewrite (strip_blank s Hs). simpl. apply andb_false_r. Qed.
End StringFacts.

Section EmptyUrl.
Context `{Runtime}.
Import ScrapingManager.

(** C10. A method that, once trimmed, is none of the five known names
    gives the "Unknown method" failure, which quotes the method as it was
    passed; no strategy is entered and the world is left as it was. *)
Theorem unknown_method (self : t) (url method : string) (cb : bool) (w : World) :
  Py.strip method ∉ ["BS4"; "Crawl4AI"; "Playwright"; "Firecrawl"; "Auto"] →
  let '(res, (w', tr)) := scrape_url self url method cb (w, []) in
  res = {| success := false; markdown := "";
           error := Some ("Unknown method: " +:+ method);
           filename := Some "" |}
  ∧ calls tr = [] ∧ w' = w.
Proof.
  intros Hnot. unfold scrape_url.
  repeat (case_bool_decide as Heq;
          [exfalso; apply Hnot; rewrite Heq; set_solver|clear Heq]).
  destruct cb; simpl; done.
Qed.

(** C9, as amended. The scraping loop of the application stores the
    "Empty URL" failure for an empty or blank URL, whatever the method,
    without calling the manager: no strategy is entered and the world is
    left as it was. *)
Theorem blank_url_skipped (manager : t) (i : nat) (url method : string) (w : World) :
  Py.blank url = true →
  let '(res, (w', tr)) := App.scrape_slot manager i url method (w, []) in
  res = App.empty_url ∧ error res = Some "Empty URL" ∧ success res = false
  ∧ calls tr = [] ∧ w' = w.
Proof.
  intros Hb. unfold App.scrape_slot. rewrite (blank_not_scraped url Hb).
  simpl. done.
Qed.
End EmptyUrl.

(** The method ["Selenium"] is unknown. *)
Lemma unknown_method_witness :
  let rt := Scripted.always 200 "OK" in
  let '(res, (w', tr)) :=
    ScrapingManager.scrape_url (ScrapingManager.init "key" (Some true) (Some true))
      "https://shop.example/p/1" " Selenium " true (0, []) in
  res = {| success := false; markdown := "";
           error := Some "Unknown method:  Selenium "; filename := Some "" |}
  ∧ ScrapingManager.calls tr = [] ∧ w' = 0.
Proof.
  intros rt.
  apply (unknown_method (H := rt) (ScrapingManager.init "key" (Some true) (Some true))
           "https://shop.example/p/1" " Selenium " true 0).
  refine (bool_decide_unpack _ _). vm_compute. exact I.
Defined.

(** A URL of three blanks in the second slot. *)
Lemma blank_url_skipped_witness :
  let rt := Scripted.always 200 "OK" in
  let '(res, (w', tr)) :=
    App.scrape_slot (ScrapingManager.init "key" (Some true) (Some true))
      1 "   " "Auto" (0, []) in
  res = App.empty_url ∧ error res = Some "Empty URL" ∧ success res = false
  ∧ ScrapingManager.calls tr = [] ∧ w' = 0.
Proof.
  intros rt.
  apply (blank_url_skipped (H := rt) (ScrapingManager.init "key" (Some true) (Some true))
           1 "   " "Auto" 0).
  reflexivity.
Defined.

(** C9, counterexample. [ScrapingManager.scrape_url] does not look at the
    URL: called with the empty URL and the method BS4 it enters the BS4
    strategy, which makes its three requests, and the error of the result is
    the one of the last request, not "Empty URL". *)
Lemma manager_fetches_empty_url :
  let rt := Scripted.no_scheme in
  let '(res, (_, tr)) :=
    ScrapingManager.scrape_url (ScrapingManager.init "key" (Some true) (Some true))
      "" "BS4" false (0, []) in
  ScrapingManager.calls tr = [BS4]
  ∧ error res = Some "Invalid URL '': No scheme supplied."
  ∧ error res ≠ Some "Empty URL".
Proof. vm_compute. repeat split; discriminate. Qed.

(* ================================================================== *)
(** * The retry loop of the BS4 service *)

Section BS4Facts.
Context `{Runtime}.
Import BS4Service.

Lemma net_app evs1 evs2 : net (evs1 ++ evs2) = net evs1 ++ net evs2.
Proof. apply omap_app. Qed.

Lemma fetches_app evs1 evs2 : fetches (evs1 ++ evs2) = fetches evs1 ++ fetches evs2.
Proof. apply omap_app. Qed.

Lemma fetches_net evs : fetches (net evs) = fetches evs.
Proof.
  induction evs as [|e evs IH]; [done|].
  destruct e; simpl; by rewrite ?IH.
Qed.

Lemma fetches_schedule url k outcomes : fetches (schedule url k outcomes) = outcomes.
Proof.
  revert k. induction outcomes as [|o outcomes IH]; intros k; [done|].
  simpl. rewrite fetches_app. unfold backoff.
  destruct (0 <? k)%nat; simpl; by rewrite IH.
Qed.

Ltac net_simpl :=
  repeat (progress (rewrite ?net_app, ?app_nil_r, <- ?app_assoc; simpl)).

(** One attempt: the pause and the request it adds, and how it ends. *)
Lemma attempt_once_spec n url cb k last_error w evs :
  ∃ x w' evs',
    attempt_once n url cb k last_error (w, evs) = (x, (w', evs')) ∧
    net evs' = net evs ++ backoff k ++ [Fetched url (session_get url w).1] ∧
    match failure_of (session_get url w).1 with
    | Some e => x = inr (Some e)
    | None => ∃ res, x = inl res ∧ success res = true ∧ error res = None
    end.
Proof.
  unfold attempt_once, try_body, handle, _save_markdown, log, emit, in_world,
    failure_of, backoff.
  unfold mbind, State_bind, mret, State_ret. simpl.
  destruct (0 <? k)%nat, cb; simpl;
    destruct (session_get url w) as [o w1]; simpl;
    destruct o as [| | |r]; simpl;
    try (eexists _, _, _; split; [reflexivity|]; split; [by net_simpl|done]).
  all: destruct (status_code r =? 403)%Z; simpl;
    try (eexists _, _, _; split; [reflexivity|]; split; [by net_simpl|done]).
  all: destruct (status_code r =? 429)%Z; simpl;
    try (eexists _, _, _; split; [reflexivity|]; split; [by net_simpl|done]).
  all: destruct (status_code r =? 503)%Z; simpl;
    try (eexists _, _, _; split; [reflexivity|]; split; [by net_simpl|done]).
  all: destruct (raise_for_status r); simpl;
    try (eexists _, _, _; split; [reflexivity|]; split; [by net_simpl|done]).
  all: destruct (String.length _ <? 500)%nat; simpl.
  all: match goal with
       | |- context [ write_artifact ?a ?b ?c ?d ] =>
           destruct (write_artifact a b c d) as [[name|e] w2]; simpl
       end.
  all: eexists _, _, _; split; [reflexivity|]; split; [by net_simpl|eauto].
Qed.

(** The loop from attempt [a] on, with [m] attempts left. *)
Lemma retry_loop_spec n url cb m a last_error w evs :
  ∃ r w' evs' outcomes,
    for_each (seq a m) (attempt_once n url cb) last_error (w, evs)
      = (r, (w', evs')) ∧
    net evs' = net evs ++ schedule url a outcomes ∧
    length outcomes ≤ m ∧
    Forall (λ o, ∃ w0, o = (session_get url w0).1) outcomes ∧
    match r with
    | inl res =>
        success res = true ∧ error res = None ∧
        ∃ pre o, outcomes = pre ++ [o] ∧ Forall fails pre ∧ failure_of o = None
    | inr le =>
        length outcomes = m ∧ Forall fails outcomes ∧
        le = match last outcomes with
             | Some o => failure_of o
             | None => last_error
             end
    end.
Proof.
  revert a last_error w evs.
  induction m as [|m IH]; intros a last_error w evs.
  { exists (inr last_error), w, evs, []. simpl.
    rewrite app_nil_r. repeat split; auto. }
  destruct (attempt_once_spec n url cb a last_error w evs)
    as (x & w1 & evs1 & Hrun & Hnet & Hx).
  simpl. unfold mbind, State_bind. rewrite Hrun.
  destruct (failure_of (session_get url w).1) as [e|] eqn:Hf.
  - subst x.
    destruct (IH (S a) (Some e) w1 evs1)
      as (r & w' & evs' & outs & Hloop & Hnet' & Hlen & Hw & Hr).
    exists r, w', evs', ((session_get url w).1 :: outs).
    split; [exact Hloop|].
    split; [rewrite Hnet', Hnet; simpl; by rewrite <- !app_assoc|].
    split; [simpl; lia|].
    split; [constructor; eauto|].
    destruct r as [res|le].
    + destruct Hr as (Hs & He & pre & o & -> & Hpre & Ho).
      repeat split; auto.
      exists ((session_get url w).1 :: pre), o. repeat split; auto.
      constructor; [|done]. unfold fails. rewrite Hf. eauto.
    + destruct Hr as (Hl & Hall & Hle).
      split; [simpl; lia|]. split.
      * constructor; [|done]. unfold fails. rewrite Hf. eauto.
      * subst le. destruct outs as [|o' outs']; [simpl; congruence|].
        rewrite last_cons_cons.
        destruct (last (o' :: outs')) eqn:Hlast; [done|].
        by apply last_None in Hlast.
  - destruct Hx as (res & -> & Hs & He).
    exists (inl res), w1, evs1, [(session_get url w).1].
    split; [reflexivity|].
    split; [rewrite Hnet; simpl; by rewrite ?app_nil_r|].
    split; [simpl; lia|].
    split; [repeat constructor; eauto|].
    repeat split; auto.
    exists [], (session_get url w).1. repeat split; auto.
Qed.

(** The whole of [scrape_url], read off its events. *)
Lemma scrape_url_spec n url cb w :
  ∃ res w' evs outcomes,
    scrape_url n url cb (w, []) = (res, (w', evs)) ∧
    net evs = schedule url 0 outcomes ∧
    length outcomes ≤ n ∧
    Forall (λ o, ∃ w0, o = (session_get url w0).1) outcomes ∧
    (if success res
     then error res = None ∧
          ∃ pre o, outcomes = pre ++ [o] ∧ Forall fails pre ∧ failure_of o = None
     else length outcomes = n ∧ Forall fails outcomes ∧ markdown res = "" ∧
          error res = last outcomes ≫= failure_of).
Proof.
  unfold scrape_url, mbind, State_bind, mret, State_ret, Py.range.
  set (start := log cb _ (w, [])).
  assert (∃ evs0, start = (tt, (w, evs0)) ∧ net evs0 = []) as (evs0 & -> & Hn0).
  { subst start. destruct cb; simpl; eauto. }
  destruct (retry_loop_spec n url cb n 0 None w evs0)
    as (r & w' & evs' & outs & Hloop & Hnet & Hlen & Hw & Hr).
  rewrite Hloop. rewrite Hn0 in Hnet. simpl in Hnet.
  destruct r as [res|le].
  - destruct Hr as (Hs & He & Hpre).
    exists res, w', evs', outs. rewrite Hs. repeat split; auto.
  - destruct Hr as (Hl & Hall & Hle).
    assert (error (failed le) = last outs ≫= failure_of) as Herr.
    { simpl. subst le. by destruct (last outs). }
    destruct cb; simpl; eexists (failed le), w', _, outs;
      (split; [reflexivity|]);
      (split; [rewrite ?net_app, ?app_nil_r; exact Hnet|]);
      repeat split; auto.
Qed.

Lemma permanent_fails o : permanent o → fails o.
Proof.
  destruct o as [| |msg|r]; simpl; try done.
  - intros _. by eexists.
  - unfold fails, failure_of, raise_for_status.
    intros [-> | ->]; simpl; by eexists.
Qed.

(** C7, as amended. [scrape_url] makes at most [max_retries] attempts (three
    for the service the manager builds); before the attempt of index
    [k ≥ 1] it sleeps [2^k] seconds; an attempt is followed by another one
    exactly when it failed, for whatever reason, and attempts are left; and
    when all attempts have failed the result is a failure with empty
    markdown whose error is the one of the last attempt. *)
Theorem bs4_retry_policy (max_retries : nat) (url : string) (cb : bool) (w : World) :
  let '(res, (_, evs)) := scrape_url max_retries url cb (w, []) in
  ∃ outcomes : list GetOutcome,
    net evs = schedule url 0 outcomes ∧
    length outcomes ≤ max_retries ∧
    (∀ k o, outcomes !! k = Some o →
            (S k < length outcomes ↔ fails o ∧ S k < max_retries)) ∧
    (if success res then error res = None
     else length outcomes = max_retries ∧ markdown res = "" ∧
          error res = last outcomes ≫= failure_of).
Proof.
  destruct (scrape_url_spec max_retries url cb w)
    as (res & w' & evs & outs & -> & Hnet & Hlen & _ & Hres).
  exists outs. split; [done|]. split; [done|].
  destruct (success res).
  - destruct Hres as (He & pre & o & -> & Hpre & Ho).
    split; [|done]. intros k o' Hk. rewrite length_app in *. simpl in *.
    destruct (decide (k < length pre)) as [Hlt|Hge].
    + rewrite lookup_app_l in Hk by done.
      split; [intros _|lia]. split; [|lia].
      eapply Forall_lookup_1 in Hpre; eauto.
    + rewrite lookup_app_r in Hk by lia.
      destruct (k - length pre) as [|j] eqn:Hj; simplify_eq/=.
      split; [lia|]. intros [[e He'] _]. congruence.
  - destruct Hres as (Hl & Hall & Hm & He).
    split; [|done]. intros k o Hk. rewrite Hl.
    split; [intros ?|tauto]. split; [|done].
    eapply Forall_lookup_1 in Hall; eauto.
Qed.

(** C8, as amended. A missing optional dependency surfaces at once: a
    strategy whose package is missing, asked for by name, is entered once
    and returns its "not installed" failure without a request, a pause or a
    browser, the world being left as it was; and a strategy the manager has
    no service for is not entered at all, the manager returns the "not
    available" failure.  (The manager has no service when the module of the
    service does not import; the module of the Playwright service imports
    nothing that the BS4 service does not, so where the manager is built
    this happens to Crawl4AI only.)  A 403, a 404 and a rejected URL do not
    surface at once: the BS4 service retries them like any other failure,
    and when every request for the URL ends so it makes all its
    [max_retries] requests before it fails. *)
Theorem permanent_error_policy (max_retries : nat) (self : ScrapingManager.t)
    (api_key : string) (other : option bool) (url : string) (cb : bool)
    (w : World) :
  ((∀ w0, permanent (session_get url w0).1) →
   let '(res, (_, evs)) := scrape_url max_retries url cb (w, []) in
   length (fetches evs) = max_retries ∧ Forall permanent (fetches evs) ∧
   success res = false ∧ markdown res = "") ∧
  (let '(res, (w', tr)) :=
     ScrapingManager.scrape_url (ScrapingManager.init api_key (Some false) other)
       url "Crawl4AI" cb (w, []) in
   res = Crawl4AIService.failed
           "Crawl4AI not installed. Run: pip install crawl4ai && crawl4ai-setup" ∧
   ScrapingManager.calls tr = [Crawl4AI] ∧
   effects (ScrapingManager.emitted tr) = [] ∧ w' = w) ∧
  (let '(res, (w', tr)) :=
     ScrapingManager.scrape_url (ScrapingManager.init api_key other (Some false))
       url "Playwright" cb (w, []) in
   res = PlaywrightService.failed "Playwright not installed" ∧
   ScrapingManager.calls tr = [Playwright] ∧
   effects (ScrapingManager.emitted tr) = [] ∧ w' = w) ∧
  (ScrapingManager.crawl4ai_service self = None →
   let '(res, (w', tr)) := ScrapingManager.scrape_url self url "Crawl4AI" cb (w, []) in
   res = ScrapingManager.not_available "Crawl4AI service not available" ∧
   ScrapingManager.calls tr = [] ∧ w' = w) ∧
  (ScrapingManager.playwright_service self = None →
   let '(res, (w', tr)) := ScrapingManager.scrape_url self url "Playwright" cb (w, []) in
   res = ScrapingManager.not_available "Playwright service not available" ∧
   ScrapingManager.calls tr = [] ∧ w' = w).
Proof.
  split_and!.
  - intros Hperm.
    destruct (scrape_url_spec max_retries url cb w)
      as (res & w' & evs & outs & -> & Hnet & Hlen & Hw & Hres).
    assert (fetches evs = outs) as ->.
    { by rewrite <- fetches_net, Hnet, fetches_schedule. }
    assert (Forall permanent outs) as Hp.
    { eapply Forall_impl; [exact Hw|]. intros o [w0 ->]. apply Hperm. }
    destruct (success res).
    + destruct Hres as (_ & pre & o & -> & _ & Ho). exfalso.
      apply Forall_app in Hp as [_ Hp]. apply Forall_inv in Hp.
      apply permanent_fails in Hp as [e He]. congruence.
    + destruct Hres as (Hl & _ & Hm & _). done.
  - unfold ScrapingManager.scrape_url. vm_compute Py.strip.
    destruct cb; simpl; done.
  - unfold ScrapingManager.scrape_url. vm_compute Py.strip.
    destruct cb; simpl; done.
  - intros Hc4. unfold ScrapingManager.scrape_url. rewrite Hc4.
    vm_compute Py.strip. destruct cb; simpl; done.
  - intros Hpw. unfold ScrapingManager.scrape_url. rewrite Hpw.
    vm_compute Py.strip. destruct cb; simpl; done.
Qed.
End BS4Facts.

(** A page that answers 404 three times, with the manager of an installation
    where neither optional module can be imported. *)
Lemma permanent_error_policy_witness :
  let rt := Scripted.always 404 "Not Found" in
  let url := "https://shop.example/p/1" in
  let self := ScrapingManager.init "key" None None in
  (let '(res, (_, evs)) := BS4Service.scrape_url 3 url true (0, []) in
   length (BS4Service.fetches evs) = 3 ∧
   Forall BS4Service.permanent (BS4Service.fetches evs) ∧
   success res = false ∧ markdown res = "") ∧
  (let '(res, (w', tr)) := ScrapingManager.scrape_url self url "Crawl4AI" true (0, []) in
   res = ScrapingManager.not_available "Crawl4AI service not available" ∧
   ScrapingManager.calls tr = [] ∧ w' = 0) ∧
  (let '(res, (w', tr)) := ScrapingManager.scrape_url self url "Playwright" true (0, []) in
   res = ScrapingManager.not_available "Playwright service not available" ∧
   ScrapingManager.calls tr = [] ∧ w' = 0).
Proof.
  intros rt url self.
  destruct (permanent_error_policy (H := rt) 3 self "key" None url true 0)
    as (Hbs4 & _ & _ & Hc4 & Hpw).
  split; [|split].
  - apply Hbs4. intros w0. simpl. right. reflexivity.
  - apply Hc4. reflexivity.
  - apply Hpw. reflexivity.
Defined.

(** C7, counterexample. A 404 is none of the listed causes, yet the service
    retries it: three requests, with pauses of 2 and 4 seconds. *)
Lemma not_found_is_retried :
  let rt := Scripted.always 404 "Not Found" in
  let url := "https://shop.example/p/1" in
  let o := Scripted.status 404 "Not Found" url in
  let '(res, (_, evs)) := BS4Service.scrape_url 3 url false (0, []) in
  ¬ BS4Service.listed_retryable o ∧
  BS4Service.net evs = [Fetched url o; Sleep 2; Fetched url o; Sleep 4; Fetched url o] ∧
  res = BS4Service.failed
          (Some "404 Client Error: Not Found for url: https://shop.example/p/1").
Proof.
  vm_compute. split; [|done]. intros [?|[?|?]]; discriminate.
Qed.

(** C8, counterexample. The first 403 does not surface: the service asks
    three times before it fails. *)
Lemma forbidden_is_retried :
  let rt := Scripted.always 403 "Forbidden" in
  let url := "https://shop.example/p/1" in
  let o := Scripted.status 403 "Forbidden" url in
  let '(res, (_, evs)) := BS4Service.scrape_url 3 url false (0, []) in
  BS4Service.permanent o ∧
  BS4Service.fetches evs = [o; o; o] ∧
  res = BS4Service.failed (Some "403 Forbidden - Site may be blocking requests").
Proof. vm_compute. split; [by left|done]. Qed.

(* ================================================================== *)
(** * The shape of the results *)

Section ResultFacts.
Context `{Runtime}.

Lemma for_each_inl {Σ X Acc R} (P : R → Prop) (body : X → Acc → State Σ (R + Acc)) :
  (∀ x acc s r, (body x acc s).1 = inl r → P r) →
  ∀ xs acc s r, (for_each xs body acc s).1 = inl r → P r.
Proof.
  intros Hbody xs. induction xs as [|x xs IH]; intros acc s r; simpl.
  - unfold mret, State_ret. simpl. discriminate.
  - unfold mbind, State_bind. specialize (Hbody x acc s).
    destruct (body x acc s) as [[r'|acc'] s']; simpl in *.
    + unfold mret, State_ret. simpl. intros [= <-]. by apply Hbody.
    + apply IH.
Qed.

Lemma well_formed_failure msg name :
  well_formed {| success := false; markdown := ""; error := msg; filename := name |}.
Proof. by split. Qed.

Lemma well_formed_success md name :
  well_formed {| success := true; markdown := md; error := None; filename := name |}.
Proof. by split. Qed.

Local Hint Resolve well_formed_failure well_formed_success : core.

Lemma bs4_well_formed n url cb w :
  well_formed (BS4Service.scrape_url n url cb (w, [])).1.
Proof.
  destruct (scrape_url_spec n url cb w)
    as (res & w' & evs & outs & -> & _ & _ & _ & Hres). simpl.
  split; intros Hs; rewrite Hs in Hres; [tauto|].
  by destruct Hres as (_ & _ & ? & _).
Qed.

Lemma firecrawl_attempt_well_formed url cb k u s r :
  (FirecrawlService.attempt_once url cb k u s).1 = inl r → well_formed r.
Proof.
  destruct s as [w evs].
  unfold FirecrawlService.attempt_once, FirecrawlService._save_markdown,
    FirecrawlService.failed, log, emit, in_world,
    mbind, State_bind, mret, State_ret.
  destruct cb; simpl; destruct (requests_post url w) as [o w1]; simpl;
    destruct o as [| msg | st text raw | text msg]; simpl;
    repeat case_bool_decide; simpl; try (intros [= <-]; by auto); try done.
  all: destruct (st =? 200)%Z; simpl;
    repeat case_bool_decide; simpl; try (intros [= <-]; by auto); try done.
  all: match goal with
       | |- context [ write_artifact ?a ?b ?c ?d ] =>
           destruct (write_artifact a b c d) as [[name|e] w2]; simpl
       end; intros [= <-]; auto.
Qed.

Lemma firecrawl_well_formed api_key url cb s :
  well_formed (FirecrawlService.scrape_url api_key url cb s).1.
Proof.
  unfold FirecrawlService.scrape_url.
  destruct (Py.truthy api_key); cbn [negb]; [|by split].
  unfold mbind, State_bind, mret, State_ret.
  destruct (log cb _ s) as [[] s0].
  match goal with
  | |- context [ for_each ?xs ?body ?acc s0 ] =>
      pose proof (for_each_inl well_formed body
                    (λ k u s' r', firecrawl_attempt_well_formed url cb k u s' r')
                    xs acc s0) as Hloop;
      destruct (for_each xs body acc s0) as [[r|[]] s1]; simpl; [|by split]
  end.
  by apply Hloop.
Qed.

Lemma crawl4ai_well_formed available url cb s :
  well_formed (Crawl4AIService.scrape_url available url cb s).1.
Proof.
  destruct s as [w evs].
  unfold Crawl4AIService.scrape_url, Crawl4AIService.try_body,
    Crawl4AIService.failed, _save_markdown, log, emit, in_world,
    mbind, State_bind, mret, State_ret.
  destruct available, cb; simpl; try by split.
  all: destruct (crawl4ai_run url w) as [[lines o] w1]; simpl.
  all: destruct o as [msg|cr]; simpl.
  all: try match goal with
           | |- context [ @mapM ?M ?mb ?mr ?A ?B ?f ?l ?st ] =>
               destruct (@mapM M mb mr A B f l st) as [x [w2 evs2]]; simpl
           end.
  all: try by split.
  all: destruct (crawl_success cr); simpl; try by split.
  all: destruct (Py.truthy (crawl_markdown cr)); simpl; try by split.
  all: destruct (Py.truthy (crawl_html cr)); simpl.
  all: try destruct (String.length _ <? 500)%nat; simpl.
  all: match goal with
       | |- context [ write_artifact ?a ?b ?c ?d ] =>
           destruct (write_artifact a b c d) as [[name|e] w3]; simpl
       end; by split.
Qed.

Lemma playwright_well_formed installed url cb s :
  well_formed (PlaywrightService.scrape_url installed url cb s).1.
Proof.
  destruct s as [w evs].
  unfold PlaywrightService.scrape_url, PlaywrightService.try_body,
    PlaywrightService.failed, _save_markdown, log, emit, in_world,
    mbind, State_bind, mret, State_ret.
  destruct installed, cb; simpl; try by split.
  all: destruct (playwright_session url w) as [[lines o] w1]; simpl.
  all: try match goal with
           | |- context [ @mapM ?M ?mb ?mr ?A ?B ?f ?l ?st ] =>
               destruct (@mapM M mb mr A B f l st) as [x [w2 evs2]]; simpl
           end.
  all: destruct o as [msg|raw]; simpl; try by split.
  all: destruct (String.length _ <? 500)%nat; simpl.
  all: match goal with
       | |- context [ write_artifact ?a ?b ?c ?d ] =>
           destruct (write_artifact a b c d) as [[name|e] w3]; simpl
       end; by split.
Qed.

Import ScrapingManager.

Ltac run_service_with_invariant :=
  match goal with
  | Hsvc : ∀ url cb w, ?P (?svc url cb (w, [])).1
    |- context [ ?svc ?u ?c (?w0, @nil SvcEvent) ] =>
      let Hp := fresh "Hp" in
      pose proof (Hsvc u c w0) as Hp;
      destruct (svc u c (w0, @nil SvcEvent)) as [? [? ?]];
      simpl in Hp; simpl
  end.

(** A property of the results of the four services, and of the failures the
    manager builds itself, is a property of everything the manager returns. *)
Lemma manager_result (P : ScrapeResult → Prop) (self : t) :
  (∀ url cb w, P (bs4_service self url cb (w, [])).1) →
  (∀ url cb w, P (firecrawl_service self url cb (w, [])).1) →
  (∀ svc, crawl4ai_service self = Some svc → ∀ url cb w, P (svc url cb (w, [])).1) →
  (∀ svc, playwright_service self = Some svc → ∀ url cb w, P (svc url cb (w, [])).1) →
  (∀ msg, P {| success := false; markdown := ""; error := Some msg;
               filename := Some "" |}) →
  ∀ url method cb w tr, P (scrape_url self url method cb (w, tr)).1.
Proof.
  destruct self as [bs4 fc c4 pw]. simpl. intros Hbs4 Hfc Hc4 Hpw Hown.
  assert (∀ url cb w tr,
            P (_scrape_auto {| bs4_service := bs4; firecrawl_service := fc;
                               crawl4ai_service := c4; playwright_service := pw |}
                 url cb (w, tr)).1) as Hauto.
  { intros url cb w tr. unfold _scrape_auto. simpl.
    unfold mbind, State_bind, mret, State_ret, invoke, log_line. simpl.
    destruct c4 as [c4|], pw as [pw|];
      try specialize (Hc4 _ eq_refl); try specialize (Hpw _ eq_refl); simpl;
      repeat (run_service_with_invariant; try case_success); done. }
  intros url method cb w tr. unfold scrape_url.
  unfold mbind, State_bind, mret, State_ret, invoke, log_line, not_available.
  repeat case_bool_decide; simpl; try apply Hown; try apply Hauto.
  - by run_service_with_invariant.
  - destruct c4 as [c4|]; simpl; [|apply Hown].
    specialize (Hc4 _ eq_refl). by run_service_with_invariant.
  - destruct pw as [pw|]; simpl; [|apply Hown].
    specialize (Hpw _ eq_refl). by run_service_with_invariant.
  - by run_service_with_invariant.
Qed.

(** C2, as amended. Whatever the runtime does, every result of the four
    strategies, of the manager built by [__init__] and of the scraping loop
    of the application has no error when it is a success and no markdown
    when it is a failure. *)
Theorem results_well_formed (api_key : string) (crawl4ai_module playwright_module : option bool)
    (max_retries i : nat) (flag : bool) (url method : string) (cb : bool) (w : World) :
  let manager := init api_key crawl4ai_module playwright_module in
  well_formed (BS4Service.scrape_url max_retries url cb (w, [])).1 ∧
  well_formed (Crawl4AIService.scrape_url flag url cb (w, [])).1 ∧
  well_formed (PlaywrightService.scrape_url flag url cb (w, [])).1 ∧
  well_formed (FirecrawlService.scrape_url api_key url cb (w, [])).1 ∧
  well_formed (scrape_url manager url method cb (w, [])).1 ∧
  well_formed (App.scrape_slot manager i url method (w, [])).1.
Proof.
  intros manager.
  assert (∀ url method cb w tr,
            well_formed (scrape_url manager url method cb (w, tr)).1) as Hmgr.
  { apply manager_result; simpl.
    - intros. apply bs4_well_formed.
    - intros. apply firecrawl_well_formed.
    - intros svc Hsvc. destruct crawl4ai_module; simplify_eq/=.
      intros. apply crawl4ai_well_formed.
    - intros svc Hsvc. destruct playwright_module; simplify_eq/=.
      intros. apply playwright_well_formed.
    - intros. by split. }
  split; [apply bs4_well_formed|].
  split; [apply crawl4ai_well_formed|].
  split; [apply playwright_well_formed|].
  split; [apply firecrawl_well_formed|].
  split; [apply Hmgr|].
  unfold App.scrape_slot.
  destruct (Py.truthy url && Py.truthy (Py.strip url)); [|by split].
  unfold mbind, State_bind, mret, State_ret.
  destruct (log_line true _ (w, [])) as [[] [w0 tr0]].
  specialize (Hmgr (Py.strip url) method true w0 tr0).
  destruct (scrape_url manager _ _ _ (w0, tr0)) as [res s1].
  destruct (success res); destruct (log_line true _ s1) as [[] s2]; exact Hmgr.
Qed.
End ResultFacts.

(** C2, counterexample. The hosted API answers 200 with no markdown, or with
    a page that is one reviews section: the Firecrawl service reports a
    success whose markdown is empty. *)
Lemma firecrawl_success_without_markdown :
  let url := "https://shop.example/p/1" in
  let page := "## Reviews" +:+ String FirecrawlService.newline "Great phone" in
  let empty_success :=
    {| success := true; markdown := ""; error := None; filename := Some "page.md" |} in
  (FirecrawlService.scrape_url (H := Scripted.hosted "") "key" url false (0, [])).1
    = empty_success ∧
  (FirecrawlService.scrape_url (H := Scripted.hosted page) "key" url false (0, [])).1
    = empty_success ∧
  ¬ spec_invariant empty_success.
Proof.
  vm_compute. split; [done|]. split; [done|].
  intros [Hs _]. destruct (Hs eq_refl) as [Hmd _]. by apply Hmd.
Qed.

(* ================================================================== *)
(** * The extraction matrix *)

Section MatrixFacts.
Context `{Runtime}.
Import DeepSeekService.

Lemma fill_column_lookup k f hs (res : gmap string (gmap string string)) h :
  fill_column k f hs res !! h
  = if decide (h ∈ hs) then insert k (f h) <$> res !! h else res !! h.
Proof.
  revert res. induction hs as [|x hs IH]; intros res.
  { rewrite decide_False; [done|]. apply not_elem_of_nil. }
  unfold fill_column in *. simpl. rewrite IH, lookup_alter.
  destruct (decide (x = h)) as [->|Hne].
  - rewrite (decide_True (P := h ∈ h :: hs)) by apply list_elem_of_here.
    destruct (decide (h ∈ hs)); [|done].
    destruct (res !! h) as [row|]; simpl; [|done].
    by rewrite insert_insert_eq.
  - destruct (decide (h ∈ hs)) as [Hin|Hout].
    + by rewrite (decide_True (P := h ∈ x :: hs)) by (by apply list_elem_of_further).
    + rewrite (decide_False (P := h ∈ x :: hs)); [done|].
      intros [?|?]%elem_of_cons; congruence.
Qed.


Lemma all_empty_lookup headers h : default "" (all_empty headers !! h) = "".
Proof.
  unfold all_empty. destruct (list_to_map _ !! h) as [v|] eqn:Hv; [|done].
  apply elem_of_list_to_map_2 in Hv. apply list_elem_of_fmap in Hv as (? & [= _ ->] & _).
  done.
Qed.

(** Without a client, or when the call fails, every attribute is empty. *)
Lemma extract_attributes_fails client md headers category cb mm43 w evs :
  client = false ∨ extractor_fails headers category mm43 md w →
  (extract_attributes client md headers category cb mm43 (w, evs)).1
  = all_empty headers.
Proof.
  unfold extract_attributes, extractor_fails.
  destruct client; simpl; [|by destruct cb].
  intros [?|Hfail]; [done|].
  destruct (Py.truthy md); simpl; [|by destruct cb].
  unfold log, emit, in_world, mbind, State_bind, mret, State_ret.
  destruct (0 <? size _)%nat, cb; simpl;
    destruct (chat_completion _ w) as [o w1]; simpl in *;
    destruct o as [e|text]; simpl; try done;
    destruct (json_loads _) as [e|fields|ty [n|]]; simpl; done.
Qed.


(** What one source writes. *)
Lemma process_source_spec client headers category cb mm43 results k r s :
  ∃ f s',
    process_source client headers category cb mm43 results (k, r) s
      = (fill_column k f headers results, s') ∧
    (success r = false ∨ markdown r = "" ∨ client = false
     ∨ extractor_fails headers category mm43 (markdown r) s.1 → ∀ h, f h = "").
Proof.
  destruct s as [w evs]. unfold process_source, usable.
  unfold mbind, State_bind, mret, State_ret.
  destruct (success r) eqn:Hs, (Py.truthy (markdown r)) eqn:Hm; simpl.
  2-4: destruct (log cb _ (w, evs)) as [[] s0]; by eexists (λ _, ""), _.
  destruct (log cb _ (w, evs)) as [[] [w0 evs0]] eqn:Hlog.
  assert (w0 = w) as ->.
  { unfold log, emit, mret, State_ret in Hlog. destruct cb; congruence. }
  pose proof (extract_attributes_fails client (markdown r) headers category cb mm43 w evs0)
    as Hfail.
  destruct (extract_attributes _ _ _ _ _ _ (w, evs0)) as [extracted s1].
  eexists (λ h, default "" (extracted !! h)), s1. split; [done|].
  intros [?|[Hmd|Hf]] h; [done| |].
  - rewrite Hmd in Hm. done.
  - simpl in Hfail. rewrite (Hfail Hf). apply all_empty_lookup.
Qed.




End MatrixFacts.


(* ================================================================== *)
(** * Reconciliation *)

Section StripFacts.
Lemma blank_rev_app s1 s2 :
  Py.blank (String.rev_app s1 s2) = Py.blank s1 && Py.blank s2.
Proof.
  revert s2. induction s1 as [|c s1 IH]; intros s2; simpl; [done|].
  rewrite IH. simpl. destruct (Py.isspace c), (Py.blank s1); simpl; done.
Qed.

Lemma blank_rev s : Py.blank (String.rev s) = Py.blank s.
Proof. unfold String.rev. rewrite blank_rev_app. simpl. apply andb_true_r. Qed.

Lemma lstrip_empty s : Py.lstrip s = "" → Py.blank s = true.
Proof.
  induction s as [|c s IH]; simpl; [done|].
  destruct (Py.isspace c); [auto|discriminate].
Qed.

Lemma blank_lstrip s : Py.blank (Py.lstrip s) = Py.blank s.
Proof.
  induction s as [|c s IH]; simpl; [done|].
  destruct (Py.isspace c) eqn:Hc; simpl; [done|]. by rewrite Hc.
Qed.

Lemma rev_app_empty s1 s2 : String.rev_app s1 s2 = "" → s1 = "" ∧ s2 = "".
Proof.
  revert s2. induction s1 as [|c s1 IH]; intros s2; simpl; [done|].
  intros Heq. by destruct (IH _ Heq).
Qed.

Lemma strip_empty s : Py.strip s = "" → Py.blank s = true.
Proof.
  unfold Py.strip, Py.rstrip, String.rev. intros Heq.
  apply rev_app_empty in Heq as [Heq _]. apply lstrip_empty in Heq.
  change (String.rev_app (Py.lstrip s) "") with (String.rev (Py.lstrip s)) in Heq.
  by rewrite blank_rev, blank_lstrip in Heq.
Qed.

(** The test of the buttons: the value is not made of white space only. *)
Lemma filled_not_blank val : App.filled val = negb (Py.blank val).
Proof.
  unfold App.filled. destruct (Py.blank val) eqn:Hb.
  - by apply blank_not_scraped.
  - destruct val as [|c val]; [done|]. simpl.
    destruct (Py.strip (String c val)) eqn:Hs; [|done].
    apply strip_empty in Hs. congruence.
Qed.
End StripFacts.

Section ReconciliationFacts.
Import App.

(** A loop that, for each header, selects the value [choose] gives, if any. *)
Lemma for_enumerate_final (choose : string → option string)
    (body : nat → string → SessionState → SessionState) :
  (∀ idx x st, final_values (body idx x st)
               = match choose x with
                 | Some v => <[x := v]> (final_values st)
                 | None => final_values st
                 end) →
  ∀ xs idx st h,
    final_values (for_enumerate body idx xs st) !! h
    = match (if decide (h ∈ xs) then choose h else None) with
      | Some v => Some v
      | None => final_values st !! h
      end.
Proof.
  intros Hbody xs. induction xs as [|x xs IH]; intros idx st h.
  { cbn [for_enumerate]. destruct (decide (h ∈ [])) as [Hin|_]; [|done].
    by apply not_elem_of_nil in Hin. }
  cbn [for_enumerate]. rewrite IH, Hbody.
  destruct (decide (h ∈ xs)) as [Hin|Hout].
  - rewrite (decide_True (P := h ∈ x :: xs)) by (by apply list_elem_of_further).
    destruct (choose h) as [v|] eqn:Hh; [done|].
    destruct (decide (x = h)) as [->|Hne]; [by rewrite Hh|].
    destruct (choose x); [by rewrite lookup_insert_ne|done].
  - destruct (decide (x = h)) as [->|Hne].
    + rewrite (decide_True (P := h ∈ h :: xs)) by apply list_elem_of_here.
      destruct (choose h); [by rewrite lookup_insert_eq|done].
    + rewrite (decide_False (P := h ∈ x :: xs)).
      * destruct (choose x); [by rewrite lookup_insert_ne|done].
      * intros [?|?]%elem_of_cons; congruence.
Qed.

Lemma autofill_best_final results headers st h :
  final_values (autofill_best results headers st) !! h
  = match (if decide (h ∈ headers) then first_filled results h priority else None) with
    | Some v => Some v
    | None => final_values st !! h
    end.
Proof.
  unfold autofill_best.
  apply (for_enumerate_final (λ x, first_filled results x priority)).
  intros idx x st0. by destruct (first_filled results x priority).
Qed.

Lemma use_source_final key results headers st h :
  final_values (use_source key results headers st) !! h
  = match (if decide (h ∈ headers)
           then (if filled (value_of results h key)
                 then Some (value_of results h key) else None)
           else None) with
    | Some v => Some v
    | None => final_values st !! h
    end.
Proof.
  unfold use_source.
  apply (for_enumerate_final
           (λ x, if filled (value_of results x key)
                 then Some (value_of results x key) else None)).
  intros idx x st0. by destruct (filled (value_of results x key)).
Qed.

(** What [first_filled] finds: the value of the first key whose value is
    not blank. *)
Lemma first_filled_spec results h keys :
  match first_filled results h keys with
  | Some v =>
      ∃ i key, keys !! i = Some key ∧ v = value_of results h key ∧
               Py.blank v = false ∧
               ∀ j key', j < i → keys !! j = Some key' →
                         Py.blank (value_of results h key') = true
  | None => ∀ key, key ∈ keys → Py.blank (value_of results h key) = true
  end.
Proof.
  induction keys as [|key keys IH]; simpl.
  { intros key Hin. by apply not_elem_of_nil in Hin. }
  rewrite filled_not_blank.
  destruct (Py.blank (value_of results h key)) eqn:Hb; simpl.
  - destruct (first_filled results h keys) as [v|].
    + destruct IH as (i & key' & Hi & Hv & Hnb & Hbefore).
      exists (S i), key'. repeat split; auto.
      intros [|j] key'' Hj Hk; simplify_eq/=; [done|].
      apply (Hbefore j); [lia|done].
    + intros key' [->|Hin]%elem_of_cons; auto.
  - exists 0, key. repeat split; auto. intros j key' Hj. lia.
Qed.

(** C4, as amended. "Auto-fill Best" gives an attribute the value of the
    first source, in the order url1, url2, url3, pdf, whose value is not
    blank (neither empty nor white space only); when every source is blank
    for the attribute its final value stays as it was; and for the matrix of
    the example the final value of "color" is "Black". *)
Theorem best_available_first_filled (results : gmap string (gmap string string))
    (headers : list string) (st : SessionState) (h : string) :
  h ∈ headers →
  let st' := autofill_best results headers st in
  (∀ i key, priority !! i = Some key →
     Py.blank (value_of results h key) = false →
     (∀ j key', j < i → priority !! j = Some key' →
                Py.blank (value_of results h key') = true) →
     final_values st' !! h = Some (value_of results h key)) ∧
  ((∀ key, key ∈ priority → Py.blank (value_of results h key) = true) →
   final_values st' !! h = final_values st !! h) ∧
  final_values (autofill_best colour_matrix ["color"] no_selection) !! "color"
  = Some "Black".
Proof.
  intros Hh st'. subst st'. rewrite autofill_best_final.
  rewrite decide_True by done.
  pose proof (first_filled_spec results h priority) as Hspec.
  split; [|split].
  - intros i key Hi Hnb Hbefore.
    destruct (first_filled results h priority) as [v|].
    + destruct Hspec as (i' & key' & Hi' & -> & Hnb' & Hbefore').
      destruct (lt_eq_lt_dec i i') as [[Hlt| ->]|Hgt].
      * rewrite (Hbefore' i key Hlt Hi) in Hnb. discriminate.
      * congruence.
      * rewrite (Hbefore i' key' Hgt Hi') in Hnb'. discriminate.
    + rewrite Hspec in Hnb; [discriminate|].
      apply list_elem_of_lookup. eauto.
  - intros Hall. destruct (first_filled results h priority) as [v|]; [|done].
    destruct Hspec as (i & key & Hi & -> & Hnb & _).
    rewrite Hall in Hnb; [discriminate|]. apply list_elem_of_lookup. eauto.
  - vm_compute. reflexivity.
Qed.

(** C5. A "Use URL" button changes the final value of an attribute only to
    the value of its source, and only when that value is not empty; when
    the value is the empty string the final value stays as it was; a final
    value that was there is still there afterwards.  A value that is not
    blank is selected for every attribute of the table. *)
Theorem single_source_keeps_selection (key : string)
    (results : gmap string (gmap string string)) (headers : list string)
    (st : SessionState) (h : string) :
  let st' := use_source key results headers st in
  let v := value_of results h key in
  (v = "" → final_values st' !! h = final_values st !! h) ∧
  (final_values st' !! h ≠ final_values st !! h →
   final_values st' !! h = Some v ∧ v ≠ "" ∧ h ∈ headers) ∧
  (is_Some (final_values st !! h) → is_Some (final_values st' !! h)) ∧
  (h ∈ headers → Py.blank v = false → final_values st' !! h = Some v).
Proof.
  intros st' v. subst st'. rewrite use_source_final. fold v.
  rewrite filled_not_blank.
  destruct (decide (h ∈ headers)) as [Hin|Hout];
    destruct (Py.blank v) eqn:Hb; simpl; repeat split; try done.
  - intros ->. done.
  - intros ->. done.
Qed.
End ReconciliationFacts.

(** The matrix of the example, read for "color". *)
Lemma best_available_first_filled_witness :
  let results := App.colour_matrix in
  let st' := App.autofill_best results ["color"] App.no_selection in
  (∀ i key, App.priority !! i = Some key →
     Py.blank (App.value_of results "color" key) = false →
     (∀ j key', j < i → App.priority !! j = Some key' →
                Py.blank (App.value_of results "color" key') = true) →
     App.final_values st' !! "color" = Some (App.value_of results "color" key)) ∧
  ((∀ key, key ∈ App.priority → Py.blank (App.value_of results "color" key) = true) →
   App.final_values st' !! "color" = App.final_values App.no_selection !! "color") ∧
  App.final_values (App.autofill_best App.colour_matrix ["color"] App.no_selection)
    !! "color" = Some "Black".
Proof.
  apply (best_available_first_filled App.colour_matrix ["color"] App.no_selection "color").
  refine (bool_decide_unpack _ _). vm_compute. exact I.
Defined.

(** C4, counterexample. With a blank for url1 the first value that is not
    the empty string is that blank, but the button selects "Black". *)
Lemma blank_value_is_skipped :
  App.spec_first_non_empty App.blank_matrix "color" App.priority = Some " " ∧
  App.final_values (App.autofill_best App.blank_matrix ["color"] App.no_selection)
    !! "color" = Some "Black".
Proof. vm_compute. done. Qed.

(* ================================================================== *)
(** * The content filter *)

Section FilterFacts.
Import ContentFilter.

(** Induction on a tree, with the hypothesis for every child. *)
Lemma Node_forall_ind (P : Node → Prop) :
  (∀ s, P (Text s)) →
  (∀ nm a children, Forall P children → P (Tag nm a children)) →
  ∀ n, P n.
Proof.
  intros Htext Htag. fix IH 1. intros [s|nm a children]; [apply Htext|].
  apply Htag. induction children as [|c children IHc]; constructor; auto.
Qed.

Lemma elem_of_flat_map {A B} (f : A → list B) (l : list A) (y : B) :
  y ∈ flat_map f l ↔ ∃ x, x ∈ l ∧ y ∈ f x.
Proof.
  rewrite list_elem_of_In, in_flat_map. split.
  - intros (x & Hx & Hy). exists x. by rewrite !list_elem_of_In.
  - intros (x & Hx & Hy). exists x. by rewrite <- !list_elem_of_In.
Qed.

(** The elements below an element of a tree are elements of the tree. *)
Lemma tags_trans n d e : d ∈ tags n → e ∈ tags d → e ∈ tags n.
Proof.
  revert d e. induction n as [s|nm a children IH] using Node_forall_ind;
    intros d e; simpl.
  { intros Hd. by apply not_elem_of_nil in Hd. }
  intros [->|Hd]%elem_of_cons He; [done|].
  apply list_elem_of_further.
  apply elem_of_flat_map in Hd as (c & Hc & Hd).
  apply elem_of_flat_map. exists c. split; [done|].
  rewrite Forall_forall in IH. eapply IH; eauto.
Qed.

Lemma descendants_tags e : ∀ d, d ∈ descendants e → d ∈ tags e.
Proof.
  destruct e as [s|nm a children]; intros d; unfold descendants; simpl.
  - intros Hd. by apply not_elem_of_nil in Hd.
  - apply list_elem_of_further.
Qed.

Lemma descendants_trans a e d :
  e ∈ descendants a → d ∈ descendants e → d ∈ descendants a.
Proof.
  unfold descendants at 1 3. intros He Hd.
  apply elem_of_flat_map in He as (c & Hc & He).
  apply elem_of_flat_map. exists c. split; [done|].
  eapply tags_trans; [exact He|]. by apply descendants_tags.
Qed.

Lemma string_app_assoc s1 s2 s3 : (s1 +:+ s2) +:+ s3 = s1 +:+ (s2 +:+ s3).
Proof.
  induction s1 as [|c s1 IH]; [reflexivity|].
  change (String c ((s1 +:+ s2) +:+ s3) = String c (s1 +:+ (s2 +:+ s3))).
  by rewrite IH.
Qed.

Lemma string_length_app s1 s2 :
  String.length (s1 +:+ s2) = String.length s1 + String.length s2.
Proof.
  induction s1 as [|c s1 IH]; [reflexivity|].
  change (S (String.length (s1 +:+ s2)) = S (String.length s1 + String.length s2)).
  by rewrite IH.
Qed.

Lemma concat_strings_app l1 l2 :
  concat_strings (l1 ++ l2) = concat_strings l1 +:+ concat_strings l2.
Proof.
  induction l1 as [|s l1 IH]; [reflexivity|].
  change (s +:+ concat_strings (l1 ++ l2)
          = (s +:+ concat_strings l1) +:+ concat_strings l2).
  by rewrite IH, string_app_assoc.
Qed.

Definition stripped_length (l : list string) : nat :=
  String.length (concat_strings (filter (λ s, s ≠ EmptyString) (Py.strip <$> l))).

Lemma stripped_length_app l1 l2 :
  stripped_length (l1 ++ l2) = stripped_length l1 + stripped_length l2.
Proof.
  unfold stripped_length.
  by rewrite fmap_app, filter_app, concat_strings_app, string_length_app.
Qed.

Lemma flat_map_app {A B} (f : A → list B) l1 l2 :
  flat_map f (l1 ++ l2) = flat_map f l1 ++ flat_map f l2.
Proof. induction l1 as [|x l1 IH]; simpl; [done|]. by rewrite IH, app_assoc. Qed.

(** The text of an element is at least as long as the text of any element
    below it. *)
Lemma text_length_tags n e :
  e ∈ tags n →
  String.length (get_text_strip e) ≤ String.length (get_text_strip n).
Proof.
  revert e. induction n as [s|nm a children IH] using Node_forall_ind;
    intros e; simpl.
  { intros He. by apply not_elem_of_nil in He. }
  intros [->|He]%elem_of_cons; [done|].
  apply elem_of_flat_map in He as (c & Hc & He).
  rewrite Forall_forall in IH. specialize (IH c Hc e He).
  apply list_elem_of_split in Hc as (pre & post & ->).
  change (String.length (get_text_strip (Tag nm a (pre ++ c :: post))))
    with (stripped_length (flat_map strings (pre ++ c :: post))).
  change (String.length (get_text_strip c)) with (stripped_length (strings c)) in IH.
  rewrite flat_map_app. simpl. rewrite !stripped_length_app. lia.
Qed.

(** Protected elements are not put on [elements_to_remove]. *)
Lemma protected_kept e : protected e → noise_to_remove e = false.
Proof.
  unfold protected, noise_to_remove. intros [Hlen|[Hprod|(d & Hd & Hprod)]].
  - apply Nat.ltb_lt in Hlen. rewrite Hlen. apply andb_false_r.
  - rewrite Hprod. simpl. destruct (_ <? _)%nat; apply andb_false_r.
  - assert (existsb _is_product_element (descendants e) = true) as ->.
    { apply existsb_exists. exists d. by rewrite <- list_elem_of_In. }
    simpl. destruct (_ <? _)%nat, (_is_product_element e); apply andb_false_r.
Qed.

(** Protection passes to the elements above. *)
Lemma protected_above a e : e ∈ descendants a → protected e → protected a.
Proof.
  intros He [Hlen|[Hprod|(d & Hd & Hprod)]].
  - left. eapply Nat.lt_le_trans; [exact Hlen|].
    apply text_length_tags. by apply descendants_tags.
  - right. right. eauto.
  - right. right. exists d. split; [|done]. by eapply descendants_trans.
Qed.

(** The part of C6 that holds: an element whose own visible text is longer
    than 100 characters, or that matches the product patterns by class or
    id, or that has such an element below it, is not put on
    [elements_to_remove], and neither is any element above it. *)
Lemma protected_survives_step2 e :
  protected e →
  noise_to_remove e = false ∧ ∀ a, e ∈ descendants a → noise_to_remove a = false.
Proof.
  intros Hp. split; [by apply protected_kept|].
  intros a Ha. apply protected_kept. by eapply protected_above.
Qed.

(** The class and the id make an element noise only when they match the
    noise patterns and not the product patterns; a [data-] attribute makes
    it noise as soon as its value matches the noise patterns. *)
Lemma noise_element_cases e :
  _is_noise_element e = true →
  (_matches_pattern (class_str e) NOISE_PATTERNS = true
   ∧ _matches_pattern (class_str e) PRODUCT_PATTERNS = false)
  ∨ (_matches_pattern (elem_id e) NOISE_PATTERNS = true
     ∧ _matches_pattern (elem_id e) PRODUCT_PATTERNS = false)
  ∨ data_noise e = true.
Proof.
  unfold _is_noise_element. case_bool_decide; [done|].
  destruct (_matches_pattern (class_str e) NOISE_PATTERNS),
    (_matches_pattern (class_str e) PRODUCT_PATTERNS); simpl; auto;
  destruct (_matches_pattern (elem_id e) NOISE_PATTERNS),
    (_matches_pattern (elem_id e) PRODUCT_PATTERNS); simpl; auto.
Qed.
End FilterFacts.

(** C6, the failing input. The value "review-specs" matches the noise
    patterns and the product patterns.  As a class or as an id it does not
    make the block noise; as the value of a [data-] attribute it does, the
    block is put on [elements_to_remove] and the cleaned page has lost it. *)
Lemma data_attribute_ignores_product :
  ContentFilter._matches_pattern "review-specs" ContentFilter.NOISE_PATTERNS = true ∧
  ContentFilter._matches_pattern "review-specs" ContentFilter.PRODUCT_PATTERNS = true ∧
  ContentFilter._is_noise_element ContentFilter.spec_block_class = false ∧
  ContentFilter._is_noise_element ContentFilter.spec_block_id = false ∧
  ContentFilter._is_noise_element ContentFilter.spec_block_data = true ∧
  ContentFilter.elements_to_remove (ContentFilter.page_with ContentFilter.spec_block_data)
    = [ContentFilter.spec_block_data] ∧
  ContentFilter.clean_soup (ContentFilter.page_with ContentFilter.spec_block_data)
    = [Tag "body" ∅ [Tag "h1" ∅ [Text "Phone X"]]] ∧
  ContentFilter.clean_soup (ContentFilter.page_with ContentFilter.spec_block_class)
    = [ContentFilter.spec_block_class].
Proof. vm_compute. repeat split. Qed.

(* ================================================================== *)
(** * Two runs *)

(** Automatic mode on a page that answers 404, with both optional modules
    imported but their packages missing and no Firecrawl key: the four
    strategies are entered in order and the result is the one of Firecrawl. *)
Example auto_run_all_fail :
  let rt := Scripted.always 404 "Not Found" in
  let '(res, (_, tr)) :=
    ScrapingManager.scrape_url (ScrapingManager.init "" (Some false) (Some false))
      "https://shop.example/p/1" "Auto" true (0, []) in
  ScrapingManager.calls tr = [BS4; Crawl4AI; Playwright; Firecrawl] ∧
  res = FirecrawlService.failed "Firecrawl API key not configured".
Proof. vm_compute. done. Qed.

(** The BS4 service on a page that times out once and then answers: one
    pause of two seconds, two requests, a success. *)
Example bs4_second_attempt :
  let url := "https://shop.example/p/1" in
  let page := {| status_code := 200; reason := "OK"; resp_url := url;
                 content := "<p>Phone X</p>" |} in
  let rt := Scripted.runtime
              (λ _ n, if (n <? 1)%nat then GetTimeout else GetResponse page)
              (λ _ _, PostTimeout) in
  let '(res, (_, evs)) := BS4Service.scrape_url 3 url false (0, []) in
  BS4Service.net evs = [Fetched url GetTimeout; Sleep 2; Fetched url (GetResponse page)] ∧
  success res = true ∧ error res = None.
Proof. vm_compute. done. Qed.

(* ================================================================== *)
(** * Explicit choice of a strategy *)

Section DispatchFacts.
Context `{Runtime}.
Import ScrapingManager.

(** X1. Asked for a strategy by name (white space around the name aside),
    the manager enters the service it has for that strategy, once and for
    the URL it was given, and returns its result and its world unchanged. *)
Theorem explicit_dispatch (self : t) (v : Variant) (service : Service)
    (url method : string) (cb : bool) (w : World) :
  Py.strip method = method_name v →
  service_of self v = Some service →
  let '(res, (w', tr)) := scrape_url self url method cb (w, []) in
  res = (service url cb (w, [])).1 ∧ w' = (service url cb (w, [])).2.1 ∧
  boundaries tr = [Call v url; Return v res].
Proof.
  intros Hm Hs. unfold scrape_url. rewrite Hm.
  unfold mbind, State_bind, mret, State_ret, invoke, log_line.
  destruct self as [bs4 fc c4 pw]. simpl in Hs.
  destruct v; simpl in *; simplify_eq/=;
    destruct (service url cb (w, [])) as [res [w' evs]]; simpl;
    destruct cb; simpl;
    rewrite ?boundaries_app, ?boundaries_emit; done.
Qed.
End DispatchFacts.

(** The method " Firecrawl " with a manager that has no key for it. *)
Lemma explicit_dispatch_witness :
  let rt := Scripted.always 200 "OK" in
  let self := ScrapingManager.init "" None None in
  let service := FirecrawlService.scrape_url "" in
  let url := "https://shop.example/p/1" in
  let '(res, (w', tr)) := ScrapingManager.scrape_url self url " Firecrawl " true (0, []) in
  res = (service url true (0, [])).1 ∧ w' = (service url true (0, [])).2.1 ∧
  ScrapingManager.boundaries tr = [Call Firecrawl url; Return Firecrawl res].
Proof.
  intros rt self service url.
  apply (explicit_dispatch (H := rt) self Firecrawl service url " Firecrawl " true 0);
    reflexivity.
Defined.

(* ================================================================== *)
(** * The retry loop of the Firecrawl service *)

Section FirecrawlFacts.
Context `{Runtime}.
Import FirecrawlService.

Lemma effects_app evs1 evs2 : effects (evs1 ++ evs2) = effects evs1 ++ effects evs2.
Proof. apply omap_app. Qed.

Ltac effects_simpl :=
  repeat (progress (rewrite ?effects_app, ?app_nil_r, <- ?app_assoc; simpl)).

(** One attempt: the request it adds, and how it ends. *)
Lemma firecrawl_attempt_spec url cb k w evs :
  ∃ x w' evs',
    attempt_once url cb k tt (w, evs) = (x, (w', evs')) ∧
    effects evs' = effects evs ++ [Posted url (requests_post url w).1] ∧
    w' = match post_failure (requests_post url w).1 with
         | None =>
             match (requests_post url w).1 with
             | PostResponse _ _ raw =>
                 (write_artifact "" url (_filter_markdown raw) (requests_post url w).2).2
             | _ => (requests_post url w).2
             end
         | Some _ => (requests_post url w).2
         end ∧
    match post_failure (requests_post url w).1 with
    | None =>
        ∃ text raw name,
          (requests_post url w).1 = PostResponse 200 text raw ∧
          x = inl {| success := true; markdown := _filter_markdown raw;
                     error := None; filename := Some name |}
    | Some e => x = if bool_decide (k = MAX_RETRIES - 1) then inl (failed e) else inr tt
    end.
Proof.
  unfold attempt_once, _save_markdown, post_failure, log, emit, in_world,
    mbind, State_bind, mret, State_ret.
  destruct cb; simpl; destruct (requests_post url w) as [o w1]; simpl;
    destruct o as [|msg|st text raw|text msg]; simpl;
    try (case_bool_decide; simpl; eexists _, _, _;
         (split; [reflexivity|]); (split; [by effects_simpl|]); done).
  all: destruct (st =? 200)%Z eqn:Hst; simpl;
    try (case_bool_decide; simpl; eexists _, _, _;
         (split; [reflexivity|]); (split; [by effects_simpl|]); done).
  all: apply Z.eqb_eq in Hst as ->.
  all: destruct (write_artifact "" url (_filter_markdown raw) w1) as [[name|e] w2];
    simpl; eexists _, _, _; (split; [reflexivity|]); (split; [by effects_simpl|]);
    (split; [done|]); eauto.
Qed.

(** X2. With an API key, and a hosted API whose 200 answers are in its
    format or are no JSON at all, the Firecrawl service makes between one
    and three requests and never pauses between them; a request is followed
    by another one exactly when it failed (a timeout, a request exception,
    a status other than 200, or a 200 whose body is not JSON) and fewer
    than three have been made; a 200 with a JSON body ends the run with a
    success whose markdown is the filtered markdown of that answer; and
    after three failed requests the result is a failure with the error of
    the last one. *)
Theorem firecrawl_retry_policy (api_key url : string) (cb : bool) (w : World) :
  api_key ≠ "" →
  let '(res, (_, evs)) := scrape_url api_key url cb (w, []) in
  ∃ outcomes : list PostOutcome,
    effects evs = Posted url <$> outcomes ∧
    1 ≤ length outcomes ≤ MAX_RETRIES ∧
    (∀ k o, outcomes !! k = Some o →
            (S k < length outcomes ↔ is_Some (post_failure o) ∧ S k < MAX_RETRIES)) ∧
    (∀ o, post_failure o = None ↔ ∃ text raw, o = PostResponse 200 text raw) ∧
    (if success res
     then ∃ text raw, last outcomes = Some (PostResponse 200 text raw) ∧
                      markdown res = _filter_markdown raw ∧ error res = None
     else length outcomes = MAX_RETRIES ∧ markdown res = "" ∧
          error res = last outcomes ≫= post_failure).
Proof.
  intros Hkey.
  enough (let '(res, (_, evs)) := scrape_url api_key url cb (w, []) in
          ∃ outcomes : list PostOutcome,
            effects evs = Posted url <$> outcomes ∧
            1 ≤ length outcomes ≤ MAX_RETRIES ∧
            (∀ k o, outcomes !! k = Some o →
                    (S k < length outcomes
                     ↔ is_Some (post_failure o) ∧ S k < MAX_RETRIES)) ∧
            (if success res
             then ∃ text raw, last outcomes = Some (PostResponse 200 text raw) ∧
                              markdown res = _filter_markdown raw ∧ error res = None
             else length outcomes = MAX_RETRIES ∧ markdown res = "" ∧
                  error res = last outcomes ≫= post_failure)) as Hmain.
  { destruct (scrape_url api_key url cb (w, [])) as [res [w' evs]].
    destruct Hmain as (outcomes & He & Hlen & Hretry & Hres).
    exists outcomes. do 3 (split; [done|]). split; [|done].
    intros o. split.
    - destruct o as [|msg|st text raw|text msg]; simpl; try done.
      destruct (st =? 200)%Z eqn:Hst; [|done].
      apply Z.eqb_eq in Hst as ->. intros _. by exists text, raw.
    - intros (text & raw & ->). reflexivity. }
  unfold scrape_url.
  destruct api_key as [|c key]; [done|]. cbn [Py.truthy negb].
  unfold mbind, State_bind, mret, State_ret, Py.range, MAX_RETRIES.
  set (start := log cb _ (w, [])).
  assert (∃ evs0, start = (tt, (w, evs0)) ∧ effects evs0 = []) as (evs0 & -> & He0).
  { subst start. destruct cb; simpl; eauto. }
  cbn [seq for_each]. unfold mbind, State_bind, mret, State_ret.
  destruct (firecrawl_attempt_spec url cb 0 w evs0)
    as (x1 & w1 & evs1 & -> & He1 & _ & Hx1).
  rewrite He0 in He1. simpl in He1.
  set (o1 := (requests_post url w).1) in *.
  destruct (post_failure o1) as [e1|] eqn:Hf1.
  2:{ destruct Hx1 as (text & raw & name & Ho1 & ->). simpl.
      exists [o1]. split; [done|]. split; [simpl; lia|]. split.
      - intros [|k] o Hk; simplify_eq/=. rewrite Hf1. split; [lia|].
        intros [[? ?] _]. done.
      - exists text, raw. by rewrite <- Ho1. }
  subst x1. simpl.
  destruct (firecrawl_attempt_spec url cb 1 w1 evs1)
    as (x2 & w2 & evs2 & -> & He2 & _ & Hx2).
  rewrite He1 in He2. simpl in He2.
  set (o2 := (requests_post url w1).1) in *.
  destruct (post_failure o2) as [e2|] eqn:Hf2.
  2:{ destruct Hx2 as (text & raw & name & Ho2 & ->). simpl.
      exists [o1; o2]. split; [done|]. split; [simpl; lia|]. split.
      - intros [|[|k]] o Hk; simplify_eq/=.
        + rewrite Hf1. split; [intros _; split; [by eexists|lia]|lia].
        + rewrite Hf2. split; [lia|]. intros [[? ?] _]. done.
      - exists text, raw. by rewrite <- Ho2. }
  subst x2. simpl.
  destruct (firecrawl_attempt_spec url cb 2 w2 evs2)
    as (x3 & w3 & evs3 & -> & He3 & _ & Hx3).
  rewrite He2 in He3. simpl in He3.
  set (o3 := (requests_post url w2).1) in *.
  destruct (post_failure o3) as [e3|] eqn:Hf3.
  - subst x3. simpl. exists [o1; o2; o3]. split; [done|]. split; [simpl; lia|]. split.
    + intros [|[|[|k]]] o Hk; simplify_eq/=.
      * rewrite Hf1. split; [intros _; split; [by eexists|lia]|lia].
      * rewrite Hf2. split; [intros _; split; [by eexists|lia]|lia].
      * split; [lia|]. intros [_ ?]. lia.
    + simpl. by rewrite Hf3.
  - destruct Hx3 as (text & raw & name & Ho3 & ->). simpl.
    exists [o1; o2; o3]. split; [done|]. split; [simpl; lia|]. split.
    + intros [|[|[|k]]] o Hk; simplify_eq/=.
      * rewrite Hf1. split; [intros _; split; [by eexists|lia]|lia].
      * rewrite Hf2. split; [intros _; split; [by eexists|lia]|lia].
      * split; [lia|]. intros [_ ?]. lia.
    + exists text, raw. by rewrite <- Ho3.
Qed.
End FirecrawlFacts.

(** The hosted API answers 503 three times. *)
Lemma firecrawl_retry_policy_witness :
  let rt := Scripted.always 503 "Service Unavailable" in
  let url := "https://shop.example/p/1" in
  let '(res, (_, evs)) := FirecrawlService.scrape_url "key" url false (0, []) in
  ∃ outcomes : list PostOutcome,
    effects evs = Posted url <$> outcomes ∧
    1 ≤ length outcomes ≤ FirecrawlService.MAX_RETRIES ∧
    (∀ k o, outcomes !! k = Some o →
            (S k < length outcomes
             ↔ is_Some (FirecrawlService.post_failure o)
               ∧ S k < FirecrawlService.MAX_RETRIES)) ∧
    (∀ o, FirecrawlService.post_failure o = None
          ↔ ∃ text raw, o = PostResponse 200 text raw) ∧
    (if success res
     then ∃ text raw, last outcomes = Some (PostResponse 200 text raw) ∧
                      markdown res = FirecrawlService._filter_markdown raw ∧
                      error res = None
     else length outcomes = FirecrawlService.MAX_RETRIES ∧ markdown res = "" ∧
          error res = last outcomes ≫= FirecrawlService.post_failure).
Proof.
  intros rt url.
  apply (firecrawl_retry_policy (H := rt) "key" url false 0). discriminate.
Defined.

(* ================================================================== *)
(** * Automatic mode without the optional parts *)

Section IdleFacts.
Context `{Runtime}.
Import ScrapingManager.

Lemma emitted_app tr1 tr2 : emitted (tr1 ++ tr2) = emitted tr1 ++ emitted tr2.
Proof. apply omap_app. Qed.

Lemma emitted_emit evs : emitted (Emit <$> evs) = evs.
Proof. induction evs as [|e evs IH]; [done|]. simpl. by rewrite <- IH at 2. Qed.

Lemma effects_net evs : effects evs = BS4Service.net evs.
Proof. reflexivity. Qed.

(** X3. When no Firecrawl key is configured and the Crawl4AI and Playwright
    packages (or their service modules) are missing, automatic mode touches
    nothing but the requests and pauses of the BS4 service: no browser is
    started, nothing is posted, and unless BS4 succeeds the result is the
    "API key not configured" failure of Firecrawl. *)
Theorem auto_without_optional_parts (crawl4ai_module playwright_module : option bool)
    (url : string) (cb : bool) (w : World) :
  without_package crawl4ai_module → without_package playwright_module →
  let '(res, (w', tr)) :=
    scrape_url (init "" crawl4ai_module playwright_module) url "Auto" cb (w, []) in
  let bs4 := BS4Service.scrape_url 3 url cb (w, []) in
  effects (emitted tr) = effects bs4.2.2 ∧ w' = bs4.2.1 ∧
  (if success bs4.1 then res = bs4.1
   else res = FirecrawlService.failed "Firecrawl API key not configured").
Proof.
  intros Hc4 Hpw. unfold scrape_url. vm_compute Py.strip. simpl.
  unfold _scrape_auto, init. simpl.
  unfold mbind, State_bind, mret, State_ret, invoke, log_line.
  destruct (BS4Service.scrape_url 3 url cb (w, [])) as [r1 [w1 evs1]]. simpl.
  destruct (success r1) eqn:Hs1.
  { destruct cb; simpl; rewrite ?emitted_app, ?effects_app, ?emitted_emit; simpl;
      rewrite ?app_nil_r; done. }
  destruct Hc4 as [-> | ->], Hpw as [-> | ->]; destruct cb; simpl;
    rewrite ?emitted_app, ?effects_app, ?emitted_emit; simpl;
    rewrite ?effects_app, ?emitted_app, ?emitted_emit, ?app_nil_r; simpl;
    rewrite ?app_nil_r; done.
Qed.
End IdleFacts.

(** Both modules import, both packages are missing, the page answers 404. *)
Lemma auto_without_optional_parts_witness :
  let rt := Scripted.always 404 "Not Found" in
  let url := "https://shop.example/p/1" in
  let '(res, (w', tr)) :=
    ScrapingManager.scrape_url (ScrapingManager.init "" (Some false) (Some false))
      url "Auto" true (0, []) in
  let bs4 := BS4Service.scrape_url 3 url true (0, []) in
  effects (ScrapingManager.emitted tr) = effects bs4.2.2 ∧ w' = bs4.2.1 ∧
  (if success bs4.1 then res = bs4.1
   else res = FirecrawlService.failed "Firecrawl API key not configured").
Proof.
  intros rt url.
  apply (auto_without_optional_parts (H := rt) (Some false) (Some false) url true 0);
    by right.
Defined.

(* ================================================================== *)
(** * The extractor *)

Section ExtractorFacts.
Context `{Runtime}.
Import DeepSeekService.

Lemma completions_app evs1 evs2 :
  completions (evs1 ++ evs2) = completions evs1 ++ completions evs2.
Proof. apply omap_app. Qed.

Lemma pick_lookup fields headers h :
  pick fields headers !! h
  = if decide (h ∈ headers) then Some (default "" (fields !! h)) else None.
Proof.
  unfold pick. destruct (decide (h ∈ headers)) as [Hin|Hout].
  - destruct (list_to_map _ !! h) as [v|] eqn:Hv.
    + apply elem_of_list_to_map_2 in Hv.
      apply list_elem_of_fmap in Hv as (h' & [= -> ->] & _). done.
    + apply not_elem_of_list_to_map in Hv. exfalso. apply Hv.
      rewrite <- list_fmap_compose. simpl. by rewrite list_fmap_id.
  - apply not_elem_of_list_to_map.
    rewrite <- list_fmap_compose. simpl. by rewrite list_fmap_id.
Qed.

Lemma all_empty_pick headers : all_empty headers = pick ∅ headers.
Proof.
  unfold all_empty, pick. by f_equal.
Qed.

Ltac completions_simpl :=
  repeat (progress (rewrite ?completions_app, ?app_nil_r, <- ?app_assoc; simpl)).

(** What one call of [extract_attributes] answers and asks. *)
Lemma extract_attributes_spec client md headers category cb mm43 w evs :
  ∃ fields result w' evs',
    extract_attributes client md headers category cb mm43 (w, evs)
      = (result, (w', evs')) ∧
    result = pick fields headers ∧
    completions evs'
    = completions evs ++ (if client && Py.truthy md
                          then [request_for headers category mm43 md] else []) ∧
    (client && Py.truthy md = false → w' = w ∧ fields = ∅) ∧
    (fields ≠ ∅ →
     ∃ text, (chat_completion (request_for headers category mm43 md) w).1
             = ChatContent text
             ∧ json_loads (strip_code_block (Py.strip text)) = JsonObject fields).
Proof.
  unfold extract_attributes. rewrite !all_empty_pick.
  destruct client; simpl.
  2:{ exists ∅. destruct cb; simpl; eexists _, _, _;
        (split; [reflexivity|]); rewrite ?completions_app, ?app_nil_r; done. }
  destruct (Py.truthy md); simpl.
  2:{ exists ∅. destruct cb; simpl; eexists _, _, _;
        (split; [reflexivity|]); rewrite ?completions_app, ?app_nil_r; done. }
  unfold log, emit, in_world, mbind, State_bind, mret, State_ret.
  fold (request_for headers category mm43 md).
  destruct (0 <? size _)%nat, cb; simpl;
    destruct (chat_completion (request_for headers category mm43 md) w) as [o w1];
    simpl; destruct o as [e|text]; simpl;
    try (exists ∅; eexists _, _, _; (split; [reflexivity|]);
         (split; [done|]); (split; [by completions_simpl|]); done).
  all: destruct (json_loads (strip_code_block (Py.strip text)))
         as [e|fields|ty [n|]] eqn:Hjson; simpl;
    try (exists ∅; eexists _, _, _; (split; [reflexivity|]);
         (split; [done|]); (split; [by completions_simpl|]); done).
  all: exists fields; eexists _, _, _; (split; [reflexivity|]);
    (split; [done|]); (split; [by completions_simpl|]); (split; [done|]);
    intros _; by exists text.
Qed.

(** X4. [extract_attributes] answers with exactly the requested headers
    as keys.  With a client and some content it asks the language model
    once, with the request built from its arguments: when the answer, its
    code fence taken off, parses to a JSON object, every header that object
    has is given the object's value and every other header the empty
    string, keys of the object that were not asked for being dropped; when
    the call raises or the answer is no JSON object every header is given
    the empty string.  Without a client or without content it asks nothing,
    leaves the world as it was and gives every header the empty string. *)
Theorem extract_attributes_shape (client : bool) (md : string)
    (headers : list string) (category : string) (cb : bool) (mm43 : string)
    (w : World) :
  let '(result, (w', evs)) :=
    extract_attributes client md headers category cb mm43 (w, []) in
  let request := request_for headers category mm43 md in
  if client && Py.truthy md then
    (∀ h, result !! h
          = if decide (h ∈ headers)
            then Some (default "" (answer_fields (chat_completion request w).1 !! h))
            else None) ∧
    w' = (chat_completion request w).2 ∧
    completions evs = [request]
  else
    (∀ h, result !! h = if decide (h ∈ headers) then Some "" else None) ∧
    w' = w ∧
    completions evs = [].
Proof.
  assert (∀ h, all_empty headers !! h
               = if decide (h ∈ headers) then Some "" else None) as Hempty.
  { intros h. rewrite all_empty_pick, pick_lookup. by rewrite lookup_empty. }
  unfold extract_attributes.
  destruct client; cbn [negb andb].
  2:{ destruct cb; simpl; done. }
  destruct (Py.truthy md); cbn [negb].
  2:{ destruct cb; simpl; done. }
  unfold log, emit, in_world, mbind, State_bind, mret, State_ret, answer_fields.
  fold (request_for headers category mm43 md).
  destruct (0 <? size _)%nat, cb; simpl;
    destruct (chat_completion (request_for headers category mm43 md) w) as [o w1];
    simpl; destruct o as [e|text]; simpl;
    try (split_and!; [|done|by completions_simpl];
         intros h; rewrite Hempty; by rewrite lookup_empty).
  all: destruct (json_loads (strip_code_block (Py.strip text)))
         as [e|fields|ty [n|]] eqn:Hjson; simpl;
    try (split_and!; [|done|by completions_simpl];
         intros h; rewrite Hempty; by rewrite lookup_empty).
  all: split_and!; [|done|by completions_simpl]; intros h; apply pick_lookup.
Qed.

Lemma take_length n s : String.length (Py.take n s) = n `min` String.length s.
Proof.
  revert s. induction n as [|n IH]; intros [|c s]; try reflexivity.
  change (S (String.length (Py.take n s)) = S (n `min` String.length s)).
  by rewrite IH.
Qed.

Lemma take_prefix n s : ∃ rest, s = Py.take n s +:+ rest.
Proof.
  revert s. induction n as [|n IH]; intros s.
  { exists s. by destruct s. }
  destruct s as [|c s]; [by exists ""|].
  destruct (IH s) as [rest Hrest]. exists rest.
  change (String c s = String c (Py.take n s +:+ rest)). by rewrite <- Hrest.
Qed.

Lemma take_all n s : String.length s ≤ n → Py.take n s = s.
Proof.
  revert s. induction n as [|n IH]; intros [|c s] Hlen; try reflexivity.
  { simpl in Hlen. lia. }
  change (String c (Py.take n s) = String c s). rewrite IH; [done|].
  simpl in Hlen. lia.
Qed.

(** X5. The content sent to the language model is the first 15000
    characters of the markdown (all of it when it is shorter), and the
    product context the first 3000 characters of the MM43 text. *)
Theorem request_bounds (headers : list string) (category mm43 md : string) :
  let request := request_for headers category mm43 md in
  String.length (req_content request) = N.to_nat 15000 `min` String.length md ∧
  (∃ rest, md = req_content request +:+ rest) ∧
  (String.length md ≤ N.to_nat 15000 → req_content request = md) ∧
  String.length (req_mm43 request) = 3000 `min` String.length mm43 ∧
  (∃ rest, mm43 = req_mm43 request +:+ rest) ∧
  (String.length mm43 ≤ 3000 → req_mm43 request = mm43).
Proof.
  unfold request_for. cbn [req_content req_mm43].
  split; [apply take_length|]. split; [apply take_prefix|].
  split; [apply take_all|].
  destruct mm43 as [|c mm43]; cbn [Py.truthy].
  { split; [done|]. split; [by exists ""|done]. }
  split; [apply take_length|]. split; [apply take_prefix|apply take_all].
Qed.

(** What one source asks of the language model. *)
Lemma process_source_completions client headers category cb mm43 results k r w evs :
  completions (process_source client headers category cb mm43 results (k, r) (w, evs)).2.2
  = completions evs
    ++ (if client && usable r then [request_for headers category mm43 (markdown r)]
        else []).
Proof.
  unfold process_source, usable, mbind, State_bind, mret, State_ret.
  destruct (success r); simpl.
  2:{ destruct cb; simpl; rewrite ?completions_app, ?andb_false_r, ?app_nil_r; done. }
  destruct (Py.truthy (markdown r)) eqn:Hmd; simpl.
  2:{ destruct cb; simpl; rewrite ?completions_app, ?andb_false_r, ?app_nil_r; done. }
  destruct (log cb _ (w, evs)) as [[] [w0 evs0]] eqn:Hlog.
  assert (completions evs0 = completions evs) as <-.
  { unfold log, emit, mret, State_ret in Hlog. destruct cb; simplify_eq/=; [|done].
    by rewrite completions_app, app_nil_r. }
  destruct (extract_attributes_spec client (markdown r) headers category cb mm43 w0 evs0)
    as (fields & result & w' & evs' & -> & _ & Hc & _). simpl.
  by rewrite Hc, Hmd.
Qed.

Lemma process_sources_completions client headers category cb mm43 sources results s :
  completions (process_sources client headers category cb mm43 sources results s).2.2
  = completions s.2
    ++ (if client
        then (λ src, request_for headers category mm43 (markdown src.2))
               <$> filter (λ src, usable src.2 = true) sources
        else []).
Proof.
  revert results s. induction sources as [|[k r] sources IH]; intros results [w evs].
  { simpl. destruct client; by rewrite app_nil_r. }
  cbn [process_sources]. unfold mbind, State_bind.
  pose proof (process_source_completions client headers category cb mm43 results k r w evs)
    as Hone.
  destruct (process_source _ _ _ _ _ results (k, r) (w, evs)) as [results1 [w1 evs1]].
  rewrite IH. simpl in *. rewrite Hone, <- app_assoc. f_equal.
  destruct client; simpl; [|done].
  destruct (usable r) eqn:Hu; simpl.
  - by rewrite filter_cons_True by done.
  - rewrite filter_cons_False; [done|]. simpl. by rewrite Hu.
Qed.

(** X6. The coordinator asks the language model once for every source that
    succeeded with markdown, in the order of the sources and with that
    source's markdown, and never for another source; without a client it
    asks nothing. *)
Theorem one_request_per_usable_source (client : bool)
    (sources : list (string * ScrapeResult)) (headers : list string)
    (category : string) (cb : bool) (mm43 : string) (w : World) :
  let '(_, (_, evs)) :=
    extract_from_multiple_sources client sources headers category cb mm43 (w, []) in
  completions evs
  = if client
    then (λ src, request_for headers category mm43 (markdown src.2))
           <$> filter (λ src, usable src.2 = true) sources
    else [].
Proof.
  unfold extract_from_multiple_sources.
  pose proof (process_sources_completions client headers category cb mm43 sources
                (list_to_map ((λ h, (h, ∅)) <$> headers)) (w, [])) as Hc.
  destruct (process_sources _ _ _ _ _ sources _ (w, [])) as [matrix [w' evs]].
  exact Hc.
Qed.

(** The rows after one column has been written. *)
Lemma fill_column_rows k f headers (results : gmap string (gmap string string))
    (K : gset string) :
  (∀ h row, results !! h = Some row → h ∈ headers ∧ dom row = K) →
  dom (fill_column k f headers results) = dom results ∧
  ∀ h row, fill_column k f headers results !! h = Some row →
           h ∈ headers ∧ dom row = K ∪ {[k]}.
Proof.
  intros Hrows. split.
  - apply set_eq. intros h. rewrite !elem_of_dom, fill_column_lookup.
    destruct (decide (h ∈ headers)); [|done]. by rewrite fmap_is_Some.
  - intros h row. rewrite fill_column_lookup.
    destruct (decide (h ∈ headers)) as [Hin|Hout].
    + destruct (results !! h) as [row0|] eqn:Hrow0; [|done].
      intros [= <-]. split; [done|].
      destruct (Hrows h row0 Hrow0) as [_ <-].
      rewrite dom_insert_L. apply set_eq. intros x.
      rewrite !elem_of_union, elem_of_singleton. tauto.
    + intros Hrow. by destruct (Hrows h row Hrow).
Qed.

Lemma process_sources_rows client headers category cb mm43 sources results s
    (K : gset string) :
  (∀ h row, results !! h = Some row → h ∈ headers ∧ dom row = K) →
  dom (process_sources client headers category cb mm43 sources results s).1 = dom results ∧
  ∀ h row,
    (process_sources client headers category cb mm43 sources results s).1 !! h = Some row →
    h ∈ headers ∧ dom row = K ∪ list_to_set sources.*1.
Proof.
  revert results s K. induction sources as [|[k r] sources IH]; intros results s K Hrows.
  { simpl. split; [done|]. intros h row Hrow.
    destruct (Hrows h row Hrow) as [? <-]. split; [done|].
    apply set_eq. intros x. rewrite elem_of_union, elem_of_empty. tauto. }
  cbn [process_sources]. unfold mbind, State_bind.
  destruct (process_source_spec client headers category cb mm43 results k r s)
    as (f & s' & -> & _).
  destruct (fill_column_rows k f headers results K Hrows) as [Hdom Hrows1].
  destruct (IH (fill_column k f headers results) s' (K ∪ {[k]}) Hrows1) as [Hdom2 Hrows2].
  split; [by rewrite Hdom2|].
  intros h row Hrow. destruct (Hrows2 h row Hrow) as [? ->]. split; [done|].
  apply set_eq. intros x. simpl.
  rewrite !elem_of_union, elem_of_singleton. tauto.
Qed.

(** X7. The keys of the matrix are exactly the requested headers, and the
    keys of every row are exactly the keys of the sources: nothing is
    missing and nothing is added. *)
Theorem matrix_keys (client : bool) (sources : list (string * ScrapeResult))
    (headers : list string) (category : string) (cb : bool) (mm43 : string)
    (w : World) :
  let '(matrix, _) :=
    extract_from_multiple_sources client sources headers category cb mm43 (w, []) in
  dom matrix = list_to_set headers ∧
  ∀ h row, matrix !! h = Some row → dom row = list_to_set sources.*1.
Proof.
  unfold extract_from_multiple_sources.
  set (results := list_to_map _ : gmap string (gmap string string)).
  assert (∀ h row, results !! h = Some row → h ∈ headers ∧ dom row = ∅) as Hrows.
  { intros h row Hrow. apply elem_of_list_to_map_2 in Hrow.
    apply list_elem_of_fmap in Hrow as (h' & [= -> ->] & Hin). by rewrite dom_empty_L. }
  assert (dom results = list_to_set headers) as Hdom.
  { subst results. rewrite dom_list_to_map_L.
    rewrite <- list_fmap_compose. simpl. by rewrite list_fmap_id. }
  pose proof (process_sources_rows client headers category cb mm43 sources results
                (w, []) ∅ Hrows) as [Hd Hr].
  destruct (process_sources _ _ _ _ _ sources results (w, [])) as [matrix s'].
  simpl in *. split; [by rewrite Hd|].
  intros h row Hrow. destruct (Hr h row Hrow) as [_ ->].
  apply set_eq. intros x. rewrite elem_of_union, elem_of_empty. tauto.
Qed.
End ExtractorFacts.

(* ================================================================== *)
(** * Strings: reversal, splitting and joining *)

Section StringLibrary.

Lemma app_cons c s1 s2 : String c s1 +:+ s2 = String c (s1 +:+ s2).
Proof. reflexivity. Qed.

Lemma string_app_nil_r s : s +:+ "" = s.
Proof.
  induction s as [|c s IH]; [reflexivity|]. rewrite app_cons. by rewrite IH.
Qed.

Lemma rev_app_spec s1 s2 : String.rev_app s1 s2 = String.rev s1 +:+ s2.
Proof.
  unfold String.rev. revert s2.
  induction s1 as [|c s1 IH]; intros s2; [reflexivity|].
  simpl. rewrite IH, (IH (String c "")), string_app_assoc. reflexivity.
Qed.

Lemma rev_cons c s : String.rev (String c s) = String.rev s +:+ String c "".
Proof. unfold String.rev at 1. simpl. apply rev_app_spec. Qed.

Lemma rev_app s1 s2 : String.rev (s1 +:+ s2) = String.rev s2 +:+ String.rev s1.
Proof.
  induction s1 as [|c s1 IH].
  - change ("" +:+ s2) with s2. by rewrite string_app_nil_r.
  - rewrite app_cons, !rev_cons, IH, string_app_assoc. reflexivity.
Qed.

Lemma rev_involutive s : String.rev (String.rev s) = s.
Proof.
  induction s as [|c s IH]; [reflexivity|].
  rewrite rev_cons, rev_app, IH. reflexivity.
Qed.

(** [split] by cases on the first character. *)
Lemma split_go_cur sep cur s :
  Py.split_go sep cur s
  = match Py.split sep s with
    | p :: ps => (String.rev cur +:+ p) :: ps
    | [] => []
    end.
Proof.
  unfold Py.split. revert cur. induction s as [|c s IH]; intros cur; simpl.
  { by rewrite string_app_nil_r. }
  case_bool_decide.
  - by rewrite string_app_nil_r.
  - rewrite (IH (String c cur)), (IH (String c "")).
    destruct (Py.split_go sep "" s) as [|p ps]; [done|].
    rewrite rev_cons, string_app_assoc. reflexivity.
Qed.

Lemma split_nil sep : Py.split sep "" = [""].
Proof. reflexivity. Qed.

Lemma split_cons sep c s :
  Py.split sep (String c s)
  = if bool_decide (c = sep) then "" :: Py.split sep s
    else match Py.split sep s with
         | p :: ps => String c p :: ps
         | [] => []
         end.
Proof.
  unfold Py.split at 1. simpl. case_bool_decide; [reflexivity|].
  rewrite split_go_cur. by destruct (Py.split sep s).
Qed.

Lemma split_not_nil sep s : Py.split sep s ≠ [].
Proof.
  induction s as [|c s IH]; [done|]. rewrite split_cons.
  case_bool_decide; [done|]. by destruct (Py.split sep s).
Qed.

Lemma join_cons sep p q rest :
  Py.join sep (p :: q :: rest) = p +:+ sep +:+ Py.join sep (q :: rest).
Proof. reflexivity. Qed.

(** Joining what was split gives the string back. *)
Lemma join_split sep s : Py.join (String sep "") (Py.split sep s) = s.
Proof.
  induction s as [|c s IH]; [reflexivity|]. rewrite split_cons.
  pose proof (split_not_nil sep s) as Hne.
  case_bool_decide as Hc.
  - subst c. destruct (Py.split sep s) as [|p ps]; [done|].
    rewrite join_cons, IH. reflexivity.
  - destruct (Py.split sep s) as [|p ps]; [done|].
    destruct ps as [|q ps].
    + simpl in *. by rewrite IH.
    + rewrite join_cons in *. rewrite app_cons, IH. reflexivity.
Qed.

Lemma split_app_sep sep p rest :
  sep ∉ list_ascii_of_string p →
  Py.split sep (p +:+ String sep rest) = p :: Py.split sep rest.
Proof.
  induction p as [|c p IH]; intros Hp.
  - change ("" +:+ String sep rest) with (String sep rest).
    rewrite split_cons. by rewrite bool_decide_true.
  - rewrite app_cons, split_cons. simpl in Hp. apply not_elem_of_cons in Hp as [Hc Hp].
    rewrite bool_decide_false by done. by rewrite IH.
Qed.

Lemma split_no_sep sep p : sep ∉ list_ascii_of_string p → Py.split sep p = [p].
Proof.
  induction p as [|c p IH]; intros Hp; [reflexivity|].
  simpl in Hp. apply not_elem_of_cons in Hp as [Hc Hp].
  rewrite split_cons, bool_decide_false by done. by rewrite IH.
Qed.

(** Splitting what was joined gives the parts back, when there is at least
    one part and no part holds the separator. *)
Lemma split_join sep parts :
  parts ≠ [] → Forall (λ p, sep ∉ list_ascii_of_string p) parts →
  Py.split sep (Py.join (String sep "") parts) = parts.
Proof.
  induction parts as [|p parts IH]; [done|]. intros _ Hparts.
  apply Forall_cons in Hparts as [Hp Hparts].
  destruct parts as [|q parts].
  - simpl. by apply split_no_sep.
  - rewrite join_cons, app_cons. change ("" +:+ ?x) with x.
    rewrite split_app_sep by done. by rewrite IH.
Qed.
End StringLibrary.

(* ================================================================== *)
(** * White space at the ends of a string *)

Section StripFacts.

Lemma lstrip_length s : String.length (Py.lstrip s) ≤ String.length s.
Proof.
  induction s as [|c s IH]; simpl; [lia|]. destruct (Py.isspace c); simpl; lia.
Qed.

Lemma lstrip_lstrip s : Py.lstrip (Py.lstrip s) = Py.lstrip s.
Proof.
  induction s as [|c s IH]; [reflexivity|]. simpl.
  destruct (Py.isspace c) eqn:Hc; [done|]. simpl. by rewrite Hc.
Qed.

Lemma lstrip_app_keep x c y :
  Py.isspace c = false →
  Py.lstrip (x +:+ String c y) = Py.lstrip x +:+ String c y.
Proof.
  intros Hc. induction x as [|a x IH].
  - change ("" +:+ String c y) with (String c y). simpl. by rewrite Hc.
  - rewrite app_cons. simpl. destruct (Py.isspace a); [done|]. by rewrite app_cons.
Qed.

Lemma lstrip_fixed_cons c s :
  Py.lstrip (String c s) = String c s → Py.isspace c = false.
Proof.
  simpl. destruct (Py.isspace c); [|done]. intros Heq.
  pose proof (lstrip_length s) as Hlen. rewrite Heq in Hlen. simpl in Hlen. lia.
Qed.

(** Removing white space on the right leaves the left end as it was. *)
Lemma lstrip_rstrip u :
  Py.lstrip u = u → Py.lstrip (Py.rstrip u) = Py.rstrip u.
Proof.
  destruct u as [|c u]; [done|]. intros Hc%lstrip_fixed_cons.
  unfold Py.rstrip. rewrite rev_cons, lstrip_app_keep by done.
  rewrite rev_app. change (String.rev (String c "")) with (String c "").
  rewrite app_cons. simpl. by rewrite Hc.
Qed.

Lemma strip_no_leading s : Py.lstrip (Py.strip s) = Py.strip s.
Proof. unfold Py.strip. apply lstrip_rstrip, lstrip_lstrip. Qed.

Lemma strip_no_trailing s : Py.rstrip (Py.strip s) = Py.strip s.
Proof.
  unfold Py.strip, Py.rstrip.
  by rewrite !rev_involutive, lstrip_lstrip.
Qed.

Lemma strip_strip s : Py.strip (Py.strip s) = Py.strip s.
Proof.
  unfold Py.strip at 1. by rewrite strip_no_leading, strip_no_trailing.
Qed.

Lemma lstrip_suffix s : ∃ w, s = w +:+ Py.lstrip s.
Proof.
  induction s as [|c s [w IH]]; [by exists ""|]. simpl.
  destruct (Py.isspace c).
  - exists (String c w). rewrite app_cons. by rewrite <- IH.
  - by exists "".
Qed.

Lemma rstrip_prefix s : ∃ w, s = Py.rstrip s +:+ w.
Proof.
  destruct (lstrip_suffix (String.rev s)) as [w Hw].
  exists (String.rev w). unfold Py.rstrip.
  by rewrite <- rev_app, <- Hw, rev_involutive.
Qed.

Lemma startswith_app p a b :
  Py.startswith p a = true → Py.startswith p (a +:+ b) = true.
Proof.
  revert a. induction p as [|x p IH]; intros a; [done|].
  destruct a as [|y a]; [done|]. rewrite app_cons. simpl.
  intros [-> Hp]%andb_true_iff. rewrite (IH _ Hp). done.
Qed.

Lemma contains_app_l p a b :
  Py.contains p a = true → Py.contains p (a +:+ b) = true.
Proof.
  induction a as [|y a IH].
  - simpl. rewrite orb_false_r. intros Hp.
    destruct p; [by destruct b|done].
  - rewrite app_cons. cbn [Py.contains]. intros [Hp|Hp]%orb_true_iff.
    + rewrite <- app_cons. by rewrite (startswith_app _ _ _ Hp).
    + rewrite (IH Hp). apply orb_true_r.
Qed.

Lemma contains_app_r p a b :
  Py.contains p b = true → Py.contains p (a +:+ b) = true.
Proof.
  intros Hp. induction a as [|y a IH]; [done|].
  rewrite app_cons. cbn [Py.contains]. rewrite IH. apply orb_true_r.
Qed.

(** What [strip] returns holds no text that the argument did not hold. *)
Lemma contains_strip p s :
  Py.contains p s = false → Py.contains p (Py.strip s) = false.
Proof.
  intros Hs. destruct (Py.contains p (Py.strip s)) eqn:Hc; [|done].
  unfold Py.strip in Hc.
  destruct (rstrip_prefix (Py.lstrip s)) as [w Hw].
  destruct (lstrip_suffix s) as [v Hv].
  rewrite Hv, Hw in Hs.
  by rewrite (contains_app_r _ _ _ (contains_app_l _ _ w Hc)) in Hs.
Qed.
End StripFacts.

(* ================================================================== *)
(** * The markdown filter of the Firecrawl strategy *)

Section MarkdownFilterFacts.
Import FirecrawlService.

Lemma filter_line_cases acc b line :
  ∃ b', filter_line (acc, b) line = (acc, b') ∨
        (filter_line (acc, b) line = (acc ++ [line], b') ∧ clean_line line).
Proof.
  unfold filter_line.
  destruct (if existsb _ noise_section_patterns then true else b) eqn:Hb1.
  - destruct (true && match_heading line) eqn:Hh.
    + destruct (existsb _ good_patterns) eqn:Hg.
      * exists false.
        destruct (3 <? Py.count "](" line)%nat eqn:Hc; [by left|].
        apply Nat.ltb_ge in Hc.
        destruct (existsb _ noise_line_patterns) eqn:Hn; [by left|].
        right. split; [done|]. simpl in Hn.
        apply orb_false_iff in Hn as [? [? _]%orb_false_iff]. done.
      * exists true. by left.
    + exists true. by left.
  - exists false. cbn [andb].
    destruct (3 <? Py.count "](" line)%nat eqn:Hc; [by left|].
    apply Nat.ltb_ge in Hc.
    destruct (existsb _ noise_line_patterns) eqn:Hn; [by left|].
    right. split; [done|]. simpl in Hn.
    apply orb_false_iff in Hn as [? [? _]%orb_false_iff]. done.
Qed.

Lemma filter_lines_kept lines : ∀ acc b,
  ∃ kept, (foldl filter_line (acc, b) lines).1 = acc ++ kept ∧
          kept `sublist_of` lines ∧ Forall clean_line kept.
Proof.
  induction lines as [|line lines IH]; intros acc b.
  { exists []. simpl. by rewrite app_nil_r. }
  cbn [foldl].
  destruct (filter_line_cases acc b line) as [b' [->|[-> Hline]]].
  - destruct (IH acc b') as (kept & Hk & Hsub & Hall).
    exists kept. split_and!; [done| by apply sublist_cons |done].
  - destruct (IH (acc ++ [line]) b') as (kept & Hk & Hsub & Hall).
    exists (line :: kept). rewrite Hk, <- app_assoc.
    split_and!; [done| by apply sublist_skip | by constructor].
Qed.

(** X8: whatever the markdown, the lines the filter keeps are lines of the
    input in their order, and each one has at most three links, is not a
    bullet made of one link and is not a table row with three pipes; the
    result is these lines joined, squeezed and stripped. *)
Theorem filter_markdown_keeps_clean_lines (md : string) :
  ∃ kept,
    kept `sublist_of` Py.split newline md ∧
    Forall clean_line kept ∧
    _filter_markdown md
    = Py.strip (squeeze_newlines 0 (Py.join (String newline "") kept)).
Proof.
  unfold _filter_markdown.
  destruct (filter_lines_kept (Py.split newline md) [] false)
    as (kept & Hk & Hsub & Hall).
  exists kept. split_and!; [done..|].
  destruct (foldl filter_line _ _) as [fl sk]. simpl in Hk. by subst fl.
Qed.

Lemma filter_line_enters acc b line :
  opens_noise_section line = true → good_heading line = false →
  filter_line (acc, b) line = (acc, true).
Proof.
  unfold opens_noise_section, good_heading, filter_line. intros -> Hg.
  cbn [andb]. destruct (match_heading line); [|done].
  cbn [andb] in Hg. by rewrite Hg.
Qed.

Lemma filter_line_skips acc line :
  good_heading line = false → filter_line (acc, true) line = (acc, true).
Proof.
  unfold good_heading, filter_line. intros Hg.
  destruct (existsb _ noise_section_patterns);
    cbn [andb]; (destruct (match_heading line); [|done]);
    cbn [andb] in Hg; by rewrite Hg.
Qed.

Lemma filter_lines_skip acc body :
  Forall (λ l, good_heading l = false) body →
  foldl filter_line (acc, true) body = (acc, true).
Proof.
  induction 1 as [|l body Hl _ IH]; [done|].
  cbn [foldl]. by rewrite filter_line_skips.
Qed.

(** X9: a noise section that runs to the end of the document is cut off.
    When a line opens a noise section and neither it nor any later line is
    a heading (hashes, then white space) naming a wanted topic, the filter
    returns what it returns for the lines before it. *)
Theorem noise_section_cut (pre : list string) (h : string) (body : list string) :
  Forall (λ l, newline ∉ list_ascii_of_string l) (pre ++ h :: body) →
  opens_noise_section h = true →
  Forall (λ l, good_heading l = false) (h :: body) →
  _filter_markdown (Py.join (String newline "") (pre ++ h :: body))
  = _filter_markdown (Py.join (String newline "") pre).
Proof.
  intros Hnl Hopen Hgood.
  apply Forall_cons in Hgood as [Hh Hbody].
  assert (∀ st, foldl filter_line st (h :: body) = (st.1, true)) as Htail.
  { intros [acc b]. cbn [foldl]. rewrite filter_line_enters by done.
    by apply filter_lines_skip. }
  unfold _filter_markdown at 1.
  rewrite split_join; [|by destruct pre|done].
  rewrite foldl_app, Htail.
  destruct pre as [|p pre].
  - reflexivity.
  - unfold _filter_markdown. rewrite split_join; [|done|].
    + by destruct (foldl filter_line _ (p :: pre)).
    + by apply Forall_app in Hnl as [? _].
Qed.

Lemma noise_section_cut_witness :
  _filter_markdown "Specs
## Reviews
Great!" = _filter_markdown "Specs".
Proof.
  apply (noise_section_cut ["Specs"] "## Reviews" ["Great!"]).
  - repeat constructor; vm_compute; intros Hin;
      repeat (apply elem_of_cons in Hin as [Hin|Hin]; [discriminate|]);
      by apply not_elem_of_nil in Hin.
  - reflexivity.
  - repeat constructor.
Defined.

Lemma newlines_ok k c r :
  k ≤ 3 → c ≠ newline → Py.contains (newlines 4) r = false →
  Py.contains (newlines 4) (newlines k +:+ String c r) = false.
Proof.
  intros Hk Hc Hr.
  assert (bool_decide (newline = c) = false) as Hd
    by (apply bool_decide_eq_false; congruence).
  cbn [newlines] in Hr.
  destruct k as [|[|[|[|k]]]]; [| | | |lia];
    cbn [newlines]; rewrite ?app_cons; change ("" +:+ ?x) with x;
    cbn [Py.contains Py.startswith]; rewrite ?bool_decide_true by done;
    rewrite Hd, Hr; reflexivity.
Qed.

Lemma squeeze_newlines_ok s : ∀ run,
  Py.contains (newlines 4) (squeeze_newlines run s) = false.
Proof.
  induction s as [|c s IH]; intros run; cbn [squeeze_newlines].
  - destruct (4 <=? run)%nat eqn:Hrun; [reflexivity|].
    apply Nat.leb_gt in Hrun.
    destruct run as [|[|[|[|run]]]]; [reflexivity..|lia].
  - case_bool_decide as Hc; [apply IH|].
    apply newlines_ok; [|done|apply IH].
    destruct (4 <=? run)%nat eqn:Hrun; [lia|]. apply Nat.leb_gt in Hrun. lia.
Qed.

(** X10: whatever the markdown, what the filter returns neither starts
    nor ends with white space and never holds four line feeds in a row. *)
Theorem filter_markdown_trimmed (md : string) :
  Py.lstrip (_filter_markdown md) = _filter_markdown md ∧
  Py.rstrip (_filter_markdown md) = _filter_markdown md ∧
  Py.contains (newlines 4) (_filter_markdown md) = false.
Proof.
  unfold _filter_markdown. destruct (foldl filter_line _ _) as [fl sk].
  split_and!.
  - apply strip_no_leading.
  - apply strip_no_trailing.
  - apply contains_strip, squeeze_newlines_ok.
Qed.
End MarkdownFilterFacts.

(* ================================================================== *)
(** * The code fence around the extractor's answer *)

Section CodeBlockFacts.
Import DeepSeekService.

Lemma join_head sep x rest : ∃ w, Py.join sep (x :: rest) = x +:+ w.
Proof.
  destruct rest as [|y rest].
  - exists "". simpl. by rewrite string_app_nil_r.
  - eexists. apply join_cons.
Qed.

Lemma code_block_body body after :
  Forall (λ l, Py.startswith fence l = false) body →
  (∀ l, head after = Some l → Py.startswith fence l = true) →
  code_block_lines true (body ++ after) = body.
Proof.
  intros Hbody Hafter. induction Hbody as [|l body Hl _ IH].
  - destruct after as [|l after]; [done|].
    simpl app. cbn [code_block_lines]. by rewrite (Hafter l eq_refl).
  - simpl app. cbn [code_block_lines]. rewrite Hl. cbn [andb]. by rewrite IH.
Qed.

(** X11: an answer that opens with a code fence is reduced to the lines
    between the opening fence line and the next line that starts with a
    fence, or to all the lines after the opening one when no such line
    follows; the rest of the opening line (a language tag) and whatever
    comes after the closing fence are dropped. *)
Theorem strip_code_block_fenced (lang : string) (body after : list string) :
  Forall (λ l, FirecrawlService.newline ∉ list_ascii_of_string l)
    (lang :: body ++ after) →
  Forall (λ l, Py.startswith fence l = false) body →
  (∀ l, head after = Some l → Py.startswith fence l = true) →
  strip_code_block
    (Py.join (String FirecrawlService.newline "") ((fence +:+ lang) :: body ++ after))
  = Py.join (String FirecrawlService.newline "") body.
Proof.
  intros Hnl Hbody Hafter. unfold strip_code_block.
  assert (Py.startswith fence
            (Py.join (String FirecrawlService.newline "")
               ((fence +:+ lang) :: body ++ after)) = true) as ->.
  { destruct (join_head (String FirecrawlService.newline "") (fence +:+ lang)
                (body ++ after)) as [w ->].
    by apply startswith_app. }
  rewrite split_join; [|done|].
  - cbn [code_block_lines].
    replace (Py.startswith fence (fence +:+ lang)) with true by done.
    cbn [andb negb]. by rewrite code_block_body.
  - apply Forall_cons in Hnl as [Hlang Hrest]. constructor; [|done].
    intros Hin. apply Hlang. unfold fence in Hin.
    rewrite !app_cons in Hin. change ("" +:+ lang) with lang in Hin.
    cbn [list_ascii_of_string] in Hin.
    repeat (apply elem_of_cons in Hin as [Hin|Hin]; [discriminate|]). done.
Qed.

Lemma strip_code_block_fenced_witness :
  strip_code_block "```json
{}
```" = "{}".
Proof.
  apply (strip_code_block_fenced "json" ["{}"] ["```"]).
  - repeat constructor; vm_compute; intros Hin;
      repeat (apply elem_of_cons in Hin as [Hin|Hin]; [discriminate|]);
      by apply not_elem_of_nil in Hin.
  - repeat constructor.
  - intros l [= <-]. reflexivity.
Defined.
End CodeBlockFacts.

(* ================================================================== *)
(** * The scraping loop and the quick actions of the application *)

Section SlotFacts.
Context `{Runtime}.
Import App.

Lemma scrape_slots_keys manager slots : ∀ i s,
  (scrape_slots manager i slots s).1.*1
  = (λ k, "url" +:+ pretty (k + 1)) <$> seq i (length slots).
Proof.
  induction slots as [|[url method] slots IH]; intros i s; [done|].
  cbn [scrape_slots]. unfold mbind, mret, State_bind, State_ret.
  destruct (scrape_slot manager i url method s) as [res s1].
  specialize (IH (S i) s1).
  destruct (scrape_slots manager (S i) slots s1) as [more s2].
  cbn [fst] in IH. cbn [fst fmap list_fmap length seq]. by rewrite <- IH.
Qed.

(** X12: the scraping loop of the application returns one result per URL
    slot, blank or not, under the keys url(i+1), url(i+2), ... in the order
    of the slots, and no key occurs twice. *)
Theorem scrape_slots_one_entry_per_slot (manager : ScrapingManager.t) (i : nat)
    (slots : list (string * string)) (s : ScrapingManager.MgrState) :
  let scraped_results := (scrape_slots manager i slots s).1 in
  scraped_results.*1 = (λ k, "url" +:+ pretty (k + 1)) <$> seq i (length slots) ∧
  length scraped_results = length slots ∧
  NoDup scraped_results.*1.
Proof.
  cbn zeta. pose proof (scrape_slots_keys manager slots i s) as Hkeys.
  split_and!; [done| |].
  - apply (f_equal length) in Hkeys.
    by rewrite !length_fmap, length_seq in Hkeys.
  - rewrite Hkeys. apply NoDup_fmap_2; [|apply NoDup_seq].
    intros a b Hab. apply (inj (String.app "url")) in Hab.
    apply (inj pretty) in Hab. lia.
Qed.
End SlotFacts.

Section ButtonFacts.
Import App.

Lemma widget_name_inj : Inj (=) (=) widget_name.
Proof.
  intros a b Hab. unfold widget_name in Hab.
  apply (inj (String.app "text_final_")) in Hab. by apply (inj pretty) in Hab.
Qed.

(** A loop that, for each row, selects the value [choose] gives for its
    header, if any: every step is an insertion that does not depend on the
    state, so the loop adds a fixed dictionary on top of each component. *)
Lemma for_enumerate_union (choose : string → option string)
    (body : nat → string → SessionState → SessionState) :
  (∀ idx x st, body idx x st
               = match choose x with
                 | Some v => select idx x v st
                 | None => st
                 end) →
  ∀ xs idx, ∃ fv ws, ∀ st,
    final_values (for_enumerate body idx xs st) = fv ∪ final_values st ∧
    widgets (for_enumerate body idx xs st) = ws ∪ widgets st.
Proof.
  intros Hbody xs. induction xs as [|x xs IH]; intros idx.
  { exists ∅, ∅. intros st. cbn [for_enumerate]. by rewrite !(left_id_L ∅ (∪)). }
  destruct (IH (S idx)) as (fv & ws & Hrest).
  destruct (choose x) as [v|] eqn:Hx.
  - exists (fv ∪ {[x := v]}), (ws ∪ {[widget_name idx := v]}). intros st.
    cbn [for_enumerate]. destruct (Hrest (body idx x st)) as [-> ->].
    rewrite Hbody, Hx. cbn [select final_values widgets].
    by rewrite !insert_union_singleton_l, !(assoc_L (∪)).
  - exists fv, ws. intros st. cbn [for_enumerate].
    destruct (Hrest (body idx x st)) as [-> ->]. by rewrite Hbody, Hx.
Qed.

Lemma for_enumerate_twice (choose : string → option string)
    (body : nat → string → SessionState → SessionState) xs idx st :
  (∀ idx x st, body idx x st
               = match choose x with
                 | Some v => select idx x v st
                 | None => st
                 end) →
  for_enumerate body idx xs (for_enumerate body idx xs st)
  = for_enumerate body idx xs st.
Proof.
  intros Hbody.
  destruct (for_enumerate_union choose body Hbody xs idx) as (fv & ws & Hl).
  destruct (Hl st) as [Hf1 Hw1].
  destruct (Hl (for_enumerate body idx xs st)) as [Hf2 Hw2].
  rewrite Hf1 in Hf2. rewrite Hw1 in Hw2.
  rewrite (assoc_L (∪)), (idemp_L (∪)), <- Hf1 in Hf2.
  rewrite (assoc_L (∪)), (idemp_L (∪)), <- Hw1 in Hw2.
  destruct (for_enumerate body idx xs (for_enumerate body idx xs st)),
    (for_enumerate body idx xs st). simpl in *. by subst.
Qed.

(** X13: pressing "Auto-fill Best", or one of "Use URL 1/2/3", a second
    time changes nothing: the final values and the text boxes are those the
    first press left. *)
Theorem quick_actions_idempotent (results : gmap string (gmap string string))
    (headers : list string) (key : string) (st : SessionState) :
  autofill_best results headers (autofill_best results headers st)
  = autofill_best results headers st ∧
  use_source key results headers (use_source key results headers st)
  = use_source key results headers st.
Proof.
  split.
  - apply (for_enumerate_twice (λ x, first_filled results x priority)).
    intros idx x st0. cbn beta. by destruct (first_filled results x priority).
  - apply (for_enumerate_twice
             (λ x, if filled (value_of results x key)
                   then Some (value_of results x key) else None)).
    intros idx x st0. cbn beta zeta. by destruct (filled (value_of results x key)).
Qed.

(** The text boxes after such a loop. *)
Lemma for_enumerate_widgets (choose : string → option string)
    (body : nat → string → SessionState → SessionState) :
  (∀ idx x st, widgets (body idx x st)
               = match choose x with
                 | Some v => <[widget_name idx := v]> (widgets st)
                 | None => widgets st
                 end) →
  ∀ xs idx st,
    (∀ name, (∀ j, j < length xs → name ≠ widget_name (idx + j)) →
       widgets (for_enumerate body idx xs st) !! name = widgets st !! name) ∧
    (∀ j, widgets (for_enumerate body idx xs st) !! widget_name (idx + j)
          = match xs !! j ≫= choose with
            | Some v => Some v
            | None => widgets st !! widget_name (idx + j)
            end).
Proof.
  intros Hbody xs. induction xs as [|x xs IH]; intros idx st.
  { split; [done|]. intros j. by rewrite lookup_nil. }
  cbn [for_enumerate].
  destruct (IH (S idx) (body idx x st)) as [IHout IHin]. split.
  - intros name Hname. rewrite IHout.
    + rewrite Hbody. destruct (choose x); [|done].
      apply lookup_insert_ne. intros <-. apply (Hname 0); [simpl; lia|].
      by rewrite Nat.add_0_r.
    + intros j Hj. replace (S idx + j) with (idx + S j) by lia.
      apply Hname. simpl. lia.
  - intros [|j].
    + rewrite Nat.add_0_r. rewrite IHout.
      * rewrite Hbody. simpl. destruct (choose x); [|done].
        apply lookup_insert_eq.
      * intros j _ Heq%widget_name_inj. lia.
    + replace (idx + S j) with (S idx + j) by lia. rewrite IHin.
      simpl. destruct (xs !! j ≫= choose); [done|].
      rewrite Hbody. destruct (choose x); [|done].
      apply lookup_insert_ne. intros Heq%widget_name_inj. lia.
Qed.

(** X14: after "Auto-fill Best", and after "Use URL 1/2/3", the text box
    of row [idx] shows the value the button chose for the header of that
    row; the box of a row for which it chose nothing, and every entry of the
    session that is not the text box of a row, is as it was. *)
Theorem quick_action_text_boxes (results : gmap string (gmap string string))
    (headers : list string) (key : string) (st : SessionState) :
  let pressed (chosen : string → option string) (st' : SessionState) :=
    (∀ idx,
       widgets st' !! widget_name idx
       = match headers !! idx ≫= chosen with
         | Some v => Some v
         | None => widgets st !! widget_name idx
         end) ∧
    (∀ name, (∀ idx, idx < length headers → name ≠ widget_name idx) →
       widgets st' !! name = widgets st !! name) in
  pressed (λ h, first_filled results h priority)
          (autofill_best results headers st) ∧
  pressed (λ h, if filled (value_of results h key)
                then Some (value_of results h key) else None)
          (use_source key results headers st).
Proof.
  cbn zeta. split.
  - unfold autofill_best.
    destruct (for_enumerate_widgets (λ x, first_filled results x priority)
                (λ idx header st,
                   match first_filled results header priority with
                   | Some val => select idx header val st
                   | None => st
                   end)) with (xs := headers) (idx := 0) (st := st) as [Hout Hin].
    { intros idx x st0. by destruct (first_filled results x priority). }
    split; [intros idx; apply (Hin idx)|intros name Hname; by apply Hout].
  - unfold use_source.
    destruct (for_enumerate_widgets
                (λ x, if filled (value_of results x key)
                      then Some (value_of results x key) else None)
                (λ idx header st,
                   let val := value_of results header key in
                   if filled val then select idx header val st else st))
      with (xs := headers) (idx := 0) (st := st) as [Hout Hin].
    { intros idx x st0. cbn zeta. by destruct (filled (value_of results x key)). }
    split; [intros idx; apply (Hin idx)|intros name Hname; by apply Hout].
Qed.

Lemma clear_widgets_lookup (ws : gmap string string) idxs name :
  foldl (λ ws idx,
           let name := "text_final_" +:+ pretty idx in
           match ws !! name with Some _ => <[name := ""]> ws | None => ws end)
        ws idxs !! name
  = if decide (name ∈ widget_name <$> idxs)
    then (λ _, "") <$> ws !! name else ws !! name.
Proof.
  revert ws. induction idxs as [|i idxs IH]; intros ws.
  { cbn [foldl]. rewrite decide_False; [done|]. apply not_elem_of_nil. }
  cbn [foldl]. rewrite IH. fold (widget_name i). rewrite fmap_cons.
  destruct (decide (name = widget_name i)) as [->|Hne].
  - rewrite (decide_True (P := _ ∈ _ :: _)) by apply list_elem_of_here.
    destruct (ws !! widget_name i) eqn:Hw.
    + rewrite lookup_insert_eq. by destruct (decide _).
    + rewrite Hw. by destruct (decide _).
  - assert ((match ws !! widget_name i with
             | Some _ => <[widget_name i := ""]> ws
             | None => ws
             end) !! name = ws !! name) as ->.
    { destruct (ws !! widget_name i); [by apply lookup_insert_ne|done]. }
    destruct (decide (name ∈ widget_name <$> idxs)) as [Hin|Hno].
    + rewrite decide_True; [done|]. by apply list_elem_of_further.
    + rewrite decide_False; [done|].
      intros [?|?]%elem_of_cons; done.
Qed.

Lemma elem_of_range n k : k ∈ Py.range n ↔ k < n.
Proof. unfold Py.range. rewrite elem_of_seq. lia. Qed.

(** X15: "Clear All" forgets every final value, blanks the text box of
    each row that has one, creates no text box and leaves every other entry
    of the session as it was. *)
Theorem clear_all_effect (headers : list string) (st : SessionState) :
  final_values (clear_all headers st) = ∅ ∧
  (∀ idx, idx < length headers →
     widgets (clear_all headers st) !! widget_name idx
     = (λ _, "") <$> widgets st !! widget_name idx) ∧
  (∀ name, (∀ idx, idx < length headers → name ≠ widget_name idx) →
     widgets (clear_all headers st) !! name = widgets st !! name).
Proof.
  unfold clear_all. cbn [final_values widgets]. split_and!; [done| |].
  - intros idx Hidx. rewrite clear_widgets_lookup, decide_True; [done|].
    apply list_elem_of_fmap_2. by apply elem_of_range.
  - intros name Hname. rewrite clear_widgets_lookup, decide_False; [done|].
    intros (idx & -> & Hin%elem_of_range)%list_elem_of_fmap.
    by apply (Hname idx).
Qed.
End ButtonFacts.

Section ExportFacts.
Import App.

Lemma export_fold (final_values : gmap string string) hs : ∀ init,
  let row :=
    foldl (λ export_row header,
             if decide (header ∈ export_row.*1) then export_row
             else export_row ++ [(header, default "" (final_values !! header))])
          init hs in
  NoDup init.*1 →
  NoDup row.*1 ∧
  (∃ more, row = init ++ more) ∧
  (∀ h, h ∈ hs → h ∈ row.*1) ∧
  (∀ h v, (h, v) ∈ row →
     (h, v) ∈ init ∨
     ((h ∉ init.*1) ∧ h ∈ hs ∧ v = default "" (final_values !! h))).
Proof.
  induction hs as [|x hs IH]; intros init; cbn zeta; intros Hnd.
  { cbn [foldl]. split_and!; [done|exists []; by rewrite app_nil_r| |by left].
    intros h Hh. by apply not_elem_of_nil in Hh. }
  cbn [foldl]. destruct (decide (x ∈ init.*1)) as [Hx|Hx].
  - destruct (IH init Hnd) as (Hnd' & [more Hmore] & Hall & Hrow).
    split_and!; [done|by exists more| |].
    + intros h [->|Hh]%elem_of_cons; [|by apply Hall].
      rewrite Hmore, fmap_app. apply elem_of_app. by left.
    + intros h v Hhv. destruct (Hrow h v Hhv) as [?|(? & ? & ?)]; [by left|].
      right. split_and!; [done|by apply list_elem_of_further|done].
  - destruct (IH (init ++ [(x, default "" (final_values !! x))]))
      as (Hnd' & [more Hmore] & Hall & Hrow).
    { rewrite fmap_app. apply NoDup_app. split_and!; [done| |apply NoDup_singleton].
      intros y Hy ->%list_elem_of_singleton. done. }
    split_and!; [done| | |].
    + eexists. rewrite Hmore, <- app_assoc. reflexivity.
    + intros h [->|Hh]%elem_of_cons; [|by apply Hall].
      rewrite Hmore, !fmap_app. apply elem_of_app. left. apply elem_of_app.
      right. apply list_elem_of_here.
    + intros h v Hhv. destruct (Hrow h v Hhv) as [Hin|(Hout & Hh & Hv)].
      * apply elem_of_app in Hin as [Hin|Hin]; [by left|].
        apply list_elem_of_singleton in Hin as [= -> ->].
        right. split_and!; [done|apply list_elem_of_here|done].
      * right. split_and!; [|by apply list_elem_of_further|done].
        intros Hin. apply Hout. rewrite fmap_app. apply elem_of_app. by left.
Qed.

Lemma export_row_spec (form_data : option (gmap string string))
    (headers : list string) (final_values : gmap string string) :
  let row := export_row form_data headers final_values in
  NoDup row.*1 ∧
  (∃ more, row = (if form_given form_data
                  then (λ '(column, field),
                          (column, default "" (default ∅ form_data !! field)))
                         <$> form_columns
                  else []) ++ more) ∧
  (∀ h, h ∈ headers → h ∈ row.*1) ∧
  (∀ h v, (h, v) ∈ row →
     match (if form_given form_data
            then (list_to_map form_columns : gmap string string) !! h
            else None) with
     | Some field => v = default "" (default ∅ form_data !! field)
     | None => h ∈ headers ∧ v = default "" (final_values !! h)
     end).
Proof.
  cbn zeta. unfold export_row.
  set (init := if form_given form_data then _ else []).
  assert (NoDup init.*1) as Hnd.
  { subst init. destruct (form_given form_data); [|constructor].
    cbn. refine (bool_decide_unpack _ _). vm_compute. exact I. }
  destruct (export_fold final_values headers init Hnd)
    as (Hnd' & Hmore & Hall & Hrow).
  split_and!; [done..|].
  intros h v Hhv. destruct (Hrow h v Hhv) as [Hin|(Hout & Hh & Hv)].
  - subst init. destruct (form_given form_data); [|by apply not_elem_of_nil in Hin].
    cbn in Hin.
    repeat (apply elem_of_cons in Hin as [[= -> ->]|Hin]; [reflexivity|]).
    by apply not_elem_of_nil in Hin.
  - subst init. destruct (form_given form_data); [|done].
    rewrite not_elem_of_list_to_map_1; [done|].
    intros Hin. apply Hout. exact Hin.
Qed.

(** X16: the exported row has one column per header and no column twice;
    when the form was submitted its five columns come first.  These five
    (sku, base_code, attributes__lulu_ean, attributes__shipping_weight and
    attributes__color) hold the form's values, the empty string for a
    missing field, whatever final value was selected for them; every other
    column holds the final value of its header, or the empty string when
    there is none. *)
Theorem export_row_columns (form_data : option (gmap string string))
    (headers : list string) (final_values : gmap string string) :
  let row := export_row form_data headers final_values in
  NoDup row.*1 ∧
  (∃ more, row = (if form_given form_data
                  then (λ '(column, field),
                          (column, default "" (default ∅ form_data !! field)))
                         <$> form_columns
                  else []) ++ more) ∧
  (∀ h, h ∈ headers → h ∈ row.*1) ∧
  (∀ h v, (h, v) ∈ row →
     match (if form_given form_data
            then (list_to_map form_columns : gmap string string) !! h
            else None) with
     | Some field => v = default "" (default ∅ form_data !! field)
     | None => h ∈ headers ∧ v = default "" (final_values !! h)
     end).
Proof. apply export_row_spec. Qed.

(** X17: the results table shows the extraction headers of the category
    and the export writes all its headers.  With a submitted form, a column
    of the exported row holds the final value selected in the table exactly
    when its header is an extraction header other than attributes__color;
    the columns left out of the extraction, and the colour, hold the
    form's values. *)
Theorem export_of_table_headers (CATEGORIES : gmap string (list string))
    (category : string) (form_data : option (gmap string string))
    (final_values : gmap string string) (h v : string) :
  form_given form_data = true →
  (h, v) ∈ export_row form_data (get_category_headers CATEGORIES category)
             final_values →
  (h ∈ get_extraction_headers CATEGORIES category ∧ h ≠ "attributes__color" →
   v = default "" (final_values !! h)) ∧
  (h ∉ get_extraction_headers CATEGORIES category ∨ h = "attributes__color" →
   ∃ field, (h, field) ∈ form_columns ∧
            v = default "" (default ∅ form_data !! field)).
Proof.
  intros Hgiven Hhv.
  destruct (export_row_spec form_data (get_category_headers CATEGORIES category)
              final_values) as (_ & _ & _ & Hrow).
  specialize (Hrow h v Hhv). rewrite Hgiven in Hrow.
  destruct ((list_to_map form_columns : gmap string string) !! h)
    as [field|] eqn:Hf.
  - apply elem_of_list_to_map_2 in Hf. split; [|by exists field].
    intros [[Hex _]%list_elem_of_filter Hne]. unfold form_columns in Hf.
    unfold exclude_set in Hex.
    rewrite !elem_of_union, !elem_of_singleton in Hex.
    repeat (apply elem_of_cons in Hf as [[= -> ->]|Hf]; [tauto|]).
    by apply not_elem_of_nil in Hf.
  - destruct Hrow as [Hh ->]. split; [done|]. intros [Hout| ->].
    + exfalso. apply Hout.
      apply list_elem_of_filter. split; [|done]. unfold exclude_set.
      rewrite !elem_of_union, !elem_of_singleton.
      intros [[[->| ->]| ->]| ->]; vm_compute in Hf; discriminate.
    + vm_compute in Hf. discriminate.
Qed.

Lemma export_of_table_headers_witness :
  let CATEGORIES : gmap string (list string) :=
    {[ "Phones" := ["sku"; "attributes__color"] ]} in
  let form_data : option (gmap string string) := Some {[ "sku" := "A1" ]} in
  ("sku" ∈ get_extraction_headers CATEGORIES "Phones" ∧
   "sku" ≠ "attributes__color" → "A1" = default "" ((∅ : gmap string string) !! "sku")) ∧
  ("sku" ∉ get_extraction_headers CATEGORIES "Phones" ∨
   "sku" = "attributes__color" →
   ∃ field, ("sku", field) ∈ form_columns ∧
            "A1" = default "" (default ∅ form_data !! field)).
Proof.
  apply (export_of_table_headers
           {[ "Phones" := ["sku"; "attributes__color"] ]} "Phones"
           (Some {[ "sku" := "A1" ]}) ∅ "sku" "A1").
  - vm_compute. reflexivity.
  - vm_compute. apply list_elem_of_here.
Defined.
End ExportFacts.

(* ================================================================== *)
(** * The log callback only observes *)

Section Observation.
Context `{Runtime}.

Lemma agree_ret {Σ A} (R : Σ → Σ → Prop) (a : A) : agree R (mret a) (mret a).
Proof. intros s1 s2 HR. done. Qed.

Lemma agree_bind {Σ A B} (R : Σ → Σ → Prop) (m1 m2 : State Σ A)
    (k1 k2 : A → State Σ B) :
  agree R m1 m2 → (∀ a, agree R (k1 a) (k2 a)) →
  agree R (m1 ≫= k1) (m2 ≫= k2).
Proof.
  intros Hm Hk s1 s2 HR. unfold mbind, State_bind.
  destruct (Hm s1 s2 HR) as [Ha HR'].
  destruct (m1 s1) as [a s1'], (m2 s2) as [a' s2']. simpl in *. subst a'.
  by apply Hk.
Qed.

Lemma agree_for_each {Σ X Acc R} (rel : Σ → Σ → Prop)
    (body1 body2 : X → Acc → State Σ (R + Acc)) xs :
  (∀ x acc, agree rel (body1 x acc) (body2 x acc)) →
  ∀ acc, agree rel (for_each xs body1 acc) (for_each xs body2 acc).
Proof.
  intros Hbody. induction xs as [|x xs IH]; intros acc; cbn [for_each].
  - apply agree_ret.
  - apply agree_bind; [apply Hbody|]. intros [r|acc']; [apply agree_ret|apply IH].
Qed.

Lemma agree_log cb cb' line line' : agree same_effects (log cb line) (log cb' line').
Proof.
  intros [w1 e1] [w2 e2] [Hw He]. simpl in *.
  destruct cb, cb'; simpl; (split; [done|]); split; simpl; try done;
    rewrite ?effects_app; simpl; by rewrite ?app_nil_r.
Qed.

Lemma agree_emit e : agree same_effects (emit e) (emit e).
Proof.
  intros [w1 e1] [w2 e2] [Hw He]. simpl in *.
  split; [done|]. split; simpl; [done|]. by rewrite !effects_app, He.
Qed.

Lemma agree_in_world {A} (f : World → A * World) :
  agree same_effects (in_world f) (in_world f).
Proof.
  intros [w1 e1] [w2 e2] [Hw He]. simpl in *. subst w2.
  destruct (f w1) as [a w']. done.
Qed.

Lemma bind_run {Σ A B} (m : State Σ A) (k : A → State Σ B) s :
  (m ≫= k) s = let '(a, s') := m s in k a s'.
Proof. reflexivity. Qed.

Lemma log_lines_run lines : ∀ (w : World) evs,
  ∃ k, mapM (λ l, emit (LogLine l)) lines (w, evs)
       = (k, (w, evs ++ (LogLine <$> lines))).
Proof.
  induction lines as [|l lines IH]; intros w evs.
  { exists []. cbn. by rewrite app_nil_r. }
  destruct (IH w (evs ++ [LogLine l])) as [k Hk].
  exists (tt :: k). cbn [mapM].
  etrans; [apply bind_run|]. cbn [emit].
  etrans; [apply bind_run|]. rewrite Hk.
  cbn. by rewrite <- app_assoc.
Qed.

Lemma effects_log_lines lines : effects (LogLine <$> lines) = [].
Proof. by induction lines. Qed.

Lemma agree_log_lines (cb cb' : bool) lines :
  agree same_effects
    ((if cb then mapM (λ l, emit (LogLine l)) lines;; mret tt else mret tt)
       : Svc unit)
    (if cb' then mapM (λ l, emit (LogLine l)) lines;; mret tt else mret tt).
Proof.
  intros [w1 e1] [w2 e2] [Hw He]. simpl in Hw, He.
  destruct (log_lines_run lines w1 e1) as [k1 Hk1].
  destruct (log_lines_run lines w2 e2) as [k2 Hk2].
  assert (∀ (w : World) (evs : list SvcEvent) k,
            mapM (λ l, emit (LogLine l)) lines (w, evs)
            = (k, (w, evs ++ (LogLine <$> lines))) →
            ((mapM (λ l, emit (LogLine l)) lines;; mret tt) : Svc unit) (w, evs)
            = (tt, (w, evs ++ (LogLine <$> lines)))) as Hrun.
  { intros w evs k Hk. etrans; [apply bind_run|]. by rewrite Hk. }
  destruct cb, cb'; rewrite ?(Hrun _ _ _ Hk1), ?(Hrun _ _ _ Hk2); cbn;
    (split; [done|]); split; cbn; try done;
    rewrite ?effects_app, ?effects_log_lines, ?app_nil_r; done.
Qed.

(** One step along the structure the two computations share. *)
Ltac agree_step :=
  lazymatch goal with
  | |- agree _ (mret _) (mret _) => apply agree_ret
  | |- agree _ (log _ _) (log _ _) => apply agree_log
  | |- agree _ (emit _) (emit _) => apply agree_emit
  | |- agree _ (in_world _) (in_world _) => apply agree_in_world
  | |- agree _ (if _ then mapM _ _ ≫= _ else _) _ => apply agree_log_lines
  | |- agree _ (mbind _ _) (mbind _ _) => apply agree_bind; [|intros ?]
  | |- agree _ (if ?b then _ else _) _ => destruct b
  | |- agree _ (match ?o with _ => _ end) _ => destruct o
  end.

Lemma agree_save tag url content cb cb' :
  agree same_effects (_save_markdown tag url content cb)
    (_save_markdown tag url content cb').
Proof. unfold _save_markdown. repeat agree_step. Qed.

Lemma bs4_agree n url cb cb' :
  agree same_effects (BS4Service.scrape_url n url cb)
    (BS4Service.scrape_url n url cb').
Proof.
  unfold BS4Service.scrape_url.
  apply agree_bind; [apply agree_log|intros _].
  apply agree_bind.
  - apply agree_for_each. intros k acc.
    unfold BS4Service.attempt_once, BS4Service.try_body, BS4Service.handle.
    repeat first [apply agree_save | agree_step].
  - intros [res|le]; repeat agree_step.
Qed.

Lemma firecrawl_agree api_key url cb cb' :
  agree same_effects (FirecrawlService.scrape_url api_key url cb)
    (FirecrawlService.scrape_url api_key url cb').
Proof.
  unfold FirecrawlService.scrape_url.
  destruct (negb (Py.truthy api_key)); [apply agree_ret|].
  apply agree_bind; [apply agree_log|intros _].
  apply agree_bind.
  - apply agree_for_each. intros k acc.
    unfold FirecrawlService.attempt_once, FirecrawlService._save_markdown.
    repeat agree_step.
  - intros [res|le]; repeat agree_step.
Qed.

Lemma crawl4ai_agree available url cb cb' :
  agree same_effects (Crawl4AIService.scrape_url available url cb)
    (Crawl4AIService.scrape_url available url cb').
Proof.
  unfold Crawl4AIService.scrape_url, Crawl4AIService.try_body.
  repeat first [apply agree_save | agree_step].
Qed.

Lemma playwright_agree installed url cb cb' :
  agree same_effects (PlaywrightService.scrape_url installed url cb)
    (PlaywrightService.scrape_url installed url cb').
Proof.
  unfold PlaywrightService.scrape_url, PlaywrightService.try_body.
  repeat first [apply agree_save | agree_step].
Qed.

Lemma agree_log_line cb cb' line line' :
  agree ScrapingManager.same_run
    (ScrapingManager.log_line cb line) (ScrapingManager.log_line cb' line').
Proof.
  intros [w1 tr1] [w2 tr2] (Hw & He & Hb). simpl in *.
  split; [done|]. split_and!; simpl; [done| |].
  - destruct cb, cb'; rewrite ?emitted_app, ?effects_app; simpl;
      by rewrite ?app_nil_r.
  - destruct cb, cb'; rewrite ?boundaries_app; simpl; by rewrite ?app_nil_r.
Qed.

Lemma agree_invoke v (service1 service2 : Service) url cb cb' :
  agree same_effects (service1 url cb) (service2 url cb') →
  agree ScrapingManager.same_run
    (ScrapingManager.invoke v service1 url cb)
    (ScrapingManager.invoke v service2 url cb').
Proof.
  intros Hs [w1 tr1] [w2 tr2] (Hw & He & Hb). cbn [fst snd] in *. subst w2.
  destruct (Hs (w1, []) (w1, [])) as [Hres [Hw' He']]; [done|].
  unfold ScrapingManager.invoke.
  destruct (service1 url cb (w1, [])) as [res1 [w1' evs1]].
  destruct (service2 url cb' (w1, [])) as [res2 [w2' evs2]].
  cbn [fst snd] in *. subst res2 w2'. split; [done|].
  split_and!; cbn [fst snd]; [done| |].
  - rewrite !emitted_app, !emitted_emit, !effects_app. cbn.
    by rewrite He, He'.
  - rewrite !boundaries_app, !boundaries_emit. cbn. by rewrite Hb.
Qed.

Ltac manager_step :=
  lazymatch goal with
  | |- agree _ (mret _) (mret _) => apply agree_ret
  | |- agree _ (ScrapingManager.log_line _ _) (ScrapingManager.log_line _ _) =>
      apply agree_log_line
  | |- agree _ (ScrapingManager.invoke _ _ _ _) (ScrapingManager.invoke _ _ _ _) =>
      apply agree_invoke;
      first [apply bs4_agree | apply firecrawl_agree
            | apply crawl4ai_agree | apply playwright_agree]
  | |- agree _ (mbind _ _) (mbind _ _) => apply agree_bind; [|intros ?]
  | |- agree _ (if ?b then _ else _) _ => destruct b
  | |- agree _ (match ?o with _ => _ end) _ => destruct o
  end.

Lemma manager_agree api_key crawl4ai_module playwright_module url method cb cb' :
  agree ScrapingManager.same_run
    (ScrapingManager.scrape_url
       (ScrapingManager.init api_key crawl4ai_module playwright_module)
       url method cb)
    (ScrapingManager.scrape_url
       (ScrapingManager.init api_key crawl4ai_module playwright_module)
       url method cb').
Proof.
  unfold ScrapingManager.scrape_url, ScrapingManager._scrape_auto,
    ScrapingManager.init.
  cbn [ScrapingManager.bs4_service ScrapingManager.firecrawl_service
       ScrapingManager.crawl4ai_service ScrapingManager.playwright_service].
  destruct crawl4ai_module, playwright_module; cbn [fmap option_fmap option_map];
    repeat manager_step.
Qed.

(** X18: the log callback only observes.  For the manager the application
    builds, whatever the method, a fetch with a log callback and the same
    fetch without one return the same result, leave the same world and
    enter and leave the same strategies, with the same requests and the
    same pauses in the same order. *)
Theorem logging_is_observational (api_key : string)
    (crawl4ai_module playwright_module : option bool) (url method : string)
    (cb : bool) (w : World) :
  let manager := ScrapingManager.init api_key crawl4ai_module playwright_module in
  let '(res, (w', tr)) := ScrapingManager.scrape_url manager url method cb (w, []) in
  let '(res0, (w0, tr0)) :=
    ScrapingManager.scrape_url manager url method false (w, []) in
  res = res0 ∧ w' = w0 ∧
  effects (ScrapingManager.emitted tr) = effects (ScrapingManager.emitted tr0) ∧
  ScrapingManager.boundaries tr = ScrapingManager.boundaries tr0.
Proof.
  cbn zeta.
  destruct (manager_agree api_key crawl4ai_module playwright_module url method
              cb false (w, []) (w, [])) as [Hres (Hw & He & Hb)]; [done|].
  destruct (ScrapingManager.scrape_url _ url method cb (w, [])) as [res [w' tr]].
  destruct (ScrapingManager.scrape_url _ url method false (w, [])) as [res0 [w0 tr0]].
  done.
Qed.

Lemma extract_attributes_agree client md headers category cb cb' mm43 :
  agree same_effects
    (DeepSeekService.extract_attributes client md headers category cb mm43)
    (DeepSeekService.extract_attributes client md headers category cb' mm43).
Proof.
  unfold DeepSeekService.extract_attributes.
  repeat agree_step.
  all: destruct cb'; intros [w1 e1] [w2 e2] [Hw He]; cbn [fst snd] in Hw, He;
    unfold log, emit, mbind, State_bind, mret, State_ret; cbn [fst snd];
    (split; [done|]);
    (split; cbn [fst snd];
       [done|rewrite ?effects_app; simpl; by rewrite ?app_nil_r]).
Qed.

Lemma process_sources_agree client headers category cb cb' mm43 sources :
  ∀ results,
    agree same_effects
      (DeepSeekService.process_sources client headers category cb mm43
         sources results)
      (DeepSeekService.process_sources client headers category cb' mm43
         sources results).
Proof.
  induction sources as [|[url_key content_data] sources IH]; intros results;
    cbn [DeepSeekService.process_sources]; [apply agree_ret|].
  apply agree_bind; [|intros ?; apply IH].
  unfold DeepSeekService.process_source.
  repeat first [apply extract_attributes_agree | agree_step].
Qed.

(** X19: the same for the extraction.  With a log callback or without,
    the coordinator returns the same matrix, leaves the same world and
    sends the same requests to the language model in the same order. *)
Theorem extraction_logging_is_observational (client : bool)
    (markdown_contents : list (string * ScrapeResult)) (headers : list string)
    (category : string) (cb : bool) (mm43_context : string) (w : World) :
  let '(matrix, (w', evs)) :=
    DeepSeekService.extract_from_multiple_sources client markdown_contents
      headers category cb mm43_context (w, []) in
  let '(matrix0, (w0, evs0)) :=
    DeepSeekService.extract_from_multiple_sources client markdown_contents
      headers category false mm43_context (w, []) in
  matrix = matrix0 ∧ w' = w0 ∧ effects evs = effects evs0.
Proof.
  unfold DeepSeekService.extract_from_multiple_sources.
  destruct (process_sources_agree client headers category cb false mm43_context
              markdown_contents (list_to_map ((λ h, (h, ∅)) <$> headers))
              (w, []) (w, [])) as [Hres [Hw He]]; [done|].
  destruct (DeepSeekService.process_sources client headers category cb _ _ _ _)
    as [matrix [w' evs]].
  destruct (DeepSeekService.process_sources client headers category false _ _ _ _)
    as [matrix0 [w0 evs0]].
  done.
Qed.
End Observation.

(* ================================================================== *)
(** * The page filter *)

Section PageFilterFacts.
Import ContentFilter.

Lemma name_prune doomed n : name (prune doomed n) = name n.
Proof. by destruct n. Qed.

Lemma tags_is_tag n e : e ∈ tags n → is_tag e = true.
Proof.
  revert e. induction n as [s|nm a children IH] using Node_forall_ind;
    intros e; simpl.
  { intros He. by apply not_elem_of_nil in He. }
  intros [->|He]%elem_of_cons; [done|].
  apply elem_of_flat_map in He as (c & Hc & He).
  rewrite Forall_forall in IH. by apply (IH c).
Qed.

Lemma tags_self e : is_tag e = true → e ∈ tags e.
Proof. destruct e; [done|]. intros _. apply list_elem_of_here. Qed.

Lemma elem_of_pruned_children (doomed : Node → bool) (children : list Node) c' :
  c' ∈ omap (λ c, if doomed c then None else Some (prune doomed c)) children ↔
  ∃ c, c ∈ children ∧ doomed c = false ∧ c' = prune doomed c.
Proof.
  rewrite list_elem_of_omap. split.
  - intros (c & Hc & Hf). exists c. destruct (doomed c); naive_solver.
  - intros (c & Hc & Hd & ->). exists c. by rewrite Hd.
Qed.

(** What is left of a tree: every element comes from an element of the
    tree that was not doomed, the root apart, which is not tested here. *)
Lemma tags_prune (doomed : Node → bool) n e' :
  e' ∈ tags (prune doomed n) →
  e' = prune doomed n ∨
  ∃ e, e ∈ descendants n ∧ doomed e = false ∧ e' = prune doomed e.
Proof.
  revert e'. induction n as [s|nm a children IH] using Node_forall_ind;
    intros e'; simpl.
  { intros He. by apply not_elem_of_nil in He. }
  intros [->|He]%elem_of_cons; [by left|]. right.
  apply elem_of_flat_map in He as (c' & Hc' & He).
  apply elem_of_pruned_children in Hc' as (c & Hc & Hd & ->).
  rewrite Forall_forall in IH.
  destruct (IH c Hc e' He) as [->|(e & Hin & Hde & ->)].
  - exists c. split_and!; [|done..]. unfold descendants. simpl.
    apply elem_of_flat_map. exists c. split; [done|].
    apply tags_self. apply tags_is_tag in He. by destruct c.
  - exists e. split_and!; [|done..]. unfold descendants. simpl.
    apply elem_of_flat_map. exists c. split; [done|]. by apply descendants_tags.
Qed.

Lemma find_all_prune (doomed : Node → bool) soup e' :
  e' ∈ find_all (prune_soup doomed soup) →
  ∃ e, e ∈ find_all soup ∧ doomed e = false ∧ e' = prune doomed e.
Proof.
  unfold find_all, prune_soup. intros (c' & Hc' & He)%elem_of_flat_map.
  apply elem_of_pruned_children in Hc' as (c & Hc & Hd & ->).
  destruct (tags_prune doomed c e' He) as [->|(e & Hin & Hde & ->)].
  - exists c. split_and!; [|done..].
    apply elem_of_flat_map. exists c. split; [done|].
    apply tags_self. apply tags_is_tag in He. by destruct c.
  - exists e. split_and!; [|done..].
    apply elem_of_flat_map. exists c. split; [done|]. by apply descendants_tags.
Qed.

Lemma largest_elem best rest : largest best rest ∈ best :: rest.
Proof.
  revert best. induction rest as [|e rest IH]; intros best; simpl.
  { apply list_elem_of_here. }
  destruct (_ <? _)%nat.
  - apply list_elem_of_further, IH.
  - specialize (IH best). apply elem_of_cons in IH as [->|IH].
    + apply list_elem_of_here.
    + by do 2 apply list_elem_of_further.
Qed.

Lemma largest_ge_best rest : ∀ best,
  String.length (get_text best) ≤ String.length (get_text (largest best rest)).
Proof.
  induction rest as [|e rest IH]; intros best; simpl; [done|].
  destruct (_ <? _)%nat eqn:Hlt; [|apply IH].
  apply Nat.ltb_lt in Hlt. etrans; [|apply IH]. lia.
Qed.

Lemma largest_max rest : ∀ best q,
  q ∈ best :: rest →
  String.length (get_text q) ≤ String.length (get_text (largest best rest)).
Proof.
  induction rest as [|e rest IH]; intros best q.
  { intros ->%list_elem_of_singleton. done. }
  intros [->|Hq]%elem_of_cons; [apply largest_ge_best|].
  simpl. destruct (_ <? _)%nat eqn:Hlt.
  - by apply IH.
  - apply Nat.ltb_ge in Hlt. apply elem_of_cons in Hq as [->|Hq].
    + etrans; [exact Hlt|]. apply largest_ge_best.
    + apply IH. by apply list_elem_of_further.
Qed.

(** Step 4 returns the tree of steps 1 to 3 or one element of it. *)
Lemma clean_soup_cases soup :
  clean_soup soup = pruned soup ∨
  ∃ x, clean_soup soup = [x] ∧ x ∈ find_all (pruned soup).
Proof.
  unfold clean_soup. fold (pruned soup).
  destruct (filter (λ e, _is_product_element e = true) (find_all (pruned soup)))
    as [|first others] eqn:Hp.
  - destruct (filter (λ e, name e = "body") (find_all (pruned soup)))
      as [|body rest] eqn:Hb; [by left|].
    right. exists body. split; [done|].
    assert (body ∈ filter (λ e, name e = "body") (find_all (pruned soup))) as Hin
      by (rewrite Hb; apply list_elem_of_here).
    by apply list_elem_of_filter in Hin as [_ ?].
  - right. exists (largest first others). split; [done|].
    pose proof (largest_elem first others) as Hin. rewrite <- Hp in Hin.
    by apply list_elem_of_filter in Hin as [_ ?].
Qed.

Lemma find_all_elem soup x e :
  x ∈ find_all soup → e ∈ tags x → e ∈ find_all soup.
Proof.
  unfold find_all. intros (c & Hc & Hx)%elem_of_flat_map He.
  apply elem_of_flat_map. exists c. split; [done|]. by eapply tags_trans.
Qed.

Lemma find_all_clean_soup soup e :
  e ∈ find_all (clean_soup soup) → e ∈ find_all (pruned soup).
Proof.
  destruct (clean_soup_cases soup) as [->|(x & -> & Hx)]; [done|].
  unfold find_all at 1. simpl. rewrite app_nil_r. by apply find_all_elem.
Qed.

(** X20: whatever the page, no element named in [REMOVE_TAGS] (script,
    style, header, footer, nav, form, button, ...) is left anywhere in the
    tree that [clean_html_for_product] prints. *)
Theorem cleaned_page_has_no_unwanted_tag (soup : list Node) (e : Node) :
  e ∈ find_all (clean_soup soup) → name e ∉ REMOVE_TAGS.
Proof.
  intros He%find_all_clean_soup. unfold pruned in He.
  apply find_all_prune in He as (e2 & He2 & _ & ->).
  apply find_all_prune in He2 as (e1 & He1 & _ & ->).
  apply find_all_prune in He1 as (e0 & He0 & Hd & ->).
  rewrite !name_prune. unfold unwanted in Hd.
  assert (is_tag e0 = true) as Htag.
  { unfold find_all in He0. apply elem_of_flat_map in He0 as (c & _ & He0).
    by eapply tags_is_tag. }
  rewrite Htag in Hd. simpl in Hd. by apply bool_decide_eq_false in Hd.
Qed.

Lemma cleaned_page_has_no_unwanted_tag_witness :
  name (Tag "h1" ∅ [Text "Phone X"]) ∉ REMOVE_TAGS.
Proof.
  apply (cleaned_page_has_no_unwanted_tag
           [Tag "body" ∅ [Tag "h1" ∅ [Text "Phone X"]; Tag "script" ∅ [Text "x"]]]).
  vm_compute. apply list_elem_of_further, list_elem_of_here.
Defined.

Lemma strings_pruned_children (doomed : Node → bool) (children : list Node) :
  Forall (λ c, strings (prune doomed c) `sublist_of` strings c) children →
  flat_map strings
    (omap (λ c, if doomed c then None else Some (prune doomed c)) children)
  `sublist_of` flat_map strings children.
Proof.
  induction 1 as [|c children Hc _ IH]; simpl; [done|].
  destruct (doomed c); simpl.
  - by apply sublist_inserts_l.
  - by apply sublist_app.
Qed.

Lemma strings_prune (doomed : Node → bool) n :
  strings (prune doomed n) `sublist_of` strings n.
Proof.
  induction n as [s|nm a children IH] using Node_forall_ind; simpl; [done|].
  by apply strings_pruned_children.
Qed.

Lemma strings_prune_soup (doomed : Node → bool) soup :
  flat_map strings (prune_soup doomed soup) `sublist_of` flat_map strings soup.
Proof.
  apply strings_pruned_children, Forall_forall. intros c _. apply strings_prune.
Qed.

Lemma strings_flat_map (l : list Node) c :
  c ∈ l → strings c `sublist_of` flat_map strings l.
Proof.
  intros (pre & post & ->)%list_elem_of_split. rewrite flat_map_app. simpl.
  apply sublist_inserts_l, sublist_inserts_r. done.
Qed.

Lemma strings_tags n e : e ∈ tags n → strings e `sublist_of` strings n.
Proof.
  revert e. induction n as [s|nm a children IH] using Node_forall_ind;
    intros e; simpl.
  { intros He. by apply not_elem_of_nil in He. }
  intros [->|He]%elem_of_cons; [done|].
  apply elem_of_flat_map in He as (c & Hc & He).
  rewrite Forall_forall in IH. etrans; [by apply (IH c)|].
  by apply strings_flat_map.
Qed.

(** X21: the filter only takes text away.  The strings of the tree that
    [clean_html_for_product] prints are strings of the page, in the order
    of the page: nothing is added, changed, repeated or moved. *)
Theorem cleaned_page_text_is_page_text (soup : list Node) :
  flat_map strings (clean_soup soup) `sublist_of` flat_map strings soup.
Proof.
  assert (flat_map strings (pruned soup) `sublist_of` flat_map strings soup)
    as Hpruned.
  { unfold pruned. etrans; [apply strings_prune_soup|].
    etrans; [apply strings_prune_soup|]. apply strings_prune_soup. }
  destruct (clean_soup_cases soup) as [->|(x & -> & Hx)]; [done|].
  etrans; [|exact Hpruned]. simpl. rewrite app_nil_r.
  unfold find_all in Hx. apply elem_of_flat_map in Hx as (c & Hc & Hx).
  etrans; [by apply strings_tags|]. by apply strings_flat_map.
Qed.

(** An element that is not doomed, below elements that are not doomed,
    stays in the tree. *)
Lemma prune_keeps (doomed : Node → bool) e n :
  e ∈ tags n →
  doomed e = false → (∀ a, e ∈ descendants a → doomed a = false) →
  prune doomed e ∈ tags (prune doomed n).
Proof.
  intros He Hde Habove. revert He.
  induction n as [s|nm a children IH] using Node_forall_ind; simpl.
  { intros He. by apply not_elem_of_nil in He. }
  intros [->|He]%elem_of_cons; [apply list_elem_of_here|].
  apply list_elem_of_further.
  apply elem_of_flat_map in He as (c & Hc & He).
  rewrite Forall_forall in IH. specialize (IH c Hc He).
  apply elem_of_flat_map. exists (prune doomed c). split; [|done].
  apply elem_of_pruned_children. exists c. split_and!; [done| |done].
  destruct c as [s|nm' a' children']; [by apply not_elem_of_nil in He|].
  simpl in He. apply elem_of_cons in He as [<-|He]; [done|].
  by apply Habove.
Qed.

(** X22: step 2 keeps what is protected.  An element of the page whose own
    visible text is longer than 100 characters, or that matches the product
    patterns by class or id, or that has such an element below it, is still
    in the tree after the noise elements have been removed, and so is every
    element above it. *)
Theorem protected_element_stays (soup : list Node) (e : Node) :
  e ∈ find_all soup → protected e →
  prune noise_to_remove e ∈ find_all (prune_soup noise_to_remove soup) ∧
  ∀ a, a ∈ find_all soup → e ∈ descendants a →
       prune noise_to_remove a ∈ find_all (prune_soup noise_to_remove soup).
Proof.
  assert (∀ x, x ∈ find_all soup → protected x →
               prune noise_to_remove x
               ∈ find_all (prune_soup noise_to_remove soup)) as Hstay.
  { intros x Hx Hp. unfold find_all in *.
    apply elem_of_flat_map in Hx as (c & Hc & Hx).
    assert (noise_to_remove x = false) as Hdx by by apply protected_kept.
    assert (∀ a, x ∈ descendants a → noise_to_remove a = false) as Habove.
    { intros a Ha. apply protected_kept. by eapply protected_above. }
    apply elem_of_flat_map. exists (prune noise_to_remove c).
    split; [|by apply prune_keeps].
    apply elem_of_pruned_children. exists c. split_and!; [done| |done].
    destruct c as [s|nm a children]; [by apply not_elem_of_nil in Hx|].
    simpl in Hx. apply elem_of_cons in Hx as [<-|Hx]; [done|].
    by apply Habove. }
  intros He Hp. split; [by apply Hstay|].
  intros a Ha Hea. apply Hstay; [done|]. by eapply protected_above.
Qed.

Lemma protected_element_stays_witness :
  prune noise_to_remove spec_block_class
  ∈ find_all (prune_soup noise_to_remove (page_with spec_block_class)) ∧
  ∀ a, a ∈ find_all (page_with spec_block_class) →
       spec_block_class ∈ descendants a →
       prune noise_to_remove a
       ∈ find_all (prune_soup noise_to_remove (page_with spec_block_class)).
Proof.
  apply (protected_element_stays (page_with spec_block_class) spec_block_class).
  - vm_compute. do 3 apply list_elem_of_further. apply list_elem_of_here.
  - right. left. vm_compute. reflexivity.
Defined.

(** X23: step 4 narrows the page to one product container.  When an
    element of the pruned tree matches the product patterns by class or id,
    what is printed is a single such element, one whose text is at least as
    long as that of every other, and the rest of the page is dropped; when
    none does, it is the body if there is one and the whole pruned tree
    otherwise. *)
Theorem largest_product_container (soup : list Node) :
  let containers :=
    filter (λ e, _is_product_element e = true) (find_all (pruned soup)) in
  match containers with
  | [] =>
      clean_soup soup
      = match filter (λ e, name e = "body") (find_all (pruned soup)) with
        | body :: _ => [body]
        | [] => pruned soup
        end
  | _ :: _ =>
      ∃ x, clean_soup soup = [x] ∧ x ∈ containers ∧
           ∀ q, q ∈ containers →
                String.length (get_text q) ≤ String.length (get_text x)
  end.
Proof.
  cbn zeta. unfold clean_soup. fold (pruned soup).
  destruct (filter (λ e, _is_product_element e = true) (find_all (pruned soup)))
    as [|first others]; [done|].
  exists (largest first others). split_and!; [done|apply largest_elem|].
  intros q Hq. by apply largest_max.
Qed.
End PageFilterFacts.

(* ================================================================== *)
(** * What a successful strategy returns *)

Section ContentFacts.
Context `{Runtime}.

Lemma bs4_attempt_content n url cb k acc s r :
  (BS4Service.attempt_once n url cb k acc s).1 = inl r →
  ∃ w0 response,
    (session_get url w0).1 = GetResponse response ∧
    BS4Service.failure_of (GetResponse response) = None ∧
    r = {| success := true;
           markdown := html2text (ContentFilter.filtered_or_minimal (content response));
           error := None; filename := filename r |}.
Proof.
  destruct s as [w evs].
  unfold BS4Service.attempt_once, BS4Service.try_body, BS4Service.handle,
    _save_markdown, ContentFilter.filtered_or_minimal,
    log, emit, in_world, mbind, State_bind, mret, State_ret.
  destruct (0 <? k)%nat, cb; cbn [fst snd].
  all: destruct (session_get url w) as [o w1] eqn:Hget; cbn [fst snd].
  all: destruct o as [|msg|msg|response]; cbn [fst snd]; try discriminate.
  all: unfold BS4Service.failure_of.
  all: destruct (status_code response =? 403)%Z eqn:H403;
    cbn [fst snd]; try discriminate.
  all: destruct (status_code response =? 429)%Z eqn:H429;
    cbn [fst snd]; try discriminate.
  all: destruct (status_code response =? 503)%Z eqn:H503;
    cbn [fst snd]; try discriminate.
  all: destruct (BS4Service.raise_for_status response) eqn:Hraise;
    cbn [fst snd]; try discriminate.
  all: destruct (String.length _ <? 500)%nat eqn:Hlen; cbn [fst snd].
  all: match goal with
       | |- context [ write_artifact ?a ?b ?c ?d ] =>
           destruct (write_artifact a b c d) as [[name|e] w2]; cbn [fst snd]
       end.
  all: intros [= <-]; exists w, response;
    rewrite Hget, H403, H429, H503, Hraise, Hlen; done.
Qed.

(** X24: a success of the BS4 service carries the page of a response to a
    GET of its URL whose status is not an error (not 4xx, not 5xx): the
    markdown is the conversion of the cleaned page, or of the minimally
    cleaned page when the cleaned one has fewer than 500 characters, and
    the error is [None]. *)
Theorem bs4_success_content (max_retries : nat) (url : string) (cb : bool)
    (s : SvcState) :
  let res := (BS4Service.scrape_url max_retries url cb s).1 in
  success res = true →
  ∃ w0 response,
    (session_get url w0).1 = GetResponse response ∧
    BS4Service.failure_of (GetResponse response) = None ∧
    markdown res
    = html2text (ContentFilter.filtered_or_minimal (content response)) ∧
    error res = None.
Proof.
  cbn zeta. unfold BS4Service.scrape_url, mbind, State_bind, mret, State_ret.
  destruct (log cb _ s) as [[] s0].
  match goal with
  | |- context [ for_each ?xs ?body ?acc s0 ] =>
      pose proof (for_each_inl
                    (λ r, ∃ w0 response,
                       (session_get url w0).1 = GetResponse response ∧
                       BS4Service.failure_of (GetResponse response) = None ∧
                       r = {| success := true;
                              markdown := html2text
                                (ContentFilter.filtered_or_minimal (content response));
                              error := None; filename := filename r |})
                    body
                    (λ k a s' r', bs4_attempt_content max_retries url cb k a s' r')
                    xs acc s0) as Hloop;
      destruct (for_each xs body acc s0) as [[r|le] s1]
  end.
  - cbn [fst snd]. intros _.
    destruct (Hloop r eq_refl) as (w0 & response & Hget & Hok & ->).
    by exists w0, response.
  - destruct (log cb _ s1) as [[] s2]. cbn. discriminate.
Qed.

(** X25: the Playwright service, when its package is installed, fails with
    the message of the exception that ended the browser session, and
    otherwise succeeds with the page of the session: cleaned, or minimally
    cleaned when the cleaned page has fewer than 500 characters, converted
    to markdown and passed through the service's [_clean_markdown]. *)
Theorem playwright_result (url : string) (cb : bool) (w : World) :
  let res := (PlaywrightService.scrape_url true url cb (w, [])).1 in
  match (playwright_session url w).1.2 with
  | inl msg => res = PlaywrightService.failed msg
  | inr raw_content =>
      success res = true ∧ error res = None ∧
      markdown res
      = PlaywrightService._clean_markdown
          (html2text (ContentFilter.filtered_or_minimal raw_content))
  end.
Proof.
  cbn zeta.
  unfold PlaywrightService.scrape_url, PlaywrightService.try_body,
    PlaywrightService.failed, _save_markdown, ContentFilter.filtered_or_minimal,
    log, emit, in_world, mbind, State_bind, mret, State_ret.
  destruct cb; cbn [negb fst snd].
  all: destruct (playwright_session url w) as [[lines o] w1]; cbn [fst snd].
  all: try match goal with
           | |- context [ @mapM ?M ?mb ?mr ?A ?B ?f ?l ?st ] =>
               destruct (@mapM M mb mr A B f l st) as [x [w2 evs2]]; cbn [fst snd]
           end.
  all: destruct o as [msg|raw]; cbn [fst snd]; [done|].
  all: destruct (String.length _ <? 500)%nat; cbn [fst snd].
  all: match goal with
       | |- context [ write_artifact ?a ?b ?c ?d ] =>
           destruct (write_artifact a b c d) as [[name|e] w3]; cbn [fst snd]
       end; done.
Qed.

(** X26: the Crawl4AI service, when its package is installed, surfaces the
    exception of the engine or the engine's own failure as the error of a
    failed result, fails when the engine has no markdown, and otherwise
    succeeds: with the conversion of the cleaned page when the engine gave
    the HTML and the cleaned page has 500 characters or more, with the
    engine's own markdown otherwise. *)
Theorem crawl4ai_result (url : string) (cb : bool) (w : World) :
  let res := (Crawl4AIService.scrape_url true url cb (w, [])).1 in
  match (crawl4ai_run url w).1.2 with
  | CrawlRaised msg => res = Crawl4AIService.failed msg
  | CrawlReturned r =>
      if negb (crawl_success r) then
        res = Crawl4AIService.failed ("Crawl failed: " +:+ crawl_error_message r)
      else if negb (Py.truthy (crawl_markdown r)) then
        res = Crawl4AIService.failed "No markdown content returned"
      else
        success res = true ∧ error res = None ∧
        markdown res
        = let cleaned_html := ContentFilter.clean_html_for_product (crawl_html r) in
          if Py.truthy (crawl_html r) &&
             negb (String.length cleaned_html <? 500)%nat
          then html2text cleaned_html else crawl_markdown r
  end.
Proof.
  cbn zeta.
  unfold Crawl4AIService.scrape_url, Crawl4AIService.try_body,
    Crawl4AIService.failed, _save_markdown,
    log, emit, in_world, mbind, State_bind, mret, State_ret.
  destruct cb; cbn [negb fst snd].
  all: destruct (crawl4ai_run url w) as [[lines o] w1]; cbn [fst snd].
  all: try match goal with
           | |- context [ @mapM ?M ?mb ?mr ?A ?B ?f ?l ?st ] =>
               destruct (@mapM M mb mr A B f l st) as [x [w2 evs2]]; cbn [fst snd]
           end.
  all: destruct o as [msg|cr]; cbn [fst snd]; [done|].
  all: destruct (crawl_success cr); cbn [negb fst snd]; [|done].
  all: destruct (Py.truthy (crawl_markdown cr)); cbn [negb fst snd]; [|done].
  all: destruct (Py.truthy (crawl_html cr)); cbn [andb negb fst snd].
  all: try destruct (String.length _ <? 500)%nat; cbn [andb negb fst snd].
  all: match goal with
       | |- context [ write_artifact ?a ?b ?c ?d ] =>
           destruct (write_artifact a b c d) as [[name|e] w3]; cbn [fst snd]
       end; done.
Qed.
End ContentFacts.

(** A page that answers 200 at once. *)
Lemma bs4_success_content_witness :
  let rt := Scripted.always 200 "OK" in
  ∃ w0 response,
    (session_get "https://shop.example/p/1" w0).1 = GetResponse response ∧
    BS4Service.failure_of (GetResponse response) = None ∧
    markdown (BS4Service.scrape_url 3 "https://shop.example/p/1" false (0, [])).1
    = html2text (ContentFilter.filtered_or_minimal (content response)) ∧
    error (BS4Service.scrape_url 3 "https://shop.example/p/1" false (0, [])).1 = None.
Proof.
  intros rt.
  apply (bs4_success_content (H := rt) 3 "https://shop.example/p/1" false (0, [])).
  vm_compute. reflexivity.
Defined.

(* ================================================================== *)
(** * The markdown clean-up of the Playwright service *)

Section CleanMarkdownFacts.
Import PlaywrightService.

Lemma truthy_strip s : Py.truthy (Py.strip s) = negb (Py.blank s).
Proof.
  destruct (Py.blank s) eqn:Hb.
  - by rewrite (strip_blank s Hb).
  - destruct (Py.strip s) eqn:Hs; [|done]. apply strip_empty in Hs. congruence.
Qed.

Lemma strip_is_empty s : bool_decide (Py.strip s = "") = Py.blank s.
Proof.
  destruct (Py.blank s) eqn:Hb.
  - apply bool_decide_eq_true. by apply strip_blank.
  - apply bool_decide_eq_false. intros Hs%strip_empty. congruence.
Qed.

Lemma no_blank_run_snoc lines l :
  no_blank_run (lines ++ [l])
  = no_blank_run lines &&
    match last lines with
    | Some a => negb (Py.blank a && Py.blank l)
    | None => true
    end.
Proof.
  induction lines as [|a lines IH]; [done|].
  destruct lines as [|b lines].
  - simpl. by rewrite andb_true_r.
  - change ((a :: b :: lines) ++ [l]) with (a :: (b :: lines) ++ [l]).
    change (no_blank_run (a :: (b :: lines) ++ [l]))
      with (negb (Py.blank a && Py.blank b) && no_blank_run ((b :: lines) ++ [l])).
    rewrite IH. change (last (a :: b :: lines)) with (last (b :: lines)).
    change (no_blank_run (a :: b :: lines))
      with (negb (Py.blank a && Py.blank b) && no_blank_run (b :: lines)).
    by rewrite andb_assoc.
Qed.

Lemma no_blank_run_app_l l1 l2 :
  no_blank_run (l1 ++ l2) = true → no_blank_run l1 = true.
Proof.
  induction l1 as [|a l1 IH]; [done|].
  destruct l1 as [|b l1]; [done|].
  change ((a :: b :: l1) ++ l2) with (a :: b :: l1 ++ l2).
  change (no_blank_run (a :: b :: l1 ++ l2))
    with (negb (Py.blank a && Py.blank b) && no_blank_run ((b :: l1) ++ l2)).
  change (no_blank_run (a :: b :: l1))
    with (negb (Py.blank a && Py.blank b) && no_blank_run (b :: l1)).
  intros [-> Hrest]%andb_true_iff. by rewrite IH.
Qed.

(** One turn of the loop: the line is dropped or appended. *)
Lemma clean_line_cases cleaned line :
  (clean_line cleaned line = cleaned ∧
   (Py.blank line = true ∨ should_skip line = true)) ∨
  (clean_line cleaned line = cleaned ++ [line] ∧
   (Py.blank line = false → should_skip line = false) ∧
   match last cleaned with
   | Some a => negb (Py.blank a && Py.blank line) = true
   | None => True
   end).
Proof.
  unfold clean_line. rewrite truthy_strip, negb_involutive.
  destruct (Py.blank line) eqn:Hb.
  - destruct (last cleaned) as [a|]; [|right; done].
    rewrite strip_is_empty. destruct (Py.blank a); [left; auto|right; done].
  - destruct (should_skip line) eqn:Hs; [left; auto|right].
    split_and!; [done..|]. destruct (last cleaned); [|done].
    by rewrite andb_false_r.
Qed.

Lemma clean_lines_spec lines : ∀ cleaned,
  no_blank_run cleaned = true →
  ∃ kept,
    foldl clean_line cleaned lines = cleaned ++ kept ∧
    kept `sublist_of` lines ∧
    no_blank_run (cleaned ++ kept) = true ∧
    Forall (λ l, Py.blank l = false → should_skip l = false) kept ∧
    filter (λ l, Py.blank l = false) kept
    = filter (λ l, Py.blank l = false ∧ should_skip l = false) lines.
Proof.
  induction lines as [|line lines IH]; intros cleaned Hrun.
  { exists []. rewrite app_nil_r. done. }
  cbn [foldl].
  destruct (clean_line_cases cleaned line) as [[-> Hdrop]|(-> & Hok & Hlast)].
  - destruct (IH cleaned Hrun) as (kept & -> & Hsub & Hrun' & Hall & Hfilter).
    exists kept. split_and!; [done|by apply sublist_cons|done..|].
    rewrite filter_cons_False; [done|]. intros [Hb Hs]. destruct Hdrop; congruence.
  - destruct (IH (cleaned ++ [line])) as (kept & -> & Hsub & Hrun' & Hall & Hfilter).
    { rewrite no_blank_run_snoc, Hrun. by destruct (last cleaned). }
    exists (line :: kept). rewrite <- app_assoc in *.
    split_and!; [done|by apply sublist_skip|done|by constructor|].
    destruct (Py.blank line) eqn:Hb.
    + rewrite !filter_cons_False;
        [done|first [congruence | intros [? _]; congruence]..].
    + rewrite !filter_cons_True; [by rewrite Hfilter|auto|done].
Qed.

(** X27: [_clean_markdown] only drops lines.  The lines it keeps are lines
    of the input in their order; no two blank lines follow each other (a run
    of blank lines is cut to its first line); no kept line with text matches
    a skip pattern; and every line with text that matches none is kept. *)
Theorem clean_markdown_lines (markdown : string) :
  ∃ kept,
    _clean_markdown markdown = Py.join (String FirecrawlService.newline "") kept ∧
    kept `sublist_of` Py.split FirecrawlService.newline markdown ∧
    no_blank_run kept = true ∧
    Forall (λ l, Py.blank l = false → should_skip l = false) kept ∧
    filter (λ l, Py.blank l = false) kept
    = filter (λ l, Py.blank l = false ∧ should_skip l = false)
        (Py.split FirecrawlService.newline markdown).
Proof.
  destruct (clean_lines_spec (Py.split FirecrawlService.newline markdown) [])
    as (kept & Hk & Hsub & Hrun & Hall & Hfilter); [done|].
  exists kept. unfold _clean_markdown. rewrite Hk. done.
Qed.

Lemma split_parts_no_sep sep s :
  Forall (λ p, sep ∉ list_ascii_of_string p) (Py.split sep s).
Proof.
  induction s as [|c s IH]; [repeat constructor; apply not_elem_of_nil|].
  rewrite split_cons. case_bool_decide as Hc.
  - constructor; [apply not_elem_of_nil|done].
  - destruct (Py.split sep s) as [|p ps]; [done|].
    apply Forall_cons in IH as [Hp Hps]. constructor; [|done].
    simpl. intros [->|Hin]%elem_of_cons; done.
Qed.

Lemma no_blank_run_last cleaned l rest :
  no_blank_run (cleaned ++ l :: rest) = true →
  match last cleaned with
  | Some a => negb (Py.blank a && Py.blank l) = true
  | None => True
  end.
Proof.
  intros Hrun.
  assert (no_blank_run (cleaned ++ [l]) = true) as Hrun'.
  { apply (no_blank_run_app_l _ rest). by rewrite <- app_assoc. }
  rewrite no_blank_run_snoc in Hrun'.
  apply andb_true_iff in Hrun' as [_ Hlast]. by destruct (last cleaned).
Qed.

(** Lines that are already clean go through the loop unchanged. *)
Lemma clean_lines_fixed kept : ∀ cleaned,
  no_blank_run (cleaned ++ kept) = true →
  Forall (λ l, Py.blank l = false → should_skip l = false) kept →
  foldl clean_line cleaned kept = cleaned ++ kept.
Proof.
  induction kept as [|l kept IH]; intros cleaned Hrun Hall.
  { by rewrite app_nil_r. }
  apply Forall_cons in Hall as [Hl Hall]. cbn [foldl].
  assert (clean_line cleaned l = cleaned ++ [l]) as ->.
  { pose proof (no_blank_run_last cleaned l kept Hrun) as Hlast.
    unfold clean_line. rewrite truthy_strip, negb_involutive.
    destruct (Py.blank l) eqn:Hb.
    - destruct (last cleaned) as [a|]; [|done]. rewrite strip_is_empty.
      rewrite andb_true_r in Hlast. by destruct (Py.blank a).
    - by rewrite Hl. }
  rewrite IH, <- app_assoc; [done| |done]. by rewrite <- app_assoc.
Qed.

(** X28: cleaning twice is cleaning once. *)
Theorem clean_markdown_idempotent (markdown : string) :
  _clean_markdown (_clean_markdown markdown) = _clean_markdown markdown.
Proof.
  destruct (clean_lines_spec (Py.split FirecrawlService.newline markdown) [])
    as (kept & Hk & Hsub & Hrun & Hall & _); [done|].
  assert (_clean_markdown markdown
          = Py.join (String FirecrawlService.newline "") kept) as ->.
  { unfold _clean_markdown. by rewrite Hk. }
  destruct kept as [|l kept]; [reflexivity|].
  unfold _clean_markdown. rewrite split_join; [|done|].
  - by rewrite clean_lines_fixed.
  - apply Forall_forall. intros x Hx.
    pose proof (split_parts_no_sep FirecrawlService.newline markdown) as Hparts.
    rewrite Forall_forall in Hparts. apply Hparts.
    by eapply elem_of_sublist.
Qed.
End CleanMarkdownFacts.

(* ================================================================== *)
(** * Several URLs with the Firecrawl service *)

Section MultipleUrlFacts.
Context `{Runtime}.
Import FirecrawlService.

Lemma scrape_from_spec api_key total cb urls : ∀ i s,
  let '(results, s') := scrape_from api_key total i urls cb s in
  results.*1 = (λ k, "url" +:+ pretty (k + 1)) <$> seq i (length urls) ∧
  (∀ k url, urls !! k = Some url →
     if Py.blank url then results.*2 !! k = Some empty_url
     else ∃ s0, results.*2 !! k
                = Some (scrape_url api_key (Py.strip url) cb s0).1) ∧
  (Forall (λ url, Py.blank url = true) urls → s' = s).
Proof.
  induction urls as [|url urls IH]; intros i s.
  { cbn. split_and!; [done| |done]. intros k url Hk. by rewrite lookup_nil in Hk. }
  cbn [scrape_from]. unfold mbind, State_bind, mret, State_ret.
  fold (App.filled url). rewrite filled_not_blank.
  destruct (Py.blank url) eqn:Hb; cbn [negb].
  - specialize (IH (S i) s).
    destruct (scrape_from api_key total (S i) urls cb s) as [more s'].
    destruct IH as (Hkeys & Hvals & Hidle).
    split_and!.
    + cbn [fmap list_fmap fst length seq]. by rewrite <- Hkeys.
    + intros [|k] u Hk.
      * injection Hk as <-. by rewrite Hb.
      * apply (Hvals k u Hk).
    + intros [_ Hrest]%Forall_cons. by apply Hidle.
  - destruct (log cb _ s) as [[] s0].
    destruct (scrape_url api_key (Py.strip url) cb s0) as [res s1] eqn:Hres.
    specialize (IH (S i) s1).
    destruct (scrape_from api_key total (S i) urls cb s1) as [more s'].
    destruct IH as (Hkeys & Hvals & Hidle).
    split_and!.
    + cbn [fmap list_fmap fst length seq]. by rewrite <- Hkeys.
    + intros [|k] u Hk.
      * injection Hk as <-. rewrite Hb. exists s0. by rewrite Hres.
      * apply (Hvals k u Hk).
    + intros [Hu _]%Forall_cons. congruence.
Qed.

(** X29: [scrape_multiple_urls] returns one entry per URL under the keys
    url1, url2, ... in the order of the list, no key twice.  A URL that is
    empty or blank gets the "Empty URL" failure; any other one gets what
    [scrape_url] returns for the URL without the white space around it.
    When every URL is blank nothing is requested and nothing is logged. *)
Theorem scrape_multiple_urls_entries (api_key : string) (urls : list string)
    (cb : bool) (s : SvcState) :
  let '(results, s') := scrape_multiple_urls api_key urls cb s in
  results.*1 = (λ k, "url" +:+ pretty (k + 1)) <$> seq 0 (length urls) ∧
  NoDup results.*1 ∧
  (∀ k url, urls !! k = Some url →
     if Py.blank url then results.*2 !! k = Some empty_url
     else ∃ s0, results.*2 !! k
                = Some (scrape_url api_key (Py.strip url) cb s0).1) ∧
  (Forall (λ url, Py.blank url = true) urls → s' = s).
Proof.
  unfold scrape_multiple_urls.
  pose proof (scrape_from_spec api_key (length urls) cb urls 0 s) as Hspec.
  destruct (scrape_from api_key (length urls) 0 urls cb s) as [results s'].
  destruct Hspec as (Hkeys & Hvals & Hidle). split_and!; [done| |done..].
  rewrite Hkeys. apply NoDup_fmap_2; [|apply NoDup_seq].
  intros a b Hab. apply (inj (String.app "url")) in Hab.
  apply (inj pretty) in Hab. lia.
Qed.
End MultipleUrlFacts.

(* ================================================================== *)
(** * The whole pipeline *)

Section PipelineFacts.
Context `{Runtime}.
Import ScrapingManager App.

Lemma quiet_ret {A} (Q : A → Prop) (a : A) : Q a → quiet (mret a) Q.
Proof. intros HQ w tr. exists a, []. by rewrite app_nil_r. Qed.

Lemma quiet_bind {A B} (m : Mgr A) (k : A → Mgr B) (R : A → Prop) (Q : B → Prop) :
  quiet m R → (∀ a, R a → quiet (k a) Q) → quiet (m ≫= k) Q.
Proof.
  intros Hm Hk w tr. unfold mbind, State_bind.
  destruct (Hm w tr) as (a & lines1 & -> & Ha).
  destruct (Hk a Ha w (tr ++ (Emit <$> (LogLine <$> lines1))))
    as (b & lines2 & -> & Hb).
  exists b, (lines1 ++ lines2). by rewrite !fmap_app, app_assoc.
Qed.

Lemma quiet_log_line cb line : quiet (log_line cb line) (λ _, True).
Proof.
  intros w tr. destruct cb.
  - by exists tt, [line].
  - exists tt, []. by rewrite app_nil_r.
Qed.

Lemma quiet_read_pdf pdf_file : quiet (read_pdf pdf_file) (λ c, c = pdf_text pdf_file).
Proof.
  destruct pdf_file as [[c pages| |e]|]; cbn [read_pdf pdf_text];
    [| | |by apply quiet_ret];
    (eapply quiet_bind; [apply quiet_log_line|intros _ _]);
    (eapply quiet_bind; [apply quiet_log_line|intros _ _]);
    by apply quiet_ret.
Qed.

Lemma ensures_ret {A} (Q : A → Prop) (a : A) : Q a → ensures (mret a) Q.
Proof. intros HQ s. done. Qed.

Lemma ensures_bind {A B} (m : Mgr A) (k : A → Mgr B) (R : A → Prop) (Q : B → Prop) :
  ensures m R → (∀ a, R a → ensures (k a) Q) → ensures (m ≫= k) Q.
Proof.
  intros Hm Hk s. unfold mbind, State_bind. specialize (Hm s).
  destruct (m s) as [a s']. by apply Hk.
Qed.

Lemma ensures_true {A} (m : Mgr A) : ensures m (λ _, True).
Proof. done. Qed.

Lemma quiet_ensures {A} (m : Mgr A) (Q : A → Prop) : quiet m Q → ensures m Q.
Proof. intros Hm [w tr]. by destruct (Hm w tr) as (a & lines & -> & Ha). Qed.

Lemma clear_logs_run {A} (k : unit → Mgr A) (w : World) :
  (clear_logs ≫= k) (w, []) = k tt (w, []).
Proof. reflexivity. Qed.

(** The shape of the matrix, from any state. *)
Lemma matrix_shape client sources headers category cb mm43 (s : SvcState) :
  let matrix :=
    (DeepSeekService.extract_from_multiple_sources client sources headers
       category cb mm43 s).1 in
  dom matrix = list_to_set headers ∧
  ∀ h row, matrix !! h = Some row → dom row = list_to_set sources.*1.
Proof.
  cbn zeta. unfold DeepSeekService.extract_from_multiple_sources.
  set (results := list_to_map _ : gmap string (gmap string string)).
  assert (∀ h row, results !! h = Some row → h ∈ headers ∧ dom row = ∅) as Hrows.
  { intros h row Hrow. apply elem_of_list_to_map_2 in Hrow.
    apply list_elem_of_fmap in Hrow as (h' & [= -> ->] & Hin). by rewrite dom_empty_L. }
  assert (dom results = list_to_set headers) as Hdom.
  { subst results. rewrite dom_list_to_map_L.
    rewrite <- list_fmap_compose. simpl. by rewrite list_fmap_id. }
  pose proof (process_sources_rows client headers category cb mm43 sources results
                s ∅ Hrows) as [Hd Hr].
  split; [by rewrite Hd|].
  intros h row Hrow. destruct (Hr h row Hrow) as [_ ->].
  apply set_eq. intros x. rewrite elem_of_union, elem_of_empty. tauto.
Qed.

Lemma ensures_lift_extract client sources headers category cb mm43 :
  ensures
    (lift (DeepSeekService.extract_from_multiple_sources client sources headers
             category cb mm43))
    (λ matrix, dom matrix = list_to_set headers ∧
               ∀ h row, matrix !! h = Some row → dom row = list_to_set sources.*1).
Proof.
  intros [w tr]. unfold lift.
  pose proof (matrix_shape client sources headers category cb mm43 (w, [])) as Hshape.
  destruct (DeepSeekService.extract_from_multiple_sources _ _ _ _ _ _ (w, []))
    as [matrix [w' evs]].
  exact Hshape.
Qed.

Lemma ensures_scrape_slots manager i slots :
  ensures (scrape_slots manager i slots)
    (λ r, r.*1 = (λ k, "url" +:+ pretty (k + 1)) <$> seq i (length slots)).
Proof. intros s. apply scrape_slots_keys. Qed.

(** X30: the pipeline of the application.  Without a DeepSeek key it
    returns the empty dictionary and fetches nothing: the world is as it
    was, no strategy is entered and only log lines are written.  With a key
    the matrix it returns has one row for every extraction header of the
    category and no other row, and every row has exactly the columns url1,
    url2 and url3, whether or not the URLs were given and fetched, and the
    column pdf exactly when reading the uploaded PDF gave some text. *)
Theorem process_extraction_pipeline (DEEPSEEK_API_KEY : string)
    (CATEGORIES : gmap string (list string)) (manager : ScrapingManager.t)
    (form_data : gmap string string) (pdf_file : option PdfOutcome)
    (category : string) (w : World) :
  let '(matrix, (w', tr)) :=
    process_extraction DEEPSEEK_API_KEY CATEGORIES manager form_data pdf_file
      category (w, []) in
  if Py.truthy DEEPSEEK_API_KEY then
    dom matrix = list_to_set (get_extraction_headers CATEGORIES category) ∧
    ∀ h row, matrix !! h = Some row →
      dom row = {[ "url1"; "url2"; "url3" ]} ∪
                (if Py.truthy (pdf_text pdf_file) then {[ "pdf" ]} else ∅)
  else
    matrix = ∅ ∧ w' = w ∧ calls tr = [] ∧ effects (emitted tr) = [].
Proof.
  destruct (Py.truthy DEEPSEEK_API_KEY) eqn:Hkey.
  - assert (ensures
              (process_extraction DEEPSEEK_API_KEY CATEGORIES manager form_data
                 pdf_file category)
              (λ matrix,
                 dom matrix = list_to_set (get_extraction_headers CATEGORIES category) ∧
                 ∀ h row, matrix !! h = Some row →
                   dom row = {[ "url1"; "url2"; "url3" ]} ∪
                             (if Py.truthy (pdf_text pdf_file)
                              then {[ "pdf" ]} else ∅))) as Hens.
    { unfold process_extraction. rewrite Hkey. cbn [negb].
      do 6 (eapply ensures_bind; [apply ensures_true|intros _ _]).
      eapply ensures_bind; [apply quiet_ensures, quiet_read_pdf|].
      intros pdf_content ->.
      do 4 (eapply ensures_bind; [apply ensures_true|intros _ _]).
      eapply ensures_bind; [apply ensures_scrape_slots|].
      intros url_results Hkeys.
      eapply (ensures_bind _ _
                (λ r, r.*1 = ["url1"; "url2"; "url3"] ++
                             (if Py.truthy (pdf_text pdf_file) then ["pdf"] else []))).
      { destruct (Py.truthy (pdf_text pdf_file)).
        - eapply ensures_bind; [apply ensures_true|intros _ _].
          apply ensures_ret. rewrite fmap_app, Hkeys. reflexivity.
        - apply ensures_ret. rewrite Hkeys, app_nil_r. reflexivity. }
      intros scraped_results Hsources.
      do 5 (eapply ensures_bind; [apply ensures_true|intros _ _]).
      eapply ensures_bind; [apply ensures_lift_extract|].
      intros matrix [Hdom Hrows].
      do 4 (eapply ensures_bind; [apply ensures_true|intros _ _]).
      apply ensures_ret. split; [done|].
      intros h row Hrow. rewrite (Hrows h row Hrow), Hsources.
      apply set_eq. intros x.
      destruct (Py.truthy (pdf_text pdf_file)); cbn;
        rewrite !elem_of_union, ?elem_of_singleton, ?elem_of_empty; tauto. }
    specialize (Hens (w, [])).
    by destruct (process_extraction _ _ _ _ _ _ (w, [])) as [matrix [w' tr]].
  - unfold process_extraction. rewrite Hkey. cbn [negb].
    rewrite clear_logs_run.
    lazymatch goal with
    | |- context [ match ?m (w, []) with _ => _ end ] =>
        assert (quiet m (λ matrix, matrix = ∅)) as Hquiet
    end.
    { do 3 (eapply quiet_bind; [apply quiet_log_line|intros _ _]).
      eapply (quiet_bind _ _ (λ _, True)).
      { destruct (Py.truthy (default "" (form_data !! "mm43")));
          [apply quiet_log_line|by apply quiet_ret]. }
      intros _ _.
      eapply quiet_bind; [apply quiet_log_line|intros _ _].
      eapply quiet_bind; [apply quiet_read_pdf|intros pdf_content _].
      do 2 (eapply quiet_bind; [apply quiet_log_line|intros _ _]).
      by apply quiet_ret. }
    destruct (Hquiet w []) as (matrix & lines & -> & ->).
    split_and!; [done..| |].
    + induction lines as [|l lines IH]; [done|]. exact IH.
    + induction lines as [|l lines IH]; [done|]. exact IH.
Qed.
End PipelineFacts.
